(** * micro-cloud: the query-parameter object, the request guards and the
      generated CRUD endpoints

    A shallow embedding of [app/core/api/queryparams.py],
    [app/core/api/middleware.py], [app/core/api/routing.py],
    [app/core/utils/enums.py], [app/core/utils/custom_fields.py] and
    [ApiCredential.find_by_key] of [app/models/auth.py].

    Python values are an inductive type, a [dict] is an insertion-ordered
    association list, an exception is the [Raise] branch of [outcome], and
    the attributes a method assigns on [self] are threaded explicitly.
    What the libraries decide (bson's [ObjectId.is_valid], pydantic's lax
    validation of a [float | int | datetime] field, the storage engine's
    [count] and [find], PyJWT's [decode]) is a [Variable] of the section
    that uses it. *)

From Stdlib Require Import String Ascii List ZArith QArith_base Bool Lia.
Import ListNotations.
Set Warnings "-register-all".
Local Close Scope Q_scope.
Local Open Scope string_scope.
Local Open Scope list_scope.

(* ------------------------------------------------------------------ *)
(** ** The Python runtime the code relies on *)
(* ------------------------------------------------------------------ *)

Module Py.

(** Python values as they flow through filters, error details and
    documents. *)
Inductive value : Type :=
| VNone
| VBool (b : bool)
| VInt (z : Z)
| VFloat (q : Q)
| VDatetime (iso : string)
| VStr (s : string)
| VObjectId (hex : string)
| VList (items : list value)
| VDict (items : list (string * value)).

(** The exceptions the modelled code raises or lets through. *)
Inductive exn : Type :=
| IndexError (msg : string)
| KeyError (key : string)
| TypeError (msg : string)
| ValueError (msg : string)
| AttributeError (msg : string)
| ZeroDivisionError
| OverflowError (msg : string)
| ValidationError (msg : string)
| ExpiredSignatureError
| InvalidSignatureError
| PyJWTError (msg : string)
| DocumentNotFound
| CollectionWasNotInitialized
| HTTPException (status_code : Z) (detail : value)
| RequestValidationError (errors : value).

Inductive outcome (A : Type) : Type :=
| Return (a : A)
| Raise (e : exn).

Arguments Return {A} a.
Arguments Raise {A} e.

Definition bind {A B : Type} (c : outcome A) (k : A -> outcome B) : outcome B :=
  match c with
  | Return a => k a
  | Raise e => Raise e
  end.

(** A [for] loop whose body may raise: the first exception ends it. *)
Fixpoint for_each {A S : Type} (body : S -> A -> outcome S) (l : list A) (s : S)
  : outcome S :=
  match l with
  | [] => Return s
  | a :: l' => bind (body s a) (for_each body l')
  end.

(** *** int / int *)

(** The integer nearest to [n / d], ties to the even one, for [d > 0]. *)
Definition round_half_even (n d : Z) : Z :=
  let q := (n / d)%Z in
  let r := (n mod d)%Z in
  if (2 * r <? d)%Z then q
  else if (d <? 2 * r)%Z then (q + 1)%Z
  else if Z.even q then q else (q + 1)%Z.

(** [int(a / b)] for two [int]s.  True division gives the binary64
    nearest to the quotient, ties to even, whatever the size of [a] and
    [b]: a 53-bit significand [m] at the exponent [e] of the quotient, so
    [m * 2 ** (e - 52)]; it raises [OverflowError] when that is beyond the
    finite doubles and [ZeroDivisionError] for [b == 0].  [int] then
    truncates towards zero.  A quotient below one is [1.0] from
    [1 - 2 ** -54] on and truncates to zero below. *)
Definition int_true_div (a b : Z) : outcome Z :=
  if (b =? 0)%Z then Raise ZeroDivisionError
  else
    let sign := (Z.sgn a * Z.sgn b)%Z in
    let a := Z.abs a in
    let b := Z.abs b in
    if (a <? b)%Z
    then Return (if ((2 ^ 54 - 1) * b <=? 2 ^ 54 * a)%Z then sign else 0%Z)
    else
      let e0 := (Z.log2 a - Z.log2 b)%Z in
      let e := if (2 ^ e0 * b <=? a)%Z then e0 else (e0 - 1)%Z in
      let m := if (e <=? 52)%Z
               then round_half_even (a * 2 ^ (52 - e)) b
               else round_half_even a (b * 2 ^ (e - 52)) in
      if (1023 <? e)%Z || ((e =? 1023)%Z && (m =? 2 ^ 53)%Z)
      then Raise (OverflowError "integer division result too large for a float")
      else Return (sign * (if (e <=? 52)%Z
                           then m / 2 ^ (52 - e)
                           else m * 2 ^ (e - 52)))%Z.

(** Code that also reads and writes the storage backend. *)
Definition M (DB A : Type) : Type := DB -> outcome (A * DB).

Definition bind_db {DB A B : Type} (c : M DB A) (k : A -> M DB B) : M DB B :=
  fun db =>
    match c db with
    | Return (a, db') => k a db'
    | Raise e => Raise e
    end.

Definition return_db {DB A : Type} (a : A) : M DB A := fun db => Return (a, db).

Definition raise_db {DB A : Type} (e : exn) : M DB A := fun _ => Raise e.

(** [try: c except ...: raise handler(e)], for the exceptions [handler]
    catches. *)
Definition try_except {DB A : Type} (c : M DB A) (handler : exn -> option exn)
  : M DB A :=
  fun db =>
    match c db with
    | Raise e =>
        match handler e with
        | Some e' => Raise e'
        | None => Raise e
        end
    | result => result
    end.

(** A storage read, or a computation that does not touch storage. *)
Definition read {DB A : Type} (c : DB -> outcome A) : M DB A :=
  fun db => bind (c db) (fun a => Return (a, db)).

(** [x in l] for a list of strings. *)
Definition mem (x : string) (l : list string) : bool :=
  existsb (String.eqb x) l.

(** [l[i]]: an index out of range raises. *)
Definition index {A : Type} (l : list A) (i : nat) : outcome A :=
  match nth_error l i with
  | Some a => Return a
  | None => Raise (IndexError "list index out of range")
  end.

(** [( *init, last) = l]. *)
Definition unpack_last {A : Type} (l : list A) : outcome (list A * A) :=
  match rev l with
  | [] => Raise (ValueError "not enough values to unpack")
  | x :: r => Return (rev r, x)
  end.

(** *** dict: insertion-ordered, assignment to a present key keeps its place *)

Definition dict (V : Type) : Type := list (string * V).

Fixpoint get {V : Type} (d : dict V) (k : string) : option V :=
  match d with
  | [] => None
  | (k', v) :: d' => if String.eqb k' k then Some v else get d' k
  end.

Fixpoint set {V : Type} (d : dict V) (k : string) (v : V) : dict V :=
  match d with
  | [] => [(k, v)]
  | (k', v') :: d' =>
      if String.eqb k' k then (k', v) :: d' else (k', v') :: set d' k v
  end.

Definition contains {V : Type} (d : dict V) (k : string) : bool :=
  match get d k with
  | Some _ => true
  | None => false
  end.

Definition keys {V : Type} (d : dict V) : list string := map fst d.

(** [d.update(other)] *)
Definition update {V : Type} (d other : dict V) : dict V :=
  fold_left (fun acc kv => set acc (fst kv) (snd kv)) other d.

(** [dict(pairs)] *)
Definition of_items {V : Type} (pairs : list (string * V)) : dict V :=
  update [] pairs.

(** *** str *)

(** [s.split(sep)] for a non-empty separator: a left-to-right scan for
    non-overlapping occurrences; [skip] counts the characters of a matched
    separator still to be passed over. *)
Fixpoint split_from (sep : string) (skip : nat) (cur s : string) : list string :=
  match s with
  | EmptyString => [cur]
  | String c rest =>
      match skip with
      | S n => split_from sep n cur rest
      | O =>
          if String.prefix sep s
          then cur :: split_from sep (String.length sep - 1) EmptyString rest
          else split_from sep 0 (cur ++ String c EmptyString) rest
      end
  end.

Definition split (s sep : string) : list string := split_from sep 0 EmptyString s.

(** [sep.join(l)] *)
Definition join (sep : string) (l : list string) : string := String.concat sep l.

(** [s.startswith(p)] *)
Definition startswith (s p : string) : bool := String.prefix p s.

(** [x is None] *)
Definition is_none (v : value) : bool :=
  match v with
  | VNone => true
  | _ => false
  end.

(** Truth value of an object, as [not x] and [if x] test it. *)
Definition truthy (v : value) : bool :=
  match v with
  | VNone => false
  | VBool b => b
  | VInt z => negb (Z.eqb z 0)
  | VFloat q => negb (Z.eqb (Qnum q) 0)
  | VStr s => negb (String.eqb s EmptyString)
  | VList l => negb (Nat.eqb (List.length l) 0)
  | VDict d => negb (Nat.eqb (List.length d) 0)
  | VDatetime _ | VObjectId _ => true
  end.

End Py.

Import Py.

Declare Scope py_scope.
Delimit Scope py_scope with py.
Notation "x <- c ;; k" := (Py.bind c (fun x => k))
  (at level 61, c at next level, right associativity) : py_scope.
Notation "' pat <- c ;; k" := (Py.bind c (fun x => match x with pat => k end))
  (at level 61, pat pattern, c at next level, right associativity) : py_scope.
Notation "x <~ c ;; k" := (Py.bind_db c (fun x => k))
  (at level 61, c at next level, right associativity) : py_scope.
Notation "' pat <~ c ;; k" := (Py.bind_db c (fun x => match x with pat => k end))
  (at level 61, pat pattern, c at next level, right associativity) : py_scope.
Local Open Scope py_scope.

(* ------------------------------------------------------------------ *)
(** ** app/core/utils/enums.py *)
(* ------------------------------------------------------------------ *)

Module Enums.

Inductive ApplicationErrors : Type :=
| TOKEN_REQUIRED
| TOKEN_INVALID
| TOKEN_DENIED
| TOKEN_EXPIRED
| HEADER_ATTRIBUTE_MISSING
| HEADER_ATTRIBUTE_INVALID
| ENDPOINT_NOT_IMPLEMENTED
| ENDPOINT_OPERATION_DENIED
| VALIDATION_ERROR
| CUSTOM_ERROR.

(** [.value]: the code of the member. *)
Definition error_value (e : ApplicationErrors) : string :=
  match e with
  | TOKEN_REQUIRED => "TOKEN.REQUIRED"
  | TOKEN_INVALID => "TOKEN.INVALID"
  | TOKEN_DENIED => "TOKEN.DENIED"
  | TOKEN_EXPIRED => "TOKEN.EXPIRED"
  | HEADER_ATTRIBUTE_MISSING => "HEADER.ATTRIBUTE.MISSING"
  | HEADER_ATTRIBUTE_INVALID => "HEADER.ATTRIBUTE.INVALID"
  | ENDPOINT_NOT_IMPLEMENTED => "ENDPOINT.NOT.IMPLEMENTED"
  | ENDPOINT_OPERATION_DENIED => "ENDPOINT.OPERATION.RESTRICTED"
  | VALIDATION_ERROR => "validation_error"
  | CUSTOM_ERROR => "custom_error"
  end.

(** [.message] *)
Definition error_message (e : ApplicationErrors) : string :=
  match e with
  | TOKEN_REQUIRED => "Access token is required. Modify your request and try again."
  | TOKEN_INVALID => "Access token is invalid. Please provide a valid token and try again."
  | TOKEN_DENIED => "Access token is denied. The user does not exist or is suspended."
  | TOKEN_EXPIRED => "Your access token has expired. Try again with a valid token."
  | HEADER_ATTRIBUTE_MISSING => "A required header parameter is missing."
  | HEADER_ATTRIBUTE_INVALID => "The header parameter provided is invalid."
  | ENDPOINT_NOT_IMPLEMENTED => "The requested endpoint is not yet implemented."
  | ENDPOINT_OPERATION_DENIED =>
      "This activity cannot be carried out because the endpoint is restricted"
  | VALIDATION_ERROR => "invalid parameter"
  | CUSTOM_ERROR => "invalid parameter"
  end.

Inductive Operators : Type :=
| GREATER_THAN
| LESS_THAN
| GREATER_OR_EQUAL
| LESS_OR_EQUAL
| EQUAL
| NOT_EQUAL
| IN
| NIN
| BTW
| CONTAINS
| MATCHES.

Definition operator_value (o : Operators) : string :=
  match o with
  | GREATER_THAN => "$gt"
  | LESS_THAN => "$lt"
  | GREATER_OR_EQUAL => "$gte"
  | LESS_OR_EQUAL => "$lte"
  | EQUAL => "$eq"
  | NOT_EQUAL => "$ne"
  | IN => "$in"
  | NIN => "$nin"
  | BTW => "$btw"
  | CONTAINS => "$has"
  | MATCHES => "$is"
  end.

Definition all_operators : list Operators :=
  [GREATER_THAN; LESS_THAN; GREATER_OR_EQUAL; LESS_OR_EQUAL; EQUAL; NOT_EQUAL;
   IN; NIN; BTW; CONTAINS; MATCHES].

(** [Operators(token)]: the member whose value is [token], if any. *)
Definition operator_of_value (token : string) : option Operators :=
  find (fun o => String.eqb (operator_value o) token) all_operators.

(** [Operators.format_args] *)
Definition format_args (self : Operators) (args : value) : outcome (dict value) :=
  match self with
  | BTW =>
      match args with
      | VDict d =>
          match get d "min", get d "max" with
          | Some lo, Some hi => Return [("$gte", lo); ("$lt", hi)]
          | None, _ => Raise (KeyError "min")
          | Some _, None => Raise (KeyError "max")
          end
      | _ => Raise (TypeError "object is not subscriptable")
      end
  | _ => Return [(operator_value self, args)]
  end.

Inductive SortOrderingType : Type :=
| ASC
| DESC.

(** [.direction]: pymongo's ASCENDING and DESCENDING. *)
Definition direction (s : SortOrderingType) : Z :=
  match s with
  | ASC => 1
  | DESC => -1
  end.

Inductive RouteTypes : Type :=
| APP
| API.

Inductive EndpointTypes : Type :=
| MANY
| SINGLE
| DETAIL
| CREATE
| UPDATE
| DELETE
| LIST
| FETCH
| SUBLIST.

End Enums.

(* ------------------------------------------------------------------ *)
(** ** app/core/utils/custom_fields.py *)
(* ------------------------------------------------------------------ *)

Module CustomFields.

Section ObjectIds.

(** [PydanticObjectId.is_valid] on a [str]. *)
Variable is_valid : string -> bool.

Definition check_object_id (v : value) : value :=
  match v with
  | VStr s => if is_valid s then VObjectId s else VStr s
  | _ => v
  end.

End ObjectIds.

Record AppToken : Type := {
  key : string;
  app_id : string;
  token_entity_id : value;
  token_user_id : value
}.

(** The computed field [AppToken.live_mode]. *)
Definition token_live_mode (t : AppToken) : bool :=
  if startswith (key t) "sk_live" then true else false.

Record ExtraParameters : Type := {
  entity_id : value;
  user_id : value;
  token : option AppToken;
  live_mode : value;
  route_type : Enums.RouteTypes
}.

(** [AppToken.model_dump()] and [AppToken.model_dump(exclude={"key"})]. *)
Definition token_dump (t : AppToken) : dict value :=
  [("key", VStr (key t)); ("app_id", VStr (app_id t));
   ("entity_id", token_entity_id t); ("user_id", token_user_id t);
   ("live_mode", VBool (token_live_mode t))].

Definition token_dump_without_key (t : AppToken) : dict value :=
  [("app_id", VStr (app_id t));
   ("entity_id", token_entity_id t); ("user_id", token_user_id t);
   ("live_mode", VBool (token_live_mode t))].

Definition token_value (t : option AppToken) : value :=
  match t with
  | Some t => VDict (token_dump t)
  | None => VNone
  end.

Section Validation.

Variable is_valid : string -> bool.

(** pydantic's reading of a [str] as a [bool]; [None] is a
    [ValidationError]. *)
Variable validate_bool : string -> option bool.

(** Validation of a [ReferenceField | None] attribute. *)
Definition validate_reference (v : value) : outcome value :=
  match v with
  | VNone | VObjectId _ => Return v
  | VStr _ => Return (check_object_id is_valid v)
  | _ => Raise (ValidationError "Input should be a valid string")
  end.

(** Validation of a [bool | None] attribute. *)
Definition validate_optional_bool (v : value) : outcome value :=
  match v with
  | VNone | VBool _ => Return v
  | VStr s =>
      match validate_bool s with
      | Some b => Return (VBool b)
      | None => Raise (ValidationError "Input should be a valid boolean")
      end
  | _ => Raise (ValidationError "Input should be a valid boolean")
  end.

(** [ExtraParameters(entity_id=..., route_type=..., user_id=...,
    live_mode=..., token=...)] *)
Definition make_extra_parameters (entity_id : value)
  (route_type : Enums.RouteTypes) (user_id live_mode : value)
  (token : option AppToken) : outcome ExtraParameters :=
  entity_id <- validate_reference entity_id ;;
  user_id <- validate_reference user_id ;;
  live_mode <- validate_optional_bool live_mode ;;
  Return {| entity_id := entity_id; user_id := user_id; token := token;
            live_mode := live_mode; route_type := route_type |}.

End Validation.

(** [ExtraParameters.model_dump()] *)
Definition extra_parameters_dump (self : ExtraParameters) : dict value :=
  [("entity_id", entity_id self); ("user_id", user_id self);
   ("token", token_value (token self)); ("live_mode", live_mode self);
   ("route_type", VStr match route_type self with
                       | Enums.APP => "app"
                       | Enums.API => "api"
                       end)].

(** [ExtraParameters.as_dict] *)
Definition as_dict (self : ExtraParameters) : dict value :=
  match route_type self, token self with
  | Enums.API, Some t => token_dump_without_key t
  | _, _ =>
      [("entity_id", entity_id self); ("user_id", user_id self);
       ("token", token_value (token self)); ("live_mode", live_mode self)]
  end.

(** [format_validation_error] *)
Definition format_validation_error (key type message : string) : value :=
  VList [VDict [("type", VStr type);
                ("loc", VList [VStr "body"; VStr key]);
                ("msg", VStr message)]].

End CustomFields.

(* ------------------------------------------------------------------ *)
(** ** app/core/api/queryparams.py *)
(* ------------------------------------------------------------------ *)

Module QueryParams.

Import Enums.

(** What [get_db_query] reads of a pydantic [FieldInfo]:
    [getattr(annotation, "__name__", None)]. *)
Record FieldInfo : Type := { annotation_name : option string }.

(** A validated [FilterByAttribute]. *)
Record FilterByAttribute : Type := {
  filter_op : Operators;
  filter_value : value
}.

(** The instance attributes of [ModelQueryParams]. *)
Record ModelQueryParams : Type := {
  order_by : string;
  asc_desc : SortOrderingType;
  page : Z;
  per_page : Z;
  view : option string;
  query : option string;
  prev_page : option Z;
  next_page : option Z;
  pages : Z;
  skip : Z;
  total : Z;
  others : dict string;
  filter_by : dict (dict value)
}.

Definition STANDARD_PARAMS : list string :=
  ["sort_by.order_by"; "sort_by.asc_desc"; "page_by.page"; "page_by.per_page";
   "query"; "view"].

(** [self.others[k] = v] *)
Definition set_other (self : ModelQueryParams) (k v : string) : ModelQueryParams :=
  {| order_by := order_by self; asc_desc := asc_desc self; page := page self;
     per_page := per_page self; view := view self; query := query self;
     prev_page := prev_page self; next_page := next_page self;
     pages := pages self; skip := skip self; total := total self;
     others := set (others self) k v; filter_by := filter_by self |}.

(** [self.filter_by = f] *)
Definition set_filter_by (self : ModelQueryParams) (f : dict (dict value))
  : ModelQueryParams :=
  {| order_by := order_by self; asc_desc := asc_desc self; page := page self;
     per_page := per_page self; view := view self; query := query self;
     prev_page := prev_page self; next_page := next_page self;
     pages := pages self; skip := skip self; total := total self;
     others := others self; filter_by := f |}.

(** The assignments at the end of [get_db_query]. *)
Definition set_pagination (self : ModelQueryParams)
  (total' skip' : Z) (next_page' prev_page' : option Z) (pages' : Z)
  : ModelQueryParams :=
  {| order_by := order_by self; asc_desc := asc_desc self; page := page self;
     per_page := per_page self; view := view self; query := query self;
     prev_page := prev_page'; next_page := next_page';
     pages := pages'; skip := skip'; total := total';
     others := others self; filter_by := filter_by self |}.

(** [isinstance(value, (list, tuple))] and [isinstance(value, dict)] *)
Definition is_list (v : value) : bool :=
  match v with
  | VList _ => true
  | _ => false
  end.

Definition is_dict (v : value) : bool :=
  match v with
  | VDict _ => true
  | _ => false
  end.

Section ModelClass.

(** [PydanticObjectId.is_valid] on a [str]. *)
Variable is_valid : string -> bool.

(** pydantic's validation of a [str] against [float | int | datetime];
    [None] is a [ValidationError]. *)
Variable validate_bound : string -> option value.

(** [model_class.model_fields] *)
Variable model_fields : dict FieldInfo.

(** [model_class.find(query).count()] *)
Variable count : dict (dict value) -> nat.

Definition check_object_id : value -> value :=
  CustomFields.check_object_id is_valid.

(** [SingleValue(value=v).value]: a [str] is already a member of the
    union and stays one, but for [check_object_id]. *)
Definition SingleValue (v : value) : outcome value :=
  Return (check_object_id v).

(** [ListValue(values=v).values] *)
Definition ListValue (v : value) : outcome value :=
  match v with
  | VList items => Return (VList (map check_object_id items))
  | _ => Raise (ValidationError "Input should be a valid list")
  end.

Definition validate_bound_field (d : dict value) (name : string) : outcome value :=
  match get d name with
  | Some (VStr s) =>
      match validate_bound s with
      | Some b => Return b
      | None => Raise (ValidationError name)
      end
  | Some b => Return b
  | None => Raise (ValidationError name)
  end.

(** [DictValue( **v).model_dump()] *)
Definition DictValue (v : value) : outcome value :=
  match v with
  | VDict d =>
      lo <- validate_bound_field d "min" ;;
      hi <- validate_bound_field d "max" ;;
      Return (VDict [("min", lo); ("max", hi)])
  | _ => Raise (TypeError "argument after ** must be a mapping")
  end.

(** The body of the loop of [prepare_filter_args]; [self] is threaded for
    [self.others]. *)
Definition prepare_filter_arg
  (state : dict (dict value) * ModelQueryParams) (item : string * string)
  : outcome (dict (dict value) * ModelQueryParams) :=
  let '(filter_args, self) := state in
  let '(k, v) := item in
  let _extra_fields := ["_id"] in
  '(dotpath, op) <- unpack_last (split k ".") ;;
  let val := split v "__" in
  if (List.length dotpath <? 1)%nat then Return (filter_args, set_other self k v)
  else
    root <- index dotpath 0 ;;
    if (negb (contains model_fields root) && negb (mem root _extra_fields))
       || (List.length val <? 1)%nat
    then Return (filter_args, set_other self k v)
    else
      let name := join "." dotpath in
      value <-
        (if negb (mem op [operator_value BTW])
         then (v0 <- index val 0 ;; Return (VStr v0))
         else (v0 <- index val 0 ;;
               v1 <- index val 1 ;;
               Return (VDict [("min", VStr v0); ("max", VStr v1)]))) ;;
      value <-
        (if mem op [operator_value IN; operator_value NIN]
         then match value with
              | VStr s => Return (VList (map VStr (split s "|")))
              | _ => Raise (AttributeError "split")
              end
         else Return value) ;;
      value <-
        (if negb (is_list value || is_dict value)
         then SingleValue value else Return value) ;;
      value <- (if is_list value then ListValue value else Return value) ;;
      value <- (if is_dict value then DictValue value else Return value) ;;
      Return (set filter_args name [("op", VStr op); ("value", value)], self).

(** [filter_options]: the query parameters that are not standard ones. *)
Definition filter_options (query_params : list (string * string)) : dict string :=
  of_items (filter (fun kv => negb (mem (fst kv) STANDARD_PARAMS)) query_params).

(** [prepare_filter_args]: returns [filter_args], and [self] with the
    residual bucket [others] filled. *)
Definition prepare_filter_args
  (self : ModelQueryParams) (query_params : list (string * string))
  : outcome (dict (dict value) * ModelQueryParams) :=
  for_each prepare_filter_arg (filter_options query_params) ([], self).

(** [ModelQueryParams.__init__] *)
Definition init (order_by : string) (asc_desc : SortOrderingType)
  (page per_page : Z) (query view : option string)
  (query_params : list (string * string)) : outcome ModelQueryParams :=
  let self :=
    {| order_by := order_by; asc_desc := asc_desc; page := page;
       per_page := per_page; view := view; query := query;
       prev_page := None; next_page := None; pages := 1; skip := 0; total := 0;
       others := []; filter_by := [] |} in
  '(filter_args, self) <- prepare_filter_args self query_params ;;
  Return (set_filter_by self filter_args).

(** [FilterByAttribute( **v)]: [op] must be the value of an [Operators]
    member; [value] goes through [check_object_id]. *)
Definition validate_filter (v : dict value) : outcome FilterByAttribute :=
  match get v "op", get v "value" with
  | Some (VStr token), Some x =>
      match operator_of_value token with
      | Some o => Return {| filter_op := o; filter_value := check_object_id x |}
      | None => Raise (ValidationError "op")
      end
  | Some _, Some _ => Raise (ValidationError "op")
  | None, _ => Raise (ValidationError "op")
  | _, None => Raise (ValidationError "value")
  end.

(** The property [FilterByAttribute.format_args] *)
Definition filter_format_args (a : FilterByAttribute) : outcome (dict value) :=
  Enums.format_args (filter_op a) (filter_value a).

(** The key a filter on field [k] is stored under: the DBRef form for a
    field whose annotation is named [Link]. *)
Definition db_key (k : string) (field : FieldInfo) : string :=
  match annotation_name field with
  | Some field_type =>
      if negb (String.eqb field_type EmptyString) && String.eqb field_type "Link"
      then k ++ ".$id" else k
  | None => k
  end.

(** The body of the first loop of [get_db_query], over [self.filter_by]. *)
Definition apply_filter (_filters : dict (dict value)) (item : string * dict value)
  : outcome (dict (dict value)) :=
  let '(k, v) := item in
  match get model_fields k with
  | None => Return _filters
  | Some _field_key =>
      let _key := db_key k _field_key in
      _v_args <- validate_filter v ;;
      formatted <- filter_format_args _v_args ;;
      Return (set _filters _key formatted)
  end.

(** The body of the inner loop over one default filter. *)
Definition apply_default (_filters : dict (dict value)) (item : string * value)
  : outcome (dict (dict value)) :=
  let '(k, v) := item in
  match get model_fields k with
  | None => Return _filters
  | Some _field_key =>
      let _key := db_key k _field_key in
      _v_extra <- validate_filter [("op", VStr (operator_value EQUAL)); ("value", v)] ;;
      formatted <- filter_format_args _v_extra ;;
      Return (set _filters _key formatted)
  end.

(** The two loops of [get_db_query]: the query dict before it is counted. *)
Definition build_filters (filter_by : dict (dict value))
  (default_filters : list (dict value)) : outcome (dict (dict value)) :=
  _filters <- for_each apply_filter filter_by [] ;;
  for_each (fun acc default_filter => for_each apply_default default_filter acc)
           default_filters _filters.

(** [int(self.total / self.per_page)]: true division through a float,
    then truncation. *)
Definition int_div (total per_page : Z) : outcome Z :=
  int_true_div total per_page.

(** [get_db_query]: returns the query dict, and [self] with the pagination
    attributes assigned. *)
Definition get_db_query (self : ModelQueryParams)
  (default_filters : list (dict value))
  : outcome (dict (dict value) * ModelQueryParams) :=
  _filters <- build_filters (filter_by self) default_filters ;;
  let total := Z.of_nat (count _filters) in
  let skip := ((page self - 1) * per_page self)%Z in
  let next_page :=
    if (skip + per_page self <? total)%Z then Some (page self + 1)%Z else None in
  let prev_page :=
    if (page self >? 1)%Z then Some (page self - 1)%Z else None in
  quotient <- int_div total (per_page self) ;;
  let pages := Z.max quotient 1 in
  Return (_filters, set_pagination self total skip next_page prev_page pages).

(** The property [sorting] *)
Definition sorting (self : ModelQueryParams) : list (string * Z) :=
  [(order_by self, direction (asc_desc self))].

(** The property [sort_by] *)
Definition sort_by (self : ModelQueryParams) : list (string * SortOrderingType) :=
  [(order_by self, asc_desc self)].

Definition optional_int (o : option Z) : value :=
  match o with
  | Some z => VInt z
  | None => VNone
  end.

(** The property [page_by] *)
Definition page_by (self : ModelQueryParams) : dict value :=
  [("page", VInt (page self)); ("per_page", VInt (per_page self));
   ("total", VInt (total self)); ("pages", VInt (pages self));
   ("prev_page", optional_int (prev_page self));
   ("next_page", optional_int (next_page self))].

End ModelClass.

End QueryParams.

(* ------------------------------------------------------------------ *)
(** ** pydantic models, beanie documents and the arguments of a route *)
(* ------------------------------------------------------------------ *)

Module Pydantic.

(** An instance of a pydantic model, as the handlers use it. *)
Record Model : Type := {
  declared : list string;      (* the names in [type(self).model_fields] *)
  excluded : list string;      (* those declared with [Field(exclude=True)] *)
  attrs : dict value;          (* [self.__dict__] *)
  fields_set : list string     (* [self.model_fields_set] *)
}.

(** [self.model_dump()]: the declared fields found in [__dict__], but
    for the ones declared with [Field(exclude=True)]. *)
Definition model_dump (self : Model) : dict value :=
  filter (fun kv => mem (fst kv) (declared self)
                    && negb (mem (fst kv) (excluded self)))
         (attrs self).

(** [self.model_dump(exclude_unset=True, exclude_none=True)] *)
Definition model_dump_set (self : Model) : dict value :=
  filter (fun kv => mem (fst kv) (fields_set self) && negb (is_none (snd kv)))
         (model_dump self).

(** [self.model_copy(update=data)]: [data] goes into the copy's
    [__dict__] as it is, without validation. *)
Definition model_copy (self : Model) (data : dict value) : Model :=
  {| declared := declared self;
     excluded := excluded self;
     attrs := update (attrs self) data;
     fields_set := fields_set self ++ keys data |}.

End Pydantic.

Module Beanie.

Import Pydantic.

(** A document class over a storage backend [DB]: the class attributes
    and class methods the handlers call. *)
Record Document (DB : Type) : Type := {
  model_fields : dict QueryParams.FieldInfo;
  model_validate : dict value -> outcome Model;
  get : value -> DB -> outcome (option Model);
  count : dict (dict value) -> DB -> nat;
  find : dict (dict value) -> Z -> Z -> list (string * Z) -> DB -> outcome (list Model);
  save : Model -> M DB Model;
  replace : Model -> M DB Model;
  delete : Model -> M DB unit;
  fetch_all_links : Model -> DB -> outcome Model
}.

Arguments model_fields {DB} d.
Arguments model_validate {DB} d data.
Arguments get {DB} d document_id db.
Arguments count {DB} d query db.
Arguments find {DB} d query skip limit sort db.
Arguments save {DB} d document db.
Arguments replace {DB} d document db.
Arguments delete {DB} d document db.
Arguments fetch_all_links {DB} d document db.

End Beanie.

Module Fastapi.

(** [fastapi.security.HTTPAuthorizationCredentials] *)
Record HTTPAuthorizationCredentials : Type := {
  scheme : string;
  credentials : string
}.

(** The keyword arguments a generated route function is called with; a
    route reads the ones it declares. *)
Record Kwargs : Type := {
  kw_obj_id : value;
  kw_payload : Pydantic.Model;
  kw_params : QueryParams.ModelQueryParams;
  kw_user_id : value;
  kw_entity_id : value;
  kw_api_token : option CustomFields.AppToken;
  kw_live_mode : value;
  kw_extra_parameters : option CustomFields.ExtraParameters
}.

(** What a route function returns. *)
Inductive response : Type :=
| Listing (filter_by : dict (dict value)) (query view : option string)
          (sort_by : list (string * Enums.SortOrderingType))
          (page_by : dict value) (results : list Pydantic.Model)
| Object (obj : option Pydantic.Model)
| Plain (v : value).

Definition handler (DB : Type) : Type := Kwargs -> M DB response.

(** A registered route. *)
Record Route (DB : Type) : Type := {
  methods : list string;
  path : string;
  name : string;
  include_in_schema : bool;
  endpoint : handler DB
}.

Arguments methods {DB} r.
Arguments path {DB} r.
Arguments name {DB} r.
Arguments include_in_schema {DB} r.
Arguments endpoint {DB} r.

End Fastapi.

(* ------------------------------------------------------------------ *)
(** ** app/core/utils/generators.py and app/core/utils/helpers.py *)
(* ------------------------------------------------------------------ *)

Module Generators.

(** [generate_secret_key(test)]; [token_urlsafe] is the draw of
    [secrets.token_urlsafe()]. *)
Definition generate_secret_key (test : bool) (token_urlsafe : string) : string :=
  let prefix := if test then "sk_test" else "sk_live" in
  join "_" [prefix; token_urlsafe].

End Generators.

Module Helpers.

(** [remove_empty_keys] *)
Definition remove_empty_keys (data : dict value) : dict value :=
  fold_left (fun res item =>
               if negb (is_none (snd item)) then set res (fst item) (snd item)
               else res)
            data [].

End Helpers.

(* ------------------------------------------------------------------ *)
(** ** app/models/auth.py: ApiCredential *)
(* ------------------------------------------------------------------ *)

Module Auth.

Record ApiCredential : Type := {
  name : string;
  entity_id : value;
  user_id : value;
  app_id : string;
  test_key : option string;
  live_key : option string;
  is_active : option bool
}.

Section Collection.

(** [cls.find_one(query)] on the credential collection. *)
Variable find_one : dict value -> outcome (option ApiCredential).

(** [ApiCredential.find_by_key] *)
Definition find_by_key (key : string) : outcome (option ApiCredential) :=
  let target := if startswith key "sk_live" then "live_key" else "test_key" in
  let target_query := of_items [(target, VStr key)] in
  find_one target_query.

End Collection.

Section Saving.

Variable DB : Type.

(** [self.save()] *)
Variable save : ApiCredential -> M DB unit.

(** [self.test_key = k], [self.live_key = k] and [self.is_active = b] *)
Definition set_test_key (self : ApiCredential) (k : string) : ApiCredential :=
  {| name := name self; entity_id := entity_id self; user_id := user_id self;
     app_id := app_id self; test_key := Some k; live_key := live_key self;
     is_active := is_active self |}.

Definition set_live_key (self : ApiCredential) (k : string) : ApiCredential :=
  {| name := name self; entity_id := entity_id self; user_id := user_id self;
     app_id := app_id self; test_key := test_key self; live_key := Some k;
     is_active := is_active self |}.

Definition set_is_active (self : ApiCredential) (b : bool) : ApiCredential :=
  {| name := name self; entity_id := entity_id self; user_id := user_id self;
     app_id := app_id self; test_key := test_key self; live_key := live_key self;
     is_active := Some b |}.

(** The truth value of [self.is_active], a [bool | None]. *)
Definition active_flag (self : ApiCredential) : bool :=
  match is_active self with
  | Some b => b
  | None => false
  end.

(** [reset_credentials(test_mode, live_mode)]; [fresh_test] and
    [fresh_live] are the draws of [secrets.token_urlsafe()] the two
    branches make. *)
Definition reset_credentials (self : ApiCredential) (test_mode live_mode : bool)
  (fresh_test fresh_live : string) : M DB ApiCredential :=
  let self :=
    if test_mode
    then set_test_key self (Generators.generate_secret_key true fresh_test)
    else self in
  let self :=
    if live_mode
    then set_live_key self (Generators.generate_secret_key false fresh_live)
    else self in
  _ <~ save self ;;
  return_db self.

(** [toggle_active] *)
Definition toggle_active (self : ApiCredential) : M DB ApiCredential :=
  let self := set_is_active self (negb (active_flag self)) in
  _ <~ save self ;;
  return_db self.

End Saving.

Arguments reset_credentials {DB} save self test_mode live_mode fresh_test fresh_live.
Arguments toggle_active {DB} save self.

End Auth.

(* ------------------------------------------------------------------ *)
(** ** app/core/api/middleware.py: the request guards *)
(* ------------------------------------------------------------------ *)

Module Middleware.

Import Enums.

Import Fastapi.

(** What the guards read of a user document. *)
Record User : Type := {
  is_suspended : value;
  permissions : list string
}.

Definition HTTP_401_UNAUTHORIZED : Z := 401.

(** The detail of the bearer guard's errors: a list of one error object. *)
Definition authentication_error (e : ApplicationErrors) : exn :=
  HTTPException HTTP_401_UNAUTHORIZED
    (VList [VDict [("type", VStr "authentication_error");
                   ("code", VStr (error_value e));
                   ("loc", VList [VStr "header"; VStr "authorization"]);
                   ("msg", VStr (error_message e))]]).

Definition token_expired_error : exn :=
  HTTPException HTTP_401_UNAUTHORIZED
    (VList [VDict [("code", VStr (error_value TOKEN_EXPIRED));
                   ("type", VStr "authentication_error");
                   ("loc", VList [VStr "header"; VStr "authorization"]);
                   ("msg", VStr (error_message TOKEN_EXPIRED))]]).

(** The detail of the API-key guard's errors: [dict(code=..., message=...)]. *)
Definition api_error (e : ApplicationErrors) : exn :=
  HTTPException HTTP_401_UNAUTHORIZED
    (VDict [("code", VStr (error_value e)); ("message", VStr (error_message e))]).

Section AuthDeps.

(** [AuthToken.get_user_id]: PyJWT's [decode], then validation of the
    claims. *)
Variable get_user_id : string -> outcome string.

(** [klass.get(user_id)] *)
Variable klass_get : string -> outcome (option User).

(** [not (authorization and authorization.credentials)] *)
Definition credentials_missing (authorization : option HTTPAuthorizationCredentials)
  : bool :=
  match authorization with
  | Some a => String.eqb (credentials a) EmptyString
  | None => true
  end.

(** The [try] block of the bearer guard. *)
Definition identify (token : string) (validate : bool) : outcome (option string) :=
  _user_id <- get_user_id token ;;
  if String.eqb _user_id EmptyString then Raise (authentication_error TOKEN_INVALID)
  else
    if validate
    then
      user <- klass_get _user_id ;;
      match user with
      | None => Raise (authentication_error TOKEN_DENIED)
      | Some u =>
          if truthy (is_suspended u) then Raise (authentication_error TOKEN_DENIED)
          else Return (Some _user_id)
      end
    else Return (Some _user_id).

(** [MiddlewareFactory.auth_deps(klass, public, validate)] applied to the
    resolved [authorization]; [None] is "no identity". *)
Definition auth_deps (public validate : bool)
  (authorization : option HTTPAuthorizationCredentials) : outcome (option string) :=
  if public then Return None
  else if credentials_missing authorization
  then Raise (authentication_error TOKEN_REQUIRED)
  else
    match authorization with
    | None => Raise (AttributeError "credentials")
    | Some a =>
        match identify (credentials a) validate with
        | Raise ExpiredSignatureError => Raise token_expired_error
        | Raise InvalidSignatureError => Raise (authentication_error TOKEN_INVALID)
        | Raise (ValidationError _) => Raise (authentication_error TOKEN_DENIED)
        | result => result
        end
    end.

End AuthDeps.

Section ApiDeps.

(** [klass.find_by_key] *)
Variable find_by_key : string -> outcome (option Auth.ApiCredential).

(** The [try] block of the API-key guard. *)
Definition identify_app (key : string) : outcome (option CustomFields.AppToken) :=
  if String.eqb key EmptyString then Raise (api_error TOKEN_INVALID)
  else
    api_credential <- find_by_key key ;;
    match api_credential with
    | None => Raise (api_error TOKEN_DENIED)
    | Some c =>
        match Auth.is_active c with
        | Some false => Raise (api_error TOKEN_DENIED)
        | _ =>
            Return (Some {| CustomFields.key := key;
                            CustomFields.app_id := Auth.app_id c;
                            CustomFields.token_entity_id := VNone;
                            CustomFields.token_user_id :=
                              Auth.user_id c |})
        end
    end.

(** [MiddlewareFactory.api_deps(klass, public)] applied to the resolved
    [authorization]. *)
Definition api_deps (public : bool) (authorization : HTTPAuthorizationCredentials)
  : outcome (option CustomFields.AppToken) :=
  if public then Return None
  else if String.eqb (credentials authorization) EmptyString
  then Raise (api_error TOKEN_REQUIRED)
  else
    match identify_app (credentials authorization) with
    | Raise ExpiredSignatureError => Raise (api_error TOKEN_EXPIRED)
    | Raise (ValidationError _) => Raise (api_error TOKEN_DENIED)
    | result => result
    end.

End ApiDeps.

Section Permissions.

Variable DB : Type.

(** [klass.get(user_id)] on the storage backend. *)
Variable klass_get : value -> DB -> outcome (option User).

(** [authorize_permission(klass, role)]: the decorator, applied to
    [func]. *)
Definition authorize_permission (role : list string) (func : handler DB)
  : handler DB :=
  fun kwargs =>
    let set_role := nodup string_dec role in
    if (List.length set_role <? 1)%nat then func kwargs
    else
      let user_id :=
        match kw_extra_parameters kwargs with
        | Some extra_parameters => CustomFields.user_id extra_parameters
        | None => kw_user_id kwargs
        end in
      user <~ read (klass_get user_id) ;;
      match user with
      | None => raise_db (AttributeError "permissions")
      | Some u =>
          let has_role := existsb (fun permission => mem permission set_role)
                                  (permissions u) in
          if negb has_role
          then raise_db (HTTPException 403
                 (VStr "User does not have permission to perform this action"))
          else func kwargs
      end.

End Permissions.

Arguments authorize_permission {DB} klass_get role func kwargs.

Section HeaderDeps.

Variable A : Type.

(** [klass.get(parameter)] *)
Variable klass_get : value -> outcome (option A).

(** The validation step of [header_deps]: the [try] block and its
    [except ValidationError]. *)
Definition validate_attribute (required : bool) (parameter : value) : outcome unit :=
  match klass_get parameter with
  | Return attribute =>
      match attribute with
      | None =>
          if required then Raise (api_error HEADER_ATTRIBUTE_INVALID) else Return tt
      | Some _ => Return tt
      end
  | Raise (ValidationError _) =>
      if required then Raise (api_error HEADER_ATTRIBUTE_INVALID) else Return tt
  | Raise e => Raise e
  end.

(** [MiddlewareFactory.header_deps(klass, key, required, validate)]
    applied to the header value [parameter]. *)
Definition header_deps (required validate : bool) (parameter : value) : outcome value :=
  if negb (truthy parameter) && required
  then Raise (api_error HEADER_ATTRIBUTE_MISSING)
  else
    _ <- (if truthy parameter && validate
          then validate_attribute required parameter
          else Return tt) ;;
    Return parameter.

End HeaderDeps.

Arguments header_deps {A} klass_get required validate parameter.

(** [a or b] *)
Definition py_or (a b : value) : value := if truthy a then a else b.

(** The header alias of [cookie_or_query_deps]. *)
Definition header_key (key : string) : string :=
  if negb (startswith key "x-") then "x-" ++ key else key.

(** [MiddlewareFactory.cookie_or_query_deps(key, default)] applied to the
    three values FastAPI resolves. *)
Definition cookie_or_query_deps (default : value)
  (header_parameter cookie_parameter query_parameter : value) : value :=
  let parameter := py_or (py_or header_parameter cookie_parameter) query_parameter in
  py_or parameter default.

End Middleware.

(* ------------------------------------------------------------------ *)
(** ** app/core/api/routing.py: the generated endpoints *)
(* ------------------------------------------------------------------ *)

Module Routing.

Import Enums Pydantic Fastapi.

(** A function object: its [__name__] and what calling it does. *)
Record Callable (F : Type) : Type := {
  func_name : string;
  call : F
}.

Arguments func_name {F} c.
Arguments call {F} c.

(** The error of a handler disabled by its flag. *)
Definition operation_denied : exn :=
  HTTPException Middleware.HTTP_401_UNAUTHORIZED
    (VDict [("code", VStr (error_value ENDPOINT_OPERATION_DENIED));
            ("message", VStr (error_message ENDPOINT_OPERATION_DENIED))]).

(** [str(e)] of a caught exception, as far as the handlers report it. *)
Definition exn_message (e : exn) : string :=
  match e with
  | ValueError msg | ValidationError msg => msg
  | DocumentNotFound => "DocumentNotFound"
  | _ => EmptyString
  end.

(** [isinstance(e, ValueError)]: pydantic's [ValidationError] is one. *)
Definition is_value_error (e : exn) : bool :=
  match e with
  | ValueError _ | ValidationError _ => true
  | _ => false
  end.

(** An identifier inside an f-string. *)
Definition format_id (obj_id : value) : string :=
  match obj_id with
  | VStr s | VObjectId s => s
  | _ => EmptyString
  end.

Definition not_found (obj_id : value) : exn :=
  RequestValidationError
    (VList [VDict [("type", VStr "missing");
                   ("msg", VStr ("Object with id `" ++ format_id obj_id ++ "` not found"))]]).

Section Endpoints.

Variable DB : Type.

(** [PydanticObjectId.is_valid] on a [str], and pydantic's reading of a
    [str] as a [bool]. *)
Variable is_valid : string -> bool.
Variable validate_bool : string -> option bool.

Definition list_func : Type :=
  Beanie.Document DB -> QueryParams.ModelQueryParams -> list (dict value) ->
  CustomFields.ExtraParameters -> list string ->
  M DB (list Model * QueryParams.ModelQueryParams).

Definition fetch_func : Type :=
  value -> Beanie.Document DB -> CustomFields.ExtraParameters -> M DB response.

Definition create_func : Type :=
  Beanie.Document DB -> Model -> CustomFields.ExtraParameters -> M DB response.

Definition update_func : Type :=
  value -> Beanie.Document DB -> Model -> dict value -> M DB response.

Definition delete_func : Type :=
  value -> Beanie.Document DB -> M DB response.

(** The attributes of [Endpoint] the generated routes read. *)
Record Endpoint : Type := {
  prefix : string;
  model_class : Beanie.Document DB;
  route_type : RouteTypes;
  _list : Callable list_func;
  _fetch : Callable fetch_func;
  _create : Callable create_func;
  _update : Callable update_func;
  _delete : Callable delete_func;
  allow_list : bool;
  allow_fetch : bool;
  allow_create : bool;
  allow_update : bool;
  allow_delete : bool;
  ignored_deps : list string;
  permissions : option (handler DB -> handler DB)
}.

(** [default = authorize_permission_decorator(klass=Document, roles=[])]:
    the base class has no collection to [get] from. *)
Definition default : handler DB -> handler DB :=
  Middleware.authorize_permission
    (fun _ (_ : DB) => Raise CollectionWasNotInitialized) [].

(** [_Permissions = self.permissions if self.permissions else default] *)
Definition _Permissions (self : Endpoint) : handler DB -> handler DB :=
  match permissions self with
  | Some decorator => decorator
  | None => default
  end.

(** [ExtraParameters(...)] as every route builds it from its arguments. *)
Definition route_extra_parameters (self : Endpoint) (kwargs : Kwargs)
  : M DB CustomFields.ExtraParameters :=
  read (fun _ =>
    CustomFields.make_extra_parameters is_valid validate_bool
      (kw_entity_id kwargs) (route_type self) (kw_user_id kwargs)
      (kw_live_mode kwargs) (kw_api_token kwargs)).

(** The route function of [init_list_endpoint]. *)
Definition list_route_func (self : Endpoint) : handler DB :=
  fun kwargs =>
    if negb (allow_list self) then raise_db operation_denied
    else
      extra_parameters <~ route_extra_parameters self kwargs ;;
      let query_parameters :=
        map (fun pv => of_items [pv])
            (filter (fun pv => negb (mem (fst pv) (ignored_deps self))
                               && negb (is_none (snd pv)))
                    (CustomFields.as_dict extra_parameters)) in
      '(results, params) <~
        call (_list self) (model_class self) (kw_params kwargs) query_parameters
             extra_parameters (ignored_deps self) ;;
      return_db (Listing (QueryParams.filter_by params) (QueryParams.query params)
                         (QueryParams.view params) (QueryParams.sort_by params)
                         (QueryParams.page_by params) results).

(** The route function of [init_fetch_endpoint]. *)
Definition fetch_route_func (self : Endpoint) : handler DB :=
  fun kwargs =>
    if negb (allow_fetch self) then raise_db operation_denied
    else
      extra_parameters <~ route_extra_parameters self kwargs ;;
      call (_fetch self) (kw_obj_id kwargs) (model_class self) extra_parameters.

(** The route function of [init_create_endpoint]. *)
Definition create_route_func (self : Endpoint) : handler DB :=
  fun kwargs =>
    if negb (allow_create self) then raise_db operation_denied
    else
      extra_parameters <~ route_extra_parameters self kwargs ;;
      call (_create self) (model_class self) (kw_payload kwargs) extra_parameters.

(** The route function of [init_update_endpoint]. *)
Definition update_route_func (self : Endpoint) : handler DB :=
  fun kwargs =>
    if negb (allow_update self) then raise_db operation_denied
    else
      extra_parameters <~ route_extra_parameters self kwargs ;;
      call (_update self) (kw_obj_id kwargs) (model_class self) (kw_payload kwargs)
           (CustomFields.as_dict extra_parameters).

(** The route function of [init_delete_endpoint]. *)
Definition delete_route_func (self : Endpoint) : handler DB :=
  fun kwargs =>
    if negb (allow_delete self) then raise_db operation_denied
    else call (_delete self) (kw_obj_id kwargs) (model_class self).

(** [self.router]: the routes in registration order. *)
Definition router : Type := list (Route DB).

Definition init_list_endpoint (self : Endpoint) (routes : router) : router :=
  routes ++
  [{| methods := ["GET"]; path := EmptyString; name := func_name (_list self);
      include_in_schema := allow_list self;
      endpoint := _Permissions self (list_route_func self) |}].

Definition init_fetch_endpoint (self : Endpoint) (routes : router) : router :=
  routes ++
  [{| methods := ["GET"]; path := "/{obj_id}"; name := func_name (_fetch self);
      include_in_schema := allow_fetch self;
      endpoint := _Permissions self (fetch_route_func self) |}].

Definition init_create_endpoint (self : Endpoint) (routes : router) : router :=
  routes ++
  [{| methods := ["POST"]; path := EmptyString; name := func_name (_create self);
      include_in_schema := allow_create self;
      endpoint := _Permissions self (create_route_func self) |}].

(** The inner [post] decorator registers first, then [put]. *)
Definition init_update_endpoint (self : Endpoint) (routes : router) : router :=
  routes ++
  [{| methods := ["POST"]; path := "/{obj_id}"; name := func_name (_update self);
      include_in_schema := allow_update self;
      endpoint := _Permissions self (update_route_func self) |};
   {| methods := ["PUT"]; path := "/{obj_id}"; name := func_name (_update self);
      include_in_schema := allow_update self;
      endpoint := _Permissions self (update_route_func self) |}].

Definition init_delete_endpoint (self : Endpoint) (routes : router) : router :=
  routes ++
  [{| methods := ["DELETE"]; path := "/{obj_id}"; name := func_name (_delete self);
      include_in_schema := allow_delete self;
      endpoint := _Permissions self (delete_route_func self) |}].

(** [Endpoint.init]: [routes] is [self.router] as the earlier
    registrations left it. *)
Definition init (self : Endpoint) (routes : router) : router :=
  init_delete_endpoint self
    (init_update_endpoint self
      (init_create_endpoint self
        (init_fetch_endpoint self
          (init_list_endpoint self routes)))).

(** *** The default functions *)

(** [_list_func]; [klass] is [params.model_class]. *)
Definition _list_func : list_func :=
  fun klass params query_parameters extra_parameters ignored_deps db =>
    '(_filter_query, params) <-
      QueryParams.get_db_query is_valid (Beanie.model_fields klass)
        (fun q => Beanie.count klass q db) params query_parameters ;;
    results <-
      Beanie.find klass _filter_query (QueryParams.skip params)
        (QueryParams.per_page params) (QueryParams.sorting params) db ;;
    Return ((results, params), db).

(** [_fetch_func] *)
Definition _fetch_func : fetch_func :=
  fun obj_id service_class extra_parameters db =>
    match Beanie.get service_class obj_id db with
    | Return obj => Return (Object obj, db)
    | Raise _ =>
        Raise (RequestValidationError
                 (CustomFields.format_validation_error
                    "id" (error_value VALIDATION_ERROR) "resource id does not exist"))
    end.

(** [_create_func] *)
Definition _create_func : create_func :=
  fun model_class payload extra_parameters =>
    try_except
      (let data := model_dump_set payload in
       let data := update data (CustomFields.extra_parameters_dump extra_parameters) in
       obj <~ read (fun _ => Beanie.model_validate model_class data) ;;
       obj <~ Beanie.save model_class obj ;;
       obj <~ read (Beanie.fetch_all_links model_class obj) ;;
       return_db (Object (Some obj)))
      (fun e => if is_value_error e
                then Some (RequestValidationError (VList [VStr (exn_message e)]))
                else None).

(** [_update_func]; both [except] clauses re-raise what they caught. *)
Definition _update_func : update_func :=
  fun obj_id model_class payload extra_parameters =>
    let data := model_dump_set payload in
    let data := update data extra_parameters in
    obj <~ read (Beanie.get model_class obj_id) ;;
    match obj with
    | None => raise_db (not_found obj_id)
    | Some obj =>
        let updated_data := model_dump (model_copy obj data) in
        validated <~ read (fun _ => Beanie.model_validate model_class updated_data) ;;
        obj <~ Beanie.replace model_class validated ;;
        return_db (Object (Some obj))
    end.

(** [_delete_func] *)
Definition _delete_func : delete_func :=
  fun obj_id model_class =>
    try_except
      (obj <~ read (Beanie.get model_class obj_id) ;;
       match obj with
       | None => raise_db (not_found obj_id)
       | Some obj =>
           _ <~ Beanie.delete model_class obj ;;
           return_db (Plain (VDict [("status", VStr "processed")]))
       end)
      (fun e => match e with
                | ValueError _ | ValidationError _ | DocumentNotFound =>
                    Some (RequestValidationError (VList [VStr (exn_message e)]))
                | _ => None
                end).

(** [EndpointFactory.generate] *)
Definition generate (model_class : Beanie.Document DB) (prefix : string)
  (route_type : RouteTypes) (permissions : option (handler DB -> handler DB))
  (ignored_deps : list string)
  (allow_delete allow_create allow_update allow_list allow_fetch : bool)
  : Endpoint :=
  {| prefix := prefix; model_class := model_class; route_type := route_type;
     _list := {| func_name := "_list_func"; call := _list_func |};
     _fetch := {| func_name := "_fetch_func"; call := _fetch_func |};
     _create := {| func_name := "_create_func"; call := _create_func |};
     _update := {| func_name := "_update_func"; call := _update_func |};
     _delete := {| func_name := "_delete_func"; call := _delete_func |};
     allow_list := allow_list; allow_fetch := allow_fetch;
     allow_create := allow_create; allow_update := allow_update;
     allow_delete := allow_delete; ignored_deps := ignored_deps;
     permissions := permissions |}.

(** *** Custom actions *)

(** The default filters the list route passes on, and the ones a resource
    route passes on: the latter keeps the parameters that are [None]. *)
Definition list_query_parameters (self : Endpoint)
  (extra_parameters : CustomFields.ExtraParameters) : list (dict value) :=
  map (fun pv => of_items [pv])
      (filter (fun pv => negb (mem (fst pv) (ignored_deps self))
                         && negb (is_none (snd pv)))
              (CustomFields.as_dict extra_parameters)).

Definition resource_query_parameters (self : Endpoint)
  (extra_parameters : CustomFields.ExtraParameters) : list (dict value) :=
  map (fun pv => of_items [pv])
      (filter (fun pv => negb (mem (fst pv) (ignored_deps self)))
              (CustomFields.as_dict extra_parameters)).

Definition action_func : Type :=
  value -> Beanie.Document DB -> Model -> CustomFields.ExtraParameters -> M DB response.

Definition resource_func : Type :=
  value -> Beanie.Document DB -> QueryParams.ModelQueryParams -> list (dict value) ->
  CustomFields.ExtraParameters -> M DB (response * QueryParams.ModelQueryParams).

Definition sublist_func : Type :=
  value -> Beanie.Document DB -> QueryParams.ModelQueryParams -> list (dict value) ->
  CustomFields.ExtraParameters -> M DB (list Model * QueryParams.ModelQueryParams).

(** A function handed to [Endpoint.action]: its [__name__], and what it
    does under each of the keyword-argument conventions the routes call it
    with. *)
Record Function : Type := {
  function_name : string;
  as_list : list_func;
  as_create : create_func;
  as_update : update_func;
  as_delete : delete_func;
  as_action : action_func;
  as_resource : resource_func;
  as_sublist : sublist_func
}.

(** [EndpointAction], without the schema types. *)
Record EndpointAction : Type := {
  action_name : string;
  func : Function;
  action_type : EndpointTypes;
  action_ignored_deps : list string;
  service_class : Beanie.Document DB
}.

(** The computed field [EndpointAction.path] *)
Definition path (self : EndpointAction) : string :=
  match action_type self with
  | LIST | DETAIL => join "/" ["/{obj_id}"; action_name self]
  | MANY => join "/" ["/_action"; action_name self]
  | _ => "/" ++ action_name self
  end.

(** The route function of [init_action_endpoint]. *)
Definition action_route_func (self : Endpoint) (action : EndpointAction) : handler DB :=
  fun kwargs =>
    extra_parameters <~ route_extra_parameters self kwargs ;;
    as_action (func action) (kw_obj_id kwargs) (service_class action)
              (kw_payload kwargs) extra_parameters.

(** [init_action_endpoint]: the inner [post] decorator registers first,
    then [put]. *)
Definition init_action_endpoint (self : Endpoint) (action : EndpointAction)
  (routes : router) : router :=
  routes ++
  [{| methods := ["POST"]; Fastapi.path := path action; name := action_name action;
      include_in_schema := true;
      endpoint := _Permissions self (action_route_func self action) |};
   {| methods := ["PUT"]; Fastapi.path := path action; name := action_name action;
      include_in_schema := allow_update self;
      endpoint := _Permissions self (action_route_func self action) |}].

(** The route function of [init_resource_endpoint]. *)
Definition resource_route_func (self : Endpoint) (action : EndpointAction)
  : handler DB :=
  fun kwargs =>
    extra_parameters <~ route_extra_parameters self kwargs ;;
    let query_parameters := resource_query_parameters self extra_parameters in
    match action_type action with
    | LIST | SUBLIST =>
        '(results, params) <~
          as_sublist (func action) (kw_obj_id kwargs) (service_class action)
                     (kw_params kwargs) query_parameters extra_parameters ;;
        return_db (Listing (QueryParams.filter_by params) (QueryParams.query params)
                           (QueryParams.view params) (QueryParams.sort_by params)
                           (QueryParams.page_by params) results)
    | _ =>
        '(results, _) <~
          as_resource (func action) (kw_obj_id kwargs) (service_class action)
                      (kw_params kwargs) query_parameters extra_parameters ;;
        return_db results
    end.

Definition init_resource_endpoint (self : Endpoint) (action : EndpointAction)
  (routes : router) : router :=
  routes ++
  [{| methods := ["GET"]; Fastapi.path := path action; name := action_name action;
      include_in_schema := true;
      endpoint := _Permissions self (resource_route_func self action) |}].

(** [self._create = f] and its siblings. *)
Definition set_create (self : Endpoint) (f : Callable create_func) : Endpoint :=
  {| prefix := prefix self; model_class := model_class self;
     route_type := route_type self; _list := _list self; _fetch := _fetch self;
     _create := f; _update := _update self; _delete := _delete self;
     allow_list := allow_list self; allow_fetch := allow_fetch self;
     allow_create := allow_create self; allow_update := allow_update self;
     allow_delete := allow_delete self; ignored_deps := ignored_deps self;
     permissions := permissions self |}.

Definition set_update (self : Endpoint) (f : Callable update_func) : Endpoint :=
  {| prefix := prefix self; model_class := model_class self;
     route_type := route_type self; _list := _list self; _fetch := _fetch self;
     _create := _create self; _update := f; _delete := _delete self;
     allow_list := allow_list self; allow_fetch := allow_fetch self;
     allow_create := allow_create self; allow_update := allow_update self;
     allow_delete := allow_delete self; ignored_deps := ignored_deps self;
     permissions := permissions self |}.

Definition set_delete (self : Endpoint) (f : Callable delete_func) : Endpoint :=
  {| prefix := prefix self; model_class := model_class self;
     route_type := route_type self; _list := _list self; _fetch := _fetch self;
     _create := _create self; _update := _update self; _delete := f;
     allow_list := allow_list self; allow_fetch := allow_fetch self;
     allow_create := allow_create self; allow_update := allow_update self;
     allow_delete := allow_delete self; ignored_deps := ignored_deps self;
     permissions := permissions self |}.

Definition set_list (self : Endpoint) (f : Callable list_func) : Endpoint :=
  {| prefix := prefix self; model_class := model_class self;
     route_type := route_type self; _list := f; _fetch := _fetch self;
     _create := _create self; _update := _update self; _delete := _delete self;
     allow_list := allow_list self; allow_fetch := allow_fetch self;
     allow_create := allow_create self; allow_update := allow_update self;
     allow_delete := allow_delete self; ignored_deps := ignored_deps self;
     permissions := permissions self |}.

(** [Endpoint.action(action_type=..., name=..., ignored_deps=...,
    model_class=...)(func)]: what the decorator does to [self] and to
    [self.router]. *)
Definition action (self : Endpoint) (routes : router)
  (action_type : EndpointTypes) (name : option string)
  (ignored_deps' : list string) (model_class' : option (Beanie.Document DB))
  (func : Function) : Endpoint * router :=
  let _ignored_deps :=
    match ignored_deps' with
    | [] => ignored_deps self
    | _ => ignored_deps'
    end in
  let _model_class :=
    match model_class' with
    | Some m => m
    | None => model_class self
    end in
  let func_name :=
    match name with
    | Some n => if String.eqb n EmptyString then function_name func else n
    | None => function_name func
    end in
  let _action :=
    {| action_name := func_name; func := func; action_type := action_type;
       action_ignored_deps := _ignored_deps; service_class := _model_class |} in
  let self :=
    match action_type with
    | CREATE =>
        set_create self {| Routing.func_name := function_name func;
                           call := as_create func |}
    | UPDATE =>
        set_update self {| Routing.func_name := function_name func;
                           call := as_update func |}
    | DELETE =>
        set_delete self {| Routing.func_name := function_name func;
                           call := as_delete func |}
    | LIST =>
        set_list self {| Routing.func_name := function_name func;
                         call := as_list func |}
    | _ => self
    end in
  let routes :=
    match action_type with
    | SINGLE | MANY | DETAIL => init_action_endpoint self _action routes
    | FETCH | SUBLIST => init_resource_endpoint self _action routes
    | _ => routes
    end in
  (self, routes).

(** [_default_func] *)
Definition _default_func : handler DB :=
  fun _ =>
    raise_db (HTTPException 422
      (VDict [("code", VStr (error_value ENDPOINT_NOT_IMPLEMENTED));
              ("message", VStr (error_message ENDPOINT_NOT_IMPLEMENTED))])).

End Endpoints.

Arguments prefix {DB} e.
Arguments model_class {DB} e.
Arguments route_type {DB} e.
Arguments _list {DB} e.
Arguments _fetch {DB} e.
Arguments _create {DB} e.
Arguments _update {DB} e.
Arguments _delete {DB} e.
Arguments allow_list {DB} e.
Arguments allow_fetch {DB} e.
Arguments allow_create {DB} e.
Arguments allow_update {DB} e.
Arguments allow_delete {DB} e.
Arguments ignored_deps {DB} e.
Arguments permissions {DB} e.
Arguments default {DB} func kwargs.
Arguments _Permissions {DB} self func.
Arguments route_extra_parameters {DB} is_valid validate_bool self kwargs.
Arguments list_route_func {DB} is_valid validate_bool self kwargs.
Arguments fetch_route_func {DB} is_valid validate_bool self kwargs.
Arguments create_route_func {DB} is_valid validate_bool self kwargs.
Arguments update_route_func {DB} is_valid validate_bool self kwargs.
Arguments delete_route_func {DB} self kwargs.
Arguments init {DB} is_valid validate_bool self routes.
Arguments _list_func {DB} is_valid.
Arguments _fetch_func {DB}.
Arguments _create_func {DB}.
Arguments _update_func {DB}.
Arguments _delete_func {DB}.
Arguments generate {DB} is_valid.
Arguments list_query_parameters {DB} self extra_parameters.
Arguments resource_query_parameters {DB} self extra_parameters.
Arguments function_name {DB} f.
Arguments as_list {DB} f.
Arguments as_create {DB} f.
Arguments as_update {DB} f.
Arguments as_delete {DB} f.
Arguments as_action {DB} f.
Arguments as_resource {DB} f.
Arguments as_sublist {DB} f.
Arguments action_name {DB} e.
Arguments func {DB} e.
Arguments action_type {DB} e.
Arguments action_ignored_deps {DB} e.
Arguments service_class {DB} e.
Arguments path {DB} self.
Arguments action_route_func {DB} is_valid validate_bool self action kwargs.
Arguments init_action_endpoint {DB} is_valid validate_bool self action routes.
Arguments resource_route_func {DB} is_valid validate_bool self action kwargs.
Arguments init_resource_endpoint {DB} is_valid validate_bool self action routes.
Arguments set_create {DB} self f.
Arguments set_update {DB} self f.
Arguments set_delete {DB} self f.
Arguments set_list {DB} self f.
Arguments action {DB} is_valid validate_bool self routes action_type name.
Arguments _default_func {DB}.

End Routing.

(* ------------------------------------------------------------------ *)
(** ** Concrete libraries, resources and stores for the worked examples *)
(* ------------------------------------------------------------------ *)

Module Sample.

Import Pydantic.

Definition is_hex_digit (c : ascii) : bool :=
  let n := nat_of_ascii c in
  ((48 <=? n) && (n <=? 57) || (97 <=? n) && (n <=? 102)
   || (65 <=? n) && (n <=? 70))%nat.

Fixpoint all_hex (s : string) : bool :=
  match s with
  | EmptyString => true
  | String c rest => is_hex_digit c && all_hex rest
  end.

(** An [ObjectId.is_valid]: twenty-four hexadecimal digits. *)
Definition hex_object_id (s : string) : bool :=
  (String.length s =? 24)%nat && all_hex s.

Fixpoint decimal_from (acc : Z) (s : string) : option Z :=
  match s with
  | EmptyString => Some acc
  | String c rest =>
      let n := nat_of_ascii c in
      if ((48 <=? n) && (n <=? 57))%nat
      then decimal_from (acc * 10 + Z.of_nat (n - 48)) rest
      else None
  end.

(** A bound validator: an unsigned decimal literal is read as the first
    member of [float | int | datetime], anything else is rejected. *)
Definition decimal_bound (s : string) : option value :=
  match s with
  | EmptyString => None
  | _ =>
      match decimal_from 0 s with
      | Some z => Some (VFloat (Qmake z 1))
      | None => None
      end
  end.

(** A [bool] validator for the two canonical spellings. *)
Definition lax_bool (s : string) : option bool :=
  if String.eqb s "true" then Some true
  else if String.eqb s "false" then Some false
  else None.

Definition annotated (type_name : string) : QueryParams.FieldInfo :=
  {| QueryParams.annotation_name := Some type_name |}.

(** A resource declaring [status] and [weight]. *)
Definition parcel_fields : dict QueryParams.FieldInfo :=
  [("status", annotated "str"); ("weight", annotated "float")].

(** A tenant-scoped resource: [entity_id] is a plain reference, [owner] a
    [Link]. *)
Definition order_fields : dict QueryParams.FieldInfo :=
  [("entity_id", annotated "Optional"); ("status", annotated "str");
   ("owner", annotated "Link")].

(** The attributes [__init__] assigns before it parses the filters. *)
Definition fresh_params (page per_page : Z) (filter_by : dict (dict value))
  : QueryParams.ModelQueryParams :=
  {| QueryParams.order_by := "_id"; QueryParams.asc_desc := Enums.DESC;
     QueryParams.page := page; QueryParams.per_page := per_page;
     QueryParams.view := None; QueryParams.query := None;
     QueryParams.prev_page := None; QueryParams.next_page := None;
     QueryParams.pages := 1; QueryParams.skip := 0; QueryParams.total := 0;
     QueryParams.others := []; QueryParams.filter_by := filter_by |}.

(** *** A credential collection held in memory *)

Definition credential_field (c : Auth.ApiCredential) (field : string) : value :=
  let optional o := match o with Some s => VStr s | None => VNone end in
  if String.eqb field "test_key" then optional (Auth.test_key c)
  else if String.eqb field "live_key" then optional (Auth.live_key c)
  else if String.eqb field "app_id" then VStr (Auth.app_id c)
  else VNone.

Definition same_string (a b : value) : bool :=
  match a, b with
  | VStr x, VStr y => String.eqb x y
  | _, _ => false
  end.

(** [find_one] for equality queries on the string fields of a credential. *)
Definition find_credential (store : list Auth.ApiCredential) (query : dict value)
  : outcome (option Auth.ApiCredential) :=
  Return (find (fun c => forallb (fun kv => same_string (credential_field c (fst kv)) (snd kv))
                                 query) store).

Definition suspended_app : Auth.ApiCredential :=
  {| Auth.name := "storefront"; Auth.entity_id := VNone; Auth.user_id := VStr "alice";
     Auth.app_id := "app_1"; Auth.test_key := Some "sk_test_abc";
     Auth.live_key := Some "sk_live_abc"; Auth.is_active := Some false |}.

(** *** A document collection held in memory, keyed by identifier *)

Definition collection : Type := dict Model.

Definition document_id (m : Model) : option string :=
  match get (attrs m) "id" with
  | Some (VStr s) | Some (VObjectId s) => Some s
  | _ => None
  end.

(** A validator that accepts a mapping when every required field is
    present and not [None], and keeps the declared fields. *)
Definition validate_required (fields excluded required : list string)
  (data : dict value) : outcome Model :=
  if forallb (fun f => match get data f with
                       | Some v => negb (is_none v)
                       | None => false
                       end) required
  then Return {| declared := fields;
                 excluded := excluded;
                 attrs := filter (fun kv => mem (fst kv) fields) data;
                 fields_set := keys data |}
  else Raise (ValidationError "Field required").

Definition replace_document (m : Model) : M collection Model :=
  fun db =>
    match document_id m with
    | None => Raise (ValueError "Document must have an id")
    | Some i =>
        if contains db i then Return (m, set db i m)
        else Raise DocumentNotFound
    end.

Definition delete_document (m : Model) : M collection unit :=
  fun db =>
    match document_id m with
    | None => Raise (ValueError "Document must have an id")
    | Some i => Return (tt, filter (fun kv => negb (String.eqb (fst kv) i)) db)
    end.

(** The class of a collection whose fields [hidden] are declared with
    [Field(exclude=True)]; queries are not interpreted: [count] and [find]
    take every document to match. *)
Definition memory_class_excluding (fields : dict QueryParams.FieldInfo)
  (hidden required : list string) : Beanie.Document collection :=
  {| Beanie.model_fields := fields;
     Beanie.model_validate := validate_required (keys fields) hidden required;
     Beanie.get := fun i db => Return (get db (Routing.format_id i));
     Beanie.count := fun _ db => List.length db;
     Beanie.find := fun _ _ _ _ db => Return (map snd db);
     Beanie.save := fun m db =>
       match document_id m with
       | None => Raise (ValueError "Document must have an id")
       | Some i => Return (m, set db i m)
       end;
     Beanie.replace := replace_document;
     Beanie.delete := delete_document;
     Beanie.fetch_all_links := fun m _ => Return m |}.

Definition memory_class (fields : dict QueryParams.FieldInfo) (required : list string)
  : Beanie.Document collection :=
  memory_class_excluding fields [] required.

(** [Status] of app/models/shared.py: [name], [id], [description]. *)
Definition status_fields : dict QueryParams.FieldInfo :=
  [("name", annotated "str"); ("id", annotated "str");
   ("description", annotated "Optional")].

Definition Status : Beanie.Document collection :=
  memory_class status_fields ["name"; "id"].

(** A credential-like resource that also declares [user_id]. *)
Definition owned_fields : dict QueryParams.FieldInfo :=
  [("id", annotated "str"); ("name", annotated "str");
   ("description", annotated "Optional"); ("user_id", annotated "Optional")].

Definition Owned : Beanie.Document collection :=
  memory_class owned_fields ["name"; "id"].

Definition document (fields : dict QueryParams.FieldInfo) (data : dict value) : Model :=
  {| declared := keys fields; excluded := []; attrs := data; fields_set := keys data |}.

(** A payload of [ApplicationSchema] with only [name] set. *)
Definition rename_payload : Model :=
  {| declared := ["name"; "description"];
     excluded := [];
     attrs := [("name", VStr "new"); ("description", VNone)];
     fields_set := ["name"] |}.

Definition no_params : QueryParams.ModelQueryParams := fresh_params 1 20 [].

Definition request (obj_id : value) (payload : Model) (user_id : value)
  : Fastapi.Kwargs :=
  {| Fastapi.kw_obj_id := obj_id; Fastapi.kw_payload := payload;
     Fastapi.kw_params := no_params; Fastapi.kw_user_id := user_id;
     Fastapi.kw_entity_id := VNone; Fastapi.kw_api_token := None;
     Fastapi.kw_live_mode := VBool false; Fastapi.kw_extra_parameters := None |}.

(** A function for [Endpoint.action] that answers with its own name and
    touches nothing. *)
Definition echo (name : string) : Routing.Function collection :=
  {| Routing.function_name := name;
     Routing.as_list := fun _ params _ _ _ db => Return (([], params), db);
     Routing.as_create := fun _ _ _ db => Return (Fastapi.Plain (VStr name), db);
     Routing.as_update := fun _ _ _ _ db => Return (Fastapi.Plain (VStr name), db);
     Routing.as_delete := fun _ _ db => Return (Fastapi.Plain (VStr name), db);
     Routing.as_action := fun _ _ _ _ db => Return (Fastapi.Plain (VStr name), db);
     Routing.as_resource :=
       fun _ _ params _ _ db => Return ((Fastapi.Plain (VStr name), params), db);
     Routing.as_sublist := fun _ _ params _ _ db => Return (([], params), db) |}.

(** The extra parameters of a request by [alice] on an app route. *)
Definition alice_parameters : CustomFields.ExtraParameters :=
  {| CustomFields.entity_id := VNone; CustomFields.user_id := VStr "alice";
     CustomFields.token := None; CustomFields.live_mode := VBool false;
     CustomFields.route_type := Enums.APP |}.

(** A user collection in which everyone is a viewer. *)
Definition viewers (user_id : value) (db : collection)
  : outcome (option Middleware.User) :=
  Return (Some {| Middleware.is_suspended := VBool false;
                  Middleware.permissions := ["viewer"] |}).

(** An endpoint on [Status] for administrators, generated with
    [permissions] and with its create, update and delete handlers
    disabled. *)
Definition admin_statuses : Routing.Endpoint collection :=
  Routing.generate hex_object_id Status "/statuses" Enums.APP
    (Some (Middleware.authorize_permission viewers ["admin"]))
    ["entity_id"; "user_id"; "currency"] false false false true true.

End Sample.

(* ------------------------------------------------------------------ *)
(** ** The vocabulary of the statements *)
(* ------------------------------------------------------------------ *)

Module Statements.

Import Fastapi.

(** The keyspace [find_by_key] queries: [live_key] for a key that starts
    with [sk_live], [test_key] for every other key. *)
Definition keyspace (key : string) : string :=
  if startswith key "sk_live" then "live_key" else "test_key".

(** C7 as the specification states it, for a guard built with [public]: the
    guard fails with [TOKEN.DENIED] whenever the credential its key
    resolves to is inactive or missing. *)
Definition fails_closed (public : bool)
  (find_one : dict value -> outcome (option Auth.ApiCredential))
  (authorization : HTTPAuthorizationCredentials) : Prop :=
  forall resolved,
    find_one [(keyspace (credentials authorization), VStr (credentials authorization))]
      = Return resolved ->
    match resolved with
    | None => True
    | Some c => Auth.is_active c = Some false
    end ->
    Middleware.api_deps (Auth.find_by_key find_one) public authorization
    = Raise (HTTPException 401
        (VDict [("code", VStr "TOKEN.DENIED");
                ("message", VStr "Access token is denied. The user does not exist or is suspended.")])).

Section Disabled.

Variable DB : Type.
Variable is_valid : string -> bool.
Variable validate_bool : string -> option bool.
Variable self : Routing.Endpoint DB.

(** A handler that answers every call, whatever its arguments and the
    state of the store, with the operation-denied error. *)
Definition always_denied (h : handler DB) : Prop :=
  forall kwargs db, h kwargs db = Raise Routing.operation_denied.

(** The route for [method] on [path] is disabled: its route function
    always answers operation-denied, and whatever was registered before,
    the table [init] builds has the route, out of the schema, with the
    permission decorator around that route function; under the default
    permissions the registered handler itself always answers
    operation-denied. *)
Definition disabled (method path : string) (route_func : handler DB) : Prop :=
  always_denied route_func
  /\ forall routes, exists r,
       In r (Routing.init is_valid validate_bool self routes)
       /\ methods r = [method]
       /\ Fastapi.path r = path
       /\ include_in_schema r = false
       /\ endpoint r = Routing._Permissions self route_func
       /\ (Routing.permissions self = None -> always_denied (endpoint r)).

End Disabled.

Arguments always_denied {DB} h.
Arguments disabled {DB} is_valid validate_bool self method path route_func.

(** C5 as the specification states it, for the create route: when
    [allow_create] is false, every request to the route registered for
    [POST] on the prefix is answered with the operation-denied error. *)
Definition disabled_create_denies_every_request {DB : Type}
  (is_valid : string -> bool) (validate_bool : string -> option bool)
  (self : Routing.Endpoint DB) : Prop :=
  Routing.allow_create self = false ->
  forall r,
    In r (Routing.init is_valid validate_bool self []) ->
    methods r = ["POST"] ->
    Fastapi.path r = EmptyString ->
    always_denied (endpoint r).

(** The query string of the worked example: as the specification writes
    it, and with the operator tokens that are [Operators] values. *)
Definition example_query_string : list (string * string) :=
  [("status.eq", "active"); ("weight.btw", "1__10");
   ("page_by.page", "2"); ("page_by.per_page", "5")].

Definition dollar_query_string : list (string * string) :=
  [("status.$eq", "active"); ("weight.$btw", "1__10");
   ("page_by.page", "2"); ("page_by.per_page", "5")].

(** The filter clauses the worked example expects. *)
Definition claimed_clauses : dict (dict value) :=
  [("status", [("op", VStr "eq"); ("value", VStr "active")]);
   ("weight", [("op", VStr "btw");
               ("value", VDict [("min", VStr "1"); ("max", VStr "10")])])].

(** C9 as the specification states it: the example query string parses to the
    claimed clauses, and with twelve matching records pagination resolves
    to [skip=5], [pages=3], [prev_page=1], [next_page=3]. *)
Definition example_as_claimed (is_valid : string -> bool)
  (validate_bound : string -> option value) : Prop :=
  exists self q self',
    QueryParams.init is_valid validate_bound Sample.parcel_fields
      "_id" Enums.DESC 2 5 None None example_query_string = Return self
    /\ (forall k, get (QueryParams.filter_by self) k = get claimed_clauses k)
    /\ QueryParams.get_db_query is_valid Sample.parcel_fields (fun _ => 12%nat) self []
       = Return (q, self')
    /\ QueryParams.skip self' = 5%Z
    /\ QueryParams.pages self' = 3%Z
    /\ QueryParams.prev_page self' = Some 1%Z
    /\ QueryParams.next_page self' = Some 3%Z.

(** ['.' in s] *)
Fixpoint has_dot (s : string) : bool :=
  match s with
  | EmptyString => false
  | String c rest => Ascii.eqb c "."%char || has_dot rest
  end.

(** The root segment of a dotted attribute path. *)
Definition root_of (name : string) : option string := hd_error (split name ".").

(** Every filter key of the query string whose root segment is rejected
    ends in [others] with its value, and its attribute path is not a key
    of [filter_by]. *)
Definition discards_roots (rejected : string -> Prop)
  (query_params : list (string * string))
  (filter_by : dict (dict value)) (others : dict string) : Prop :=
  forall k v root rest op,
    get (QueryParams.filter_options query_params) k = Some v ->
    split k "." = (root :: rest) ++ [op] ->
    rejected root ->
    get others k = Some v /\ ~ In (join "." (root :: rest)) (keys filter_by).

(** C4 as the specification states it: rejected are the roots that are not
    declared, and the reserved identifier [_id]. *)
Definition discards_undeclared_and_reserved (is_valid : string -> bool)
  (validate_bound : string -> option value)
  (model_fields : dict QueryParams.FieldInfo)
  (self : QueryParams.ModelQueryParams)
  (query_params : list (string * string)) : Prop :=
  forall filter_by self',
    QueryParams.prepare_filter_args is_valid validate_bound model_fields self
      query_params = Return (filter_by, self') ->
    discards_roots (fun root => contains model_fields root = false \/ root = "_id")
      query_params filter_by (QueryParams.others self').

(** The root of an attribute path is declared, or is [_id]. *)
Definition accepted_path (model_fields : dict QueryParams.FieldInfo) (name : string)
  : Prop :=
  exists root,
    root_of name = Some root
    /\ (contains model_fields root = true \/ root = "_id").

(** A key of the database query names a declared field: the field name
    itself, or the name with [.$id] appended when the annotation of the
    field is named [Link]. *)
Definition field_key (model_fields : dict QueryParams.FieldInfo) (key : string)
  : Prop :=
  exists f info,
    get model_fields f = Some info
    /\ ((key = f /\ QueryParams.annotation_name info <> Some "Link")
        \/ (key = (f ++ ".$id")%string
            /\ QueryParams.annotation_name info = Some "Link")).

(** The query dict of a call to [get_db_query]. *)
Definition returned_query
  (result : outcome (dict (dict value) * QueryParams.ModelQueryParams))
  : outcome (dict (dict value)) :=
  match result with
  | Return (q, _) => Return q
  | Raise e => Raise e
  end.

(** The equality predicate [get_db_query] builds for a default value. *)
Definition equality_predicate (is_valid : string -> bool) (v : value) : dict value :=
  [("$eq", CustomFields.check_object_id is_valid v)].

(** What one entry of a default filter does to the query dict. *)
Definition default_entry (is_valid : string -> bool)
  (model_fields : dict QueryParams.FieldInfo)
  (_filters : dict (dict value)) (item : string * value) : dict (dict value) :=
  match get model_fields (fst item) with
  | None => _filters
  | Some info =>
      set _filters (QueryParams.db_key (fst item) info)
          (equality_predicate is_valid (snd item))
  end.

(** C1 as the specification states it: every key of every default filter is in
    the returned query, under its own name or its [.$id] form, with the
    equality predicate of the default value. *)
Definition default_filters_always_applied (is_valid : string -> bool)
  (model_fields : dict QueryParams.FieldInfo)
  (count : dict (dict value) -> nat)
  (self : QueryParams.ModelQueryParams)
  (default_filters : list (dict value)) : Prop :=
  forall q self',
    QueryParams.get_db_query is_valid model_fields count self default_filters
    = Return (q, self') ->
    forall default_filter k v,
      In default_filter default_filters ->
      In (k, v) default_filter ->
      get q k = Some (equality_predicate is_valid v)
      \/ get q (k ++ ".$id") = Some (equality_predicate is_valid v).

(** The merge the specification describes: only the payload fields that
    were explicitly set and are not [None], over the existing record. *)
Definition payload_only_merge (obj payload : Pydantic.Model) : dict value :=
  Pydantic.model_dump (Pydantic.model_copy obj (Pydantic.model_dump_set payload)).

(** Re-validate a merged document and persist it as a full replace. *)
Definition validate_and_replace {DB : Type} (model_class : Beanie.Document DB)
  (merged : dict value) : M DB response :=
  validated <~ read (fun _ => Beanie.model_validate model_class merged) ;;
  persisted <~ Beanie.replace model_class validated ;;
  return_db (Object (Some persisted)).

(** C8 as the specification states it: the update handler persists the
    payload-only merge. *)
Definition update_merges_payload_only {DB : Type} (model_class : Beanie.Document DB)
  (obj_id : value) (payload : Pydantic.Model) (extra_parameters : dict value)
  (db : DB) : Prop :=
  forall obj,
    Beanie.get model_class obj_id db = Return (Some obj) ->
    Routing._update_func obj_id model_class payload extra_parameters db
    = validate_and_replace model_class (payload_only_merge obj payload) db.

(** The extra parameters of a request by user [bob] on an app route
    without entity or token. *)
Definition bob_parameters : dict value :=
  CustomFields.as_dict
    {| CustomFields.entity_id := VNone; CustomFields.user_id := VStr "bob";
       CustomFields.token := None; CustomFields.live_mode := VBool false;
       CustomFields.route_type := Enums.APP |}.

(** A store with one record of [Owned], owned by [alice]. *)
Definition alice_store : Sample.collection :=
  [("c1", Sample.document Sample.owned_fields
            [("id", VStr "c1"); ("name", VStr "old"); ("description", VStr "x");
             ("user_id", VStr "alice")])].

(** *** Vocabulary of the further properties *)

(** A scalar filter value: a string, or the identifier it spells. *)
Definition scalar (v : value) : Prop :=
  exists s, v = VStr s \/ v = VObjectId s.

(** The value of a clause has the shape its operator token asks for: a
    [min]/[max] mapping for [$btw], the pieces of a string cut at [|] for
    [$in] and [$nin], a scalar otherwise. *)
Definition clause_shape (is_valid : string -> bool) (op : string) (v : value) : Prop :=
  if String.eqb op "$btw"
  then exists lo hi, v = VDict [("min", lo); ("max", hi)]
  else if mem op ["$in"; "$nin"]
  then exists piece,
         v = VList (map (CustomFields.check_object_id is_valid)
                        (map VStr (split piece "|")))
  else scalar v.

Definition well_formed_clause (is_valid : string -> bool) (clause : dict value) : Prop :=
  exists op v,
    clause = [("op", VStr op); ("value", v)] /\ clause_shape is_valid op v.

(** The test of [prepare_filter_args] that sends a key to [others]: no
    attribute path, or a root that is neither declared nor [_id]. *)
Definition discarded (model_fields : dict QueryParams.FieldInfo) (k : string) : bool :=
  match unpack_last (split k ".") with
  | Return ([], _) => true
  | Return (root :: _, _) =>
      negb (contains model_fields root) && negb (String.eqb root "_id")
  | Raise _ => false
  end.




(** The error object of a bearer-guard failure: the four entries, in
    either order. *)
Definition authentication_detail (e : Enums.ApplicationErrors) (detail : value) : Prop :=
  exists fields,
    detail = VList [VDict fields]
    /\ get fields "type" = Some (VStr "authentication_error")
    /\ get fields "code" = Some (VStr (Enums.error_value e))
    /\ get fields "loc" = Some (VList [VStr "header"; VStr "authorization"])
    /\ get fields "msg" = Some (VStr (Enums.error_message e)).

(** A callee that raises no [HTTPException] of its own. *)
Definition raises_no_http {A B : Type} (f : A -> outcome B) : Prop :=
  forall a status detail, f a <> Raise (HTTPException status detail).

(** An exception none of the [except] clauses of the bearer guard
    catches. *)
Definition uncaught (e : exn) : Prop :=
  e <> ExpiredSignatureError /\ e <> InvalidSignatureError
  /\ forall msg, e <> ValidationError msg.

(** The user a permission check is made for:
    [kwargs.get("extra_parameters").user_id if kwargs.get("extra_parameters")
    else kwargs.get("user_id")]. *)
Definition requester (kwargs : Kwargs) : value :=
  match kw_extra_parameters kwargs with
  | Some extra_parameters => CustomFields.user_id extra_parameters
  | None => kw_user_id kwargs
  end.

Definition forbidden : exn :=
  HTTPException 403 (VStr "User does not have permission to perform this action").


(** The error object of the API-key and header guards:
    [dict(code=..., message=...)]. *)
Definition api_detail (e : Enums.ApplicationErrors) : value :=
  VDict [("code", VStr (Enums.error_value e)); ("message", VStr (Enums.error_message e))].

(** A lookup that fails with a validation error only. *)
Definition raises_validation_only {A B : Type} (f : A -> outcome B) : Prop :=
  forall a e, f a = Raise e -> exists msg, e = ValidationError msg.


(** The API-key guard lets a request with this key through when the key
    resolves to credential [c]. *)
Definition admitted (c : Auth.ApiCredential)
  (authorization : HTTPAuthorizationCredentials) : Prop :=
  exists t,
    Middleware.api_deps (fun _ => Return (Some c)) false authorization = Return (Some t).

End Statements.

(* ------------------------------------------------------------------ *)
(** * Facts about the runtime model *)
(* ------------------------------------------------------------------ *)

Module DictFacts.

Section Dict.

Context {V : Type}.
Implicit Types (d other : dict V) (k : string) (v : V).

Lemma get_set_same d k v : get (set d k v) k = Some v.
Proof.
  induction d as [|[k0 v0] d IH]; simpl.
  - now rewrite String.eqb_refl.
  - destruct (String.eqb_spec k0 k) as [->|Hne]; simpl.
    + now rewrite String.eqb_refl.
    + apply String.eqb_neq in Hne. now rewrite Hne.
Qed.

Lemma get_set_other d k k' v : k <> k' -> get (set d k v) k' = get d k'.
Proof.
  intros Hne. induction d as [|[k0 v0] d IH]; simpl.
  - apply String.eqb_neq in Hne. now rewrite Hne.
  - destruct (String.eqb_spec k0 k) as [->|Hk0]; simpl.
    + apply String.eqb_neq in Hne. now rewrite Hne.
    + now rewrite IH.
Qed.

Lemma keys_set d k v k' : In k' (keys (set d k v)) <-> k' = k \/ In k' (keys d).
Proof.
  unfold keys. induction d as [|[k0 v0] d IH]; simpl.
  - intuition.
  - destruct (String.eqb_spec k0 k) as [->|Hk0]; simpl.
    + intuition.
    + rewrite IH. intuition.
Qed.

Lemma get_in_keys d k v : get d k = Some v -> In k (keys d).
Proof.
  unfold keys. induction d as [|[k0 v0] d IH]; simpl; [discriminate|].
  destruct (String.eqb_spec k0 k) as [->|Hk0]; auto.
Qed.

Lemma get_none d k : get d k = None <-> ~ In k (keys d).
Proof.
  unfold keys. induction d as [|[k0 v0] d IH]; simpl.
  - intuition.
  - destruct (String.eqb_spec k0 k) as [->|Hk0].
    + split; [discriminate | intros H; exfalso; auto].
    + rewrite IH. intuition.
Qed.

Lemma contains_in_keys d k : contains d k = true <-> In k (keys d).
Proof.
  unfold contains. destruct (get d k) eqn:E.
  - split; [intros _; eapply get_in_keys; eauto | reflexivity].
  - apply get_none in E. split; [discriminate | tauto].
Qed.


Lemma NoDup_keys_set d k v : NoDup (keys d) -> NoDup (keys (set d k v)).
Proof.
  unfold keys. induction d as [|[k0 v0] d IH]; simpl; intros Hnd.
  - constructor; [intros []|constructor].
  - inversion Hnd as [|? ? Hnotin Hnd']; subst.
    destruct (String.eqb_spec k0 k) as [->|Hk0]; simpl.
    + now constructor.
    + constructor; [|auto].
      intros Hin. apply (keys_set d k v k0) in Hin.
      destruct Hin as [Heq|Hin]; [congruence | contradiction].
Qed.

Lemma NoDup_keys_update d other : NoDup (keys d) -> NoDup (keys (update d other)).
Proof.
  unfold update. revert d.
  induction other as [|[k0 v0] other IH]; simpl; intros d Hnd; auto.
  apply IH. now apply NoDup_keys_set.
Qed.

Lemma NoDup_keys_of_items (pairs : list (string * V)) : NoDup (keys (of_items pairs)).
Proof. apply NoDup_keys_update. constructor. Qed.

Lemma keys_update d other k :
  In k (keys (update d other)) <-> In k (keys d) \/ In k (keys other).
Proof.
  unfold update. revert d.
  induction other as [|[k0 v0] other IH]; simpl; intros d.
  - intuition.
  - rewrite IH, keys_set. intuition.
Qed.

Lemma get_update_absent d other k :
  ~ In k (keys other) -> get (update d other) k = get d k.
Proof.
  unfold update. revert d.
  induction other as [|[k0 v0] other IH]; simpl; intros d Hnotin; auto.
  rewrite IH by tauto. apply get_set_other. intros ->. tauto.
Qed.

Lemma get_update d other k :
  NoDup (keys other) ->
  get (update d other) k =
  match get other k with
  | Some v => Some v
  | None => get d k
  end.
Proof.
  revert d.
  induction other as [|[k0 v0] other IH]; simpl; intros d Hnd; auto.
  inversion Hnd as [|? ? Hnotin Hnd']; subst.
  destruct (String.eqb_spec k0 k) as [->|Hk0].
  - change (get (update (set d k v0) other) k = Some v0).
    rewrite get_update_absent by exact Hnotin. apply get_set_same.
  - change (get (update (set d k0 v0) other) k
            = match get other k with Some v => Some v | None => get d k end).
    rewrite IH by exact Hnd'. now rewrite get_set_other.
Qed.

Lemma keys_filter (p : string * V -> bool) d k :
  In k (keys (filter p d)) -> In k (keys d).
Proof.
  unfold keys. rewrite !in_map_iff. intros [kv [Hk Hin]].
  apply filter_In in Hin. exists kv. tauto.
Qed.

Lemma NoDup_keys_filter (p : string * V -> bool) d :
  NoDup (keys d) -> NoDup (keys (filter p d)).
Proof.
  induction d as [|[k0 v0] d IH]; simpl; intros Hnd; auto.
  inversion Hnd as [|? ? Hnotin Hnd']; subst.
  destruct (p (k0, v0)); simpl; auto.
  constructor; auto. intros Hin. apply Hnotin. eapply keys_filter; eauto.
Qed.



Lemma in_items_get d k v : NoDup (keys d) -> In (k, v) d -> get d k = Some v.
Proof.
  induction d as [|[k0 v0] d IH]; simpl; intros Hnd Hin; [tauto|].
  inversion Hnd as [|? ? Hnotin Hnd']; subst.
  destruct Hin as [Heq|Hin].
  - inversion Heq; subst. now rewrite String.eqb_refl.
  - destruct (String.eqb_spec k0 k) as [->|Hk0]; auto.
    exfalso. apply Hnotin. unfold keys. apply in_map_iff. now exists (k, v).
Qed.

Lemma get_in_items d k v : get d k = Some v -> In (k, v) d.
Proof.
  induction d as [|[k0 v0] d IH]; simpl; [discriminate|].
  destruct (String.eqb_spec k0 k) as [->|Hk0].
  - intros [= ->]. now left.
  - auto.
Qed.

End Dict.

Lemma mem_In (x : string) (l : list string) : mem x l = true <-> In x l.
Proof.
  unfold mem. rewrite existsb_exists. split.
  - intros [y [Hin Heq]]. apply String.eqb_eq in Heq. now subst.
  - intros Hin. exists x. split; auto. apply String.eqb_refl.
Qed.

Lemma mem_false (x : string) (l : list string) : mem x l = false <-> ~ In x l.
Proof.
  rewrite <- mem_In. destruct (mem x l); split; congruence.
Qed.

End DictFacts.

Module LoopFacts.

Lemma for_each_app {A S : Type} (body : S -> A -> outcome S) (l1 l2 : list A) (s : S) :
  for_each body (l1 ++ l2) s = Py.bind (for_each body l1 s) (for_each body l2).
Proof.
  revert s. induction l1 as [|a l1 IH]; simpl; intros s; auto.
  destruct (body s a); simpl; auto.
Qed.

(** A nested loop is the loop over the concatenation. *)
Lemma for_each_concat {A S : Type} (body : S -> A -> outcome S)
  (ls : list (list A)) (s : S) :
  for_each (fun acc l => for_each body l acc) ls s = for_each body (concat ls) s.
Proof.
  revert s. induction ls as [|l ls IH]; simpl; intros s; auto.
  rewrite for_each_app. destruct (for_each body l s); simpl; auto.
Qed.

(** A property every iteration preserves holds when the loop returns. *)
Lemma for_each_invariant {A S : Type} (P : S -> Prop) (body : S -> A -> outcome S)
  (l : list A) :
  (forall s a s', In a l -> P s -> body s a = Return s' -> P s') ->
  forall s s', P s -> for_each body l s = Return s' -> P s'.
Proof.
  induction l as [|a l IH]; simpl; intros Hstep s s' Hs Hrun.
  - now inversion Hrun; subst.
  - destruct (body s a) as [s1|e] eqn:Hbody; simpl in Hrun; [|discriminate].
    apply (IH (fun s a s' Hin => Hstep s a s' (or_intror Hin)) s1 s').
    + eapply Hstep; eauto; now left.
    + exact Hrun.
Qed.

(** Items the body passes over can be left out of the loop. *)
Lemma for_each_skipped {A S : Type} (body : S -> A -> outcome S) (keep : A -> bool)
  (l : list A) :
  (forall s a, keep a = false -> body s a = Return s) ->
  forall s, for_each body l s = for_each body (filter keep l) s.
Proof.
  intros Hskip. induction l as [|a l IH]; simpl; intros s; auto.
  destruct (keep a) eqn:Hkeep; simpl.
  - destruct (body s a); simpl; auto.
  - rewrite Hskip by exact Hkeep. simpl. apply IH.
Qed.

(** A loop whose body never raises is a left fold. *)
Lemma for_each_total {A S : Type} (body : S -> A -> outcome S) (f : S -> A -> S)
  (l : list A) :
  (forall s a, body s a = Return (f s a)) ->
  forall s, for_each body l s = Return (fold_left f l s).
Proof.
  intros Hbody. induction l as [|a l IH]; simpl; intros s; auto.
  rewrite Hbody. simpl. apply IH.
Qed.

End LoopFacts.

Module DivFacts.

Local Open Scope Z_scope.

Lemma round_half_even_cases n d :
  0 < d ->
  round_half_even n d = n / d
  \/ (round_half_even n d = n / d + 1 /\ d <= 2 * (n mod d)).
Proof.
  intros Hd. unfold round_half_even.
  destruct (Z.ltb_spec (2 * (n mod d)) d); [now left|].
  destruct (Z.ltb_spec d (2 * (n mod d))); [right; split; lia|].
  destruct (Z.even (n / d)); [now left | right; split; lia].
Qed.

(** The exponent [int_true_div] picks is the one of the quotient. *)
Lemma quotient_exponent a b :
  0 < b -> b <= a ->
  let e0 := Z.log2 a - Z.log2 b in
  let e := if 2 ^ e0 * b <=? a then e0 else e0 - 1 in
  0 <= e /\ e <= Z.log2 a /\ 2 ^ e * b <= a.
Proof.
  intros Hb Hab e0 e.
  assert (Ha : 0 < a) by lia.
  pose proof (Z.log2_spec a Ha) as [Hla Hua].
  pose proof (Z.log2_spec b Hb) as [Hlb Hub].
  pose proof (Z.log2_nonneg b) as Hnb.
  pose proof (Z.log2_le_mono b a Hab) as Hmono.
  assert (He0 : 0 <= e0) by (unfold e0; lia).
  subst e. destruct (Z.leb_spec (2 ^ e0 * b) a) as [Hle|Hgt].
  - repeat split; unfold e0 in *; lia.
  - assert (He1 : 1 <= e0).
    { destruct (Z.eq_dec e0 0) as [Hz|]; [|lia].
      rewrite Hz, Z.pow_0_r, Z.mul_1_l in Hgt. lia. }
    repeat split; try (unfold e0 in *; lia).
    replace (Z.succ (Z.log2 b)) with (Z.log2 b + 1) in Hub by lia.
    assert (Hpow : 2 ^ (e0 - 1) * 2 ^ (Z.log2 b + 1) = 2 ^ Z.log2 a).
    { rewrite <- Z.pow_add_r by lia. f_equal. unfold e0. lia. }
    assert (Hpos : 0 < 2 ^ (e0 - 1)) by (apply Z.pow_pos_nonneg; lia).
    nia.
Qed.

(** Below [2 ** 53] the float quotient truncates to the floor of the
    exact one: the quotient is short of the next integer by at least
    [1 / b], more than half a unit in its last place. *)
Lemma int_true_div_exact a b :
  0 <= a < 2 ^ 53 -> 0 < b -> int_true_div a b = Return (a / b).
Proof.
  intros [Ha0 Ha] Hb. unfold int_true_div.
  destruct (Z.eqb_spec b 0) as [|_]; [lia|].
  rewrite (Z.abs_eq a), (Z.abs_eq b) by lia.
  destruct (Z.ltb_spec a b) as [Hlt|Hge].
  - rewrite Z.div_small by lia.
    destruct (Z.leb_spec ((2 ^ 54 - 1) * b) (2 ^ 54 * a)); [|reflexivity].
    exfalso. change (2 ^ 54) with 18014398509481984 in *.
    change (2 ^ 53) with 9007199254740992 in *. lia.
  - assert (Hsign : Z.sgn a * Z.sgn b = 1).
    { rewrite (Z.sgn_pos a), (Z.sgn_pos b) by lia. reflexivity. }
    rewrite Hsign.
    pose proof (quotient_exponent a b Hb Hge) as Hexp. cbv zeta in Hexp.
    set (e := if 2 ^ (Z.log2 a - Z.log2 b) * b <=? a
              then Z.log2 a - Z.log2 b else Z.log2 a - Z.log2 b - 1) in *.
    destruct Hexp as (He0 & Hela & Heb).
    assert (Hla : Z.log2 a < 53) by (apply Z.log2_lt_pow2; lia).
    destruct (Z.leb_spec e 52) as [_|]; [|lia].
    destruct (Z.ltb_spec 1023 e) as [|_]; [lia|].
    destruct (Z.eqb_spec e 1023) as [|_]; [lia|]. cbn [orb andb].
    rewrite Z.mul_1_l. f_equal.
    set (s := 2 ^ (52 - e)).
    assert (Hs : 0 < s) by (apply Z.pow_pos_nonneg; lia).
    assert (HE : 0 < 2 ^ e) by (apply Z.pow_pos_nonneg; lia).
    assert (HEs : 2 ^ e * s = 2 ^ 52).
    { unfold s. rewrite <- Z.pow_add_r by lia. f_equal. lia. }
    assert (Hbs : b < 2 * s).
    { change (2 ^ 53) with (2 * 2 ^ 52) in Ha. rewrite <- HEs in Ha. nia. }
    pose proof (Z.div_mod a b ltac:(lia)) as Hab.
    pose proof (Z.mod_pos_bound a b Hb) as Hr.
    pose proof (Z.div_mod (a * s) b ltac:(lia)) as HN.
    pose proof (Z.mod_pos_bound (a * s) b Hb) as Hrho.
    set (n := a / b) in *. set (r := a mod b) in *.
    set (q := (a * s) / b) in *. set (rho := (a * s) mod b) in *.
    assert (Hn0 : 0 <= n) by (apply Z.div_pos; lia).
    assert (Hlow : n * s <= q) by nia.
    assert (Hhigh : q < (n + 1) * s) by nia.
    symmetry.
    destruct (round_half_even_cases (a * s) b Hb) as [->|[-> Hup]]; fold q;
      [|fold rho in Hup].
    + apply Z.div_unique with (r := q - n * s); nia.
    + apply Z.div_unique with (r := q + 1 - n * s); [|nia].
      left. split; [nia|].
      assert (q + 1 <> (n + 1) * s); [|nia].
      intros Heq. assert (Hrho2 : rho = b - s * (b - r)) by nia.
      assert (1 <= b - r) by lia. nia.
Qed.

End DivFacts.

Module StrFacts.

Import Statements.

Lemma append_empty (s : string) : (s ++ EmptyString)%string = s.
Proof. induction s as [|c s IH]; simpl; congruence. Qed.

Lemma append_assoc (a b c : string) : ((a ++ b) ++ c)%string = (a ++ (b ++ c))%string.
Proof. induction a as [|x a IH]; simpl; congruence. Qed.

Lemma has_dot_append (a b : string) :
  has_dot (a ++ b) = has_dot a || has_dot b.
Proof.
  induction a as [|c a IH]; simpl; auto.
  rewrite IH. now rewrite orb_assoc.
Qed.

(** What [split] sees at a character when the separator is a dot. *)
Lemma prefix_dot (c : ascii) (rest : string) :
  String.prefix "." (String c rest) = Ascii.eqb "."%char c.
Proof.
  cbn [String.prefix]. destruct (ascii_dec "."%char c) as [<-|Hne].
  - rewrite Ascii.eqb_refl. destruct rest; reflexivity.
  - symmetry. now apply Ascii.eqb_neq.
Qed.

Lemma split_from_nonempty (sep : string) (skip : nat) (cur s : string) :
  split_from sep skip cur s <> [].
Proof.
  revert skip cur. induction s as [|c s IH]; intros skip cur; cbn [split_from].
  - discriminate.
  - destruct skip; [|apply IH].
    destruct (String.prefix sep (String c s)); [discriminate | apply IH].
Qed.

Lemma split_length (s sep : string) : (List.length (split s sep) <? 1)%nat = false.
Proof.
  unfold split. pose proof (split_from_nonempty sep 0 EmptyString s) as H.
  destruct (split_from sep 0 EmptyString s); [congruence | reflexivity].
Qed.

(** Every segment [split] cuts at the dots is free of dots. *)
Lemma split_from_dot_free (s cur : string) :
  has_dot cur = false ->
  Forall (fun seg => has_dot seg = false) (split_from "." 0 cur s).
Proof.
  revert cur. induction s as [|c s IH]; intros cur Hcur.
  - simpl. constructor; auto.
  - unfold split_from; fold split_from. rewrite prefix_dot.
    destruct (Ascii.eqb_spec "."%char c) as [<-|Hne].
    + constructor; auto.
    + apply IH. rewrite has_dot_append, Hcur. simpl.
      rewrite orb_false_r. apply Ascii.eqb_neq. congruence.
Qed.

Lemma split_dot_free (s : string) :
  Forall (fun seg => has_dot seg = false) (split s ".").
Proof. apply split_from_dot_free. reflexivity. Qed.

(** Scanning a dot-free prefix only grows the current segment. *)
Lemma split_from_prefix (r cur s : string) :
  has_dot r = false ->
  split_from "." 0 cur (r ++ s) = split_from "." 0 (cur ++ r) s.
Proof.
  revert cur. induction r as [|c r IH]; intros cur Hr.
  - simpl. now rewrite append_empty.
  - simpl in Hr. apply orb_false_elim in Hr as [Hc Hr].
    change ((String c r ++ s)%string) with (String c (r ++ s)).
    unfold split_from at 1; fold split_from. rewrite prefix_dot.
    replace (Ascii.eqb "."%char c) with false
      by (symmetry; rewrite Ascii.eqb_sym; exact Hc).
    rewrite IH by exact Hr. rewrite append_assoc. reflexivity.
Qed.

(** The root of a joined path is its first segment. *)
Lemma root_of_join (root : string) (rest : list string) :
  has_dot root = false ->
  root_of (join "." (root :: rest)) = Some root.
Proof.
  intros Hroot. unfold root_of, split, join. simpl.
  destruct rest as [|next rest].
  - rewrite <- (append_empty root) at 1.
    rewrite split_from_prefix by exact Hroot. reflexivity.
  - rewrite split_from_prefix by exact Hroot.
    unfold split_from; fold split_from. rewrite prefix_dot. reflexivity.
Qed.

Lemma unpack_last_app {A : Type} (l init : list A) (last : A) :
  unpack_last l = Return (init, last) -> l = init ++ [last].
Proof.
  unfold unpack_last. destruct (rev l) as [|x r] eqn:Hrev; [discriminate|].
  intros [= <- <-]. rewrite <- (rev_involutive l), Hrev. reflexivity.
Qed.

Lemma unpack_last_of_app {A : Type} (init : list A) (last : A) :
  unpack_last (init ++ [last]) = Return (init, last).
Proof.
  unfold unpack_last. rewrite rev_app_distr. simpl. now rewrite rev_involutive.
Qed.

End StrFacts.

(* ------------------------------------------------------------------ *)
(** * The request guards *)
(* ------------------------------------------------------------------ *)

Import Fastapi Statements.

(** C6. A bearer-token guard built with [public=True] resolves to "no
    identity" without error whatever the Authorization header is, also when
    it is absent; a non-public guard with the header absent fails with a
    401 whose error object carries the code [TOKEN.REQUIRED]. *)
Theorem bearer_guard_public_or_token_required :
  forall (get_user_id : string -> outcome string)
         (klass_get : string -> outcome (option Middleware.User))
         (validate : bool),
    (forall authorization,
        Middleware.auth_deps get_user_id klass_get true validate authorization
        = Return None)
    /\ Middleware.auth_deps get_user_id klass_get false validate None
       = Raise (HTTPException 401
           (VList [VDict [("type", VStr "authentication_error");
                          ("code", VStr "TOKEN.REQUIRED");
                          ("loc", VList [VStr "header"; VStr "authorization"]);
                          ("msg", VStr "Access token is required. Modify your request and try again.")]])).
Proof.
  intros get_user_id klass_get validate. split.
  - intros authorization. reflexivity.
  - reflexivity.
Qed.

(** The guard built with [public=True] lets the key of a deactivated
    credential through: it returns before it looks the key up. *)
Lemma public_api_guard_admits_inactive :
  ~ fails_closed true (Sample.find_credential [Sample.suspended_app])
      {| scheme := "Bearer"; credentials := "sk_test_abc" |}.
Proof.
  intros H.
  specialize (H (Some Sample.suspended_app) eq_refl eq_refl).
  discriminate H.
Qed.

(** C7, amended. A non-public API-key guard looks a non-empty presented
    key up in the keyspace its prefix selects, and fails with a 401
    carrying [TOKEN.DENIED] whenever that resolves to no credential or to
    one whose [is_active] is false. *)
Theorem api_guard_denies_inactive_or_unknown :
  forall (find_one : dict value -> outcome (option Auth.ApiCredential))
         (authorization : HTTPAuthorizationCredentials),
    credentials authorization <> EmptyString ->
    Auth.find_by_key find_one (credentials authorization)
    = find_one [(keyspace (credentials authorization),
                 VStr (credentials authorization))]
    /\ fails_closed false find_one authorization.
Proof.
  intros find_one authorization Hkey. split; [reflexivity|].
  intros resolved Hfind Hinactive.
  unfold Middleware.api_deps, Middleware.identify_app. simpl.
  apply String.eqb_neq in Hkey. rewrite Hkey.
  unfold Auth.find_by_key. fold (keyspace (credentials authorization)).
  change (of_items [(keyspace (credentials authorization),
                     VStr (credentials authorization))])
    with [(keyspace (credentials authorization), VStr (credentials authorization))].
  rewrite Hfind. simpl.
  destruct resolved as [c|]; [rewrite Hinactive|]; reflexivity.
Qed.

Lemma api_guard_denies_inactive_or_unknown_witness :
  "sk_test_abc" <> EmptyString
  /\ fails_closed false (Sample.find_credential [Sample.suspended_app])
       {| scheme := "Bearer"; credentials := "sk_test_abc" |}.
Proof.
  split; [discriminate|].
  apply (api_guard_denies_inactive_or_unknown
           (Sample.find_credential [Sample.suspended_app])
           {| scheme := "Bearer"; credentials := "sk_test_abc" |}).
  discriminate.
Defined.

(* ------------------------------------------------------------------ *)
(** * Pagination *)
(* ------------------------------------------------------------------ *)

Section Pagination.

Import QueryParams.

Variable is_valid : string -> bool.
Variable model_fields : dict FieldInfo.
Variable count : dict (dict value) -> nat.

(** [get_db_query] returns as soon as the two filter loops do and the
    page size is not zero. *)
Lemma get_db_query_returns (self : ModelQueryParams)
  (default_filters : list (dict value)) (q : dict (dict value)) :
  build_filters is_valid model_fields (filter_by self) default_filters = Return q ->
  (1 <= per_page self)%Z ->
  (Z.of_nat (count q) < 2 ^ 53)%Z ->
  exists self',
    get_db_query is_valid model_fields count self default_filters = Return (q, self').
Proof.
  intros Hq Hpp Hcount. unfold get_db_query. rewrite Hq. cbn [Py.bind].
  unfold int_div. rewrite DivFacts.int_true_div_exact by lia.
  cbn [Py.bind]. eauto.
Qed.

(** X29. With [page >= 1] and [per_page >= 1], once [get_db_query] has
    completed with a count below [2 ** 53]: [skip = (page-1)*per_page],
    [pages = max(total // per_page, 1)], [next_page] is [page+1] exactly
    when [skip + per_page < total] and [None] otherwise, [prev_page] is
    [page-1] exactly when [page > 1] and [None] otherwise; [total] is the
    count of the returned query.  Below [2 ** 53] the float division of
    [int(total / per_page)] truncates to the floor. *)
Theorem pagination_below_float_precision :
  forall (self self' : ModelQueryParams) (default_filters : list (dict value))
         (q : dict (dict value)),
    (1 <= page self)%Z ->
    (1 <= per_page self)%Z ->
    (Z.of_nat (count q) < 2 ^ 53)%Z ->
    get_db_query is_valid model_fields count self default_filters = Return (q, self') ->
    total self' = Z.of_nat (count q)
    /\ skip self' = ((page self - 1) * per_page self)%Z
    /\ pages self' = Z.max (total self' / per_page self) 1
    /\ next_page self'
       = (if (skip self' + per_page self <? total self')%Z
          then Some (page self + 1)%Z else None)
    /\ prev_page self'
       = (if (1 <? page self)%Z then Some (page self - 1)%Z else None)
    /\ page self' = page self
    /\ per_page self' = per_page self.
Proof.
  intros self self' default_filters q Hpage Hper Hcount Hrun.
  unfold get_db_query in Hrun.
  destruct (build_filters is_valid model_fields (filter_by self) default_filters)
    as [filters|e]; cbn [Py.bind] in Hrun; [|discriminate].
  unfold int_div in Hrun.
  assert (Hq : filters = q).
  { destruct (int_true_div _ _); cbn [Py.bind] in Hrun; [|discriminate].
    now injection Hrun. }
  subst filters.
  rewrite DivFacts.int_true_div_exact in Hrun by lia.
  cbn [Py.bind] in Hrun. injection Hrun as <-. cbn.
  repeat split. rewrite Z.gtb_ltb. reflexivity.
Qed.


End Pagination.

Lemma pagination_below_float_precision_witness :
  let self := Sample.fresh_params 2 5 [] in
  exists q self',
    QueryParams.get_db_query Sample.hex_object_id Sample.parcel_fields
      (fun _ => 12%nat) self [] = Return (q, self')
    /\ QueryParams.skip self' = 5%Z
    /\ QueryParams.pages self' = 2%Z
    /\ QueryParams.next_page self' = Some 3%Z
    /\ QueryParams.prev_page self' = Some 1%Z.
Proof.
  intros self.
  destruct (get_db_query_returns Sample.hex_object_id Sample.parcel_fields
              (fun _ => 12%nat) self [] [] eq_refl ltac:(simpl; lia) eq_refl)
    as [self' Hrun].
  exists [], self'.
  destruct (pagination_below_float_precision Sample.hex_object_id Sample.parcel_fields
              (fun _ => 12%nat) self self' [] []
              ltac:(simpl; lia) ltac:(simpl; lia) eq_refl Hrun)
    as (Htotal & Hskip & Hpages & Hnext & Hprev & _ & _).
  split; [exact Hrun|].
  rewrite Hpages, Hnext, Hprev, Hskip, Htotal. simpl. repeat split; reflexivity.
Defined.


(* ------------------------------------------------------------------ *)
(** * Disabled handlers *)
(* ------------------------------------------------------------------ *)

Section DisabledHandlers.

Import Routing.

Variable DB : Type.
Variable is_valid : string -> bool.
Variable validate_bool : string -> option bool.
Variable self : Endpoint DB.

(** The default permission decorator has no required role: it calls the
    function it wraps. *)
Lemma default_calls_through (h : handler DB) kwargs db :
  default h kwargs db = h kwargs db.
Proof. reflexivity. Qed.

Lemma default_permissions_denied (h : handler DB) :
  permissions self = None -> always_denied h -> always_denied (_Permissions self h).
Proof.
  intros Hperm Hden kwargs db. unfold _Permissions. rewrite Hperm.
  rewrite default_calls_through. apply Hden.
Qed.

Ltac route_is_denied flag :=
  intros kwargs db;
  cbv beta delta [list_route_func fetch_route_func create_route_func
                  update_route_func delete_route_func];
  rewrite flag; reflexivity.

Ltac route_is_disabled flag pick :=
  split;
  [ route_is_denied flag
  | intros routes; eexists;
    split;
    [ unfold init, init_delete_endpoint, init_update_endpoint,
        init_create_endpoint, init_fetch_endpoint, init_list_endpoint;
      rewrite !in_app_iff; cbn [In]; pick
    | split; [reflexivity|]; split; [reflexivity|]; split; [exact flag|];
      split; [reflexivity|];
      intros Hperm; apply default_permissions_denied; [exact Hperm|];
      route_is_denied flag ] ].

(** C5, amended. For each of the five generated default handlers, when
    its allow flag is false the route function answers every call it
    receives with the fixed operation-denied error (401, code
    [ENDPOINT.OPERATION.RESTRICTED]), whatever the payload and the other
    arguments are; the route is still registered in the route table (out
    of the schema) as the endpoint's permission decorator around that
    function, so under the default permissions the registered handler
    answers every call with that error.  What runs before the route
    function, the building of its arguments by the framework and a
    permission decorator of the endpoint's own, answers first. *)
Theorem disabled_handler_is_denied :
  operation_denied
  = HTTPException 401
      (VDict [("code", VStr "ENDPOINT.OPERATION.RESTRICTED");
              ("message", VStr "This activity cannot be carried out because the endpoint is restricted")])
  /\ (allow_list self = false ->
      disabled is_valid validate_bool self "GET" EmptyString (list_route_func is_valid validate_bool self))
  /\ (allow_fetch self = false ->
      disabled is_valid validate_bool self "GET" "/{obj_id}"
        (fetch_route_func is_valid validate_bool self))
  /\ (allow_create self = false ->
      disabled is_valid validate_bool self "POST" EmptyString
        (create_route_func is_valid validate_bool self))
  /\ (allow_update self = false ->
      disabled is_valid validate_bool self "POST" "/{obj_id}"
        (update_route_func is_valid validate_bool self)
      /\ disabled is_valid validate_bool self "PUT" "/{obj_id}"
           (update_route_func is_valid validate_bool self))
  /\ (allow_delete self = false ->
      disabled is_valid validate_bool self "DELETE" "/{obj_id}" (delete_route_func self)).
Proof.
  split; [reflexivity|].
  split.
  { intros flag.
    route_is_disabled flag ltac:(left; left; left; left; right; left; reflexivity). }
  split.
  { intros flag.
    route_is_disabled flag ltac:(left; left; left; right; left; reflexivity). }
  split.
  { intros flag.
    route_is_disabled flag ltac:(left; left; right; left; reflexivity). }
  split.
  { intros flag. split.
    - route_is_disabled flag ltac:(left; right; left; reflexivity).
    - route_is_disabled flag ltac:(left; right; right; left; reflexivity). }
  intros flag.
  route_is_disabled flag ltac:(right; left; reflexivity).
Qed.

End DisabledHandlers.

Lemma disabled_handler_is_denied_witness :
  let statuses :=
    Routing.generate Sample.hex_object_id Sample.Status "/statuses" Enums.APP None
      ["entity_id"; "user_id"; "currency"] false false false true true in
  Routing.allow_create statuses = false
  /\ disabled Sample.hex_object_id Sample.lax_bool statuses "POST" EmptyString
       (Routing.create_route_func Sample.hex_object_id Sample.lax_bool statuses).
Proof.
  intros statuses. split; [reflexivity|].
  destruct (disabled_handler_is_denied Sample.collection Sample.hex_object_id
              Sample.lax_bool statuses)
    as (_ & _ & _ & Hcreate & _).
  apply Hcreate. reflexivity.
Defined.

(** Behind a permission decorator a disabled route answers a user
    without the role with the decorator's 403: the decorator is applied
    around the route function and runs before the flag is tested. *)
Lemma disabled_route_behind_roles_is_forbidden :
  ~ disabled_create_denies_every_request Sample.hex_object_id Sample.lax_bool
      Sample.admin_statuses.
Proof.
  intros H.
  specialize (H eq_refl
                {| methods := ["POST"]; Fastapi.path := EmptyString;
                   name := "_create_func"; include_in_schema := false;
                   endpoint :=
                     Routing._Permissions Sample.admin_statuses
                       (Routing.create_route_func Sample.hex_object_id
                          Sample.lax_bool Sample.admin_statuses) |}
                ltac:(right; right; left; reflexivity) eq_refl eq_refl
                (Sample.request VNone Sample.rename_payload (VStr "u1")) []).
  vm_compute in H. discriminate H.
Qed.

(* ------------------------------------------------------------------ *)
(** * The worked example of the filter grammar *)
(* ------------------------------------------------------------------ *)

(** With the tokens [eq] and [btw] the clauses are kept as written: [btw]
    is not the [Operators] value, so no [min]/[max] pair is built, and
    validating the operator fails when the database query is built. *)
Lemma example_tokens_kept_verbatim :
  exists self,
    QueryParams.init Sample.hex_object_id Sample.decimal_bound Sample.parcel_fields
      "_id" Enums.DESC 2 5 None None example_query_string = Return self
    /\ QueryParams.filter_by self
       = [("status", [("op", VStr "eq"); ("value", VStr "active")]);
          ("weight", [("op", VStr "btw"); ("value", VStr "1")])]
    /\ QueryParams.get_db_query Sample.hex_object_id Sample.parcel_fields
         (fun _ => 12%nat) self [] = Raise (ValidationError "op").
Proof.
  eexists. split; [vm_compute; reflexivity|]. split; reflexivity.
Qed.

(** The worked example as written does not hold: the [weight] clause is
    not a [min]/[max] pair; and whatever the clauses are, page 2 of five
    per page over twelve records never has [pages = 3]. *)
Lemma example_as_claimed_fails :
  ~ example_as_claimed Sample.hex_object_id Sample.decimal_bound
  /\ (forall self q self',
        QueryParams.page self = 2%Z ->
        QueryParams.per_page self = 5%Z ->
        QueryParams.get_db_query Sample.hex_object_id Sample.parcel_fields
          (fun _ => 12%nat) self [] = Return (q, self') ->
        QueryParams.pages self' = 2%Z).
Proof.
  split.
  - intros (self & q & self' & Hinit & Hclauses & _).
    vm_compute in Hinit. inversion Hinit; subst; clear Hinit.
    specialize (Hclauses "weight"). vm_compute in Hclauses. discriminate Hclauses.
  - intros self q self' Hpage Hper Hrun.
    unfold QueryParams.get_db_query in Hrun.
    destruct (QueryParams.build_filters _ _ _ _); cbn [Py.bind] in Hrun;
      [|discriminate].
    rewrite Hper in Hrun. cbn in Hrun. inversion Hrun; subst. reflexivity.
Qed.

(** C9, amended. For the query string
    [status.$eq=active&weight.$btw=1__10&page_by.page=2&page_by.per_page=5]
    on a resource declaring [status] and [weight], parsing produces the
    clauses [status: {op: $eq, value: "active"}] and [weight: {op: $btw,
    value: {min, max}}] with the validated bounds of ["1"] and ["10"];
    with twelve matching records pagination resolves to [skip=5],
    [pages=2], [prev_page=1], [next_page=3]. *)
Theorem dollar_example_parses_and_paginates :
  forall (is_valid : string -> bool) (validate_bound : string -> option value)
         (count : dict (dict value) -> nat) (lo hi : value),
    is_valid "active" = false ->
    validate_bound "1" = Some lo ->
    validate_bound "10" = Some hi ->
    count [("status", [("$eq", VStr "active")]);
           ("weight", [("$gte", lo); ("$lt", hi)])] = 12%nat ->
    exists self self',
      QueryParams.init is_valid validate_bound Sample.parcel_fields
        "_id" Enums.DESC 2 5 None None dollar_query_string = Return self
      /\ QueryParams.filter_by self
         = [("status", [("op", VStr "$eq"); ("value", VStr "active")]);
            ("weight", [("op", VStr "$btw");
                        ("value", VDict [("min", lo); ("max", hi)])])]
      /\ QueryParams.others self = []
      /\ QueryParams.get_db_query is_valid Sample.parcel_fields count self []
         = Return ([("status", [("$eq", VStr "active")]);
                    ("weight", [("$gte", lo); ("$lt", hi)])], self')
      /\ QueryParams.total self' = 12%Z
      /\ QueryParams.skip self' = 5%Z
      /\ QueryParams.pages self' = 2%Z
      /\ QueryParams.prev_page self' = Some 1%Z
      /\ QueryParams.next_page self' = Some 3%Z.
Proof.
  intros is_valid validate_bound count lo hi Hactive Hlo Hhi Hcount.
  eexists. eexists. split.
  - unfold QueryParams.init, QueryParams.prepare_filter_args. cbn.
    unfold QueryParams.check_object_id. cbn. rewrite Hactive.
    unfold QueryParams.validate_bound_field. cbn. rewrite Hlo, Hhi. cbn.
    reflexivity.
  - cbn. split; [reflexivity|]. split; [reflexivity|].
    unfold QueryParams.get_db_query, QueryParams.build_filters. cbn.
    unfold QueryParams.check_object_id. cbn. rewrite Hactive. cbn.
    match goal with
    | |- context [count ?query] =>
        replace (count query) with 12%nat by (symmetry; exact Hcount)
    end.
    cbn. repeat split; reflexivity.
Qed.

Lemma dollar_example_parses_and_paginates_witness :
  exists self self',
    QueryParams.init Sample.hex_object_id Sample.decimal_bound Sample.parcel_fields
      "_id" Enums.DESC 2 5 None None dollar_query_string = Return self
    /\ QueryParams.get_db_query Sample.hex_object_id Sample.parcel_fields
         (fun _ => 12%nat) self []
       = Return ([("status", [("$eq", VStr "active")]);
                  ("weight", [("$gte", VFloat (Qmake 1 1)); ("$lt", VFloat (Qmake 10 1))])],
                 self')
    /\ QueryParams.pages self' = 2%Z.
Proof.
  destruct (dollar_example_parses_and_paginates Sample.hex_object_id
              Sample.decimal_bound (fun _ => 12%nat)
              (VFloat (Qmake 1 1)) (VFloat (Qmake 10 1))
              eq_refl eq_refl eq_refl eq_refl)
    as (self & self' & Hinit & _ & _ & Hquery & _ & _ & Hpages & _).
  exists self, self'. repeat split; assumption.
Defined.

(* ------------------------------------------------------------------ *)
(** * Filter parsing *)
(* ------------------------------------------------------------------ *)

(** C3, at the failing input: a [$btw] filter on a declared field whose
    value has a single part makes [prepare_filter_args] raise
    [IndexError]; the guard [len(val) < 1] in front of it never fires. *)
Theorem between_with_one_part_raises :
  forall (is_valid : string -> bool) (validate_bound : string -> option value)
         (model_fields : dict QueryParams.FieldInfo)
         (self : QueryParams.ModelQueryParams),
    contains model_fields "weight" = true ->
    QueryParams.prepare_filter_args is_valid validate_bound model_fields self
      [("weight.$btw", "5")]
    = Raise (IndexError "list index out of range").
Proof.
  intros is_valid validate_bound model_fields self Hweight.
  unfold QueryParams.prepare_filter_args. cbn. rewrite Hweight. reflexivity.
Qed.

Lemma between_with_one_part_raises_witness :
  contains Sample.parcel_fields "weight" = true
  /\ QueryParams.prepare_filter_args Sample.hex_object_id Sample.decimal_bound
       Sample.parcel_fields (Sample.fresh_params 1 20 []) [("weight.$btw", "5")]
     = Raise (IndexError "list index out of range").
Proof.
  split; [reflexivity|].
  apply (between_with_one_part_raises Sample.hex_object_id Sample.decimal_bound
           Sample.parcel_fields (Sample.fresh_params 1 20 [])).
  reflexivity.
Defined.

Section ParseFacts.

Import QueryParams DictFacts StrFacts.

Variable is_valid : string -> bool.
Variable validate_bound : string -> option value.
Variable model_fields : dict FieldInfo.

Local Notation "'step'" :=
  (prepare_filter_arg is_valid validate_bound model_fields) (at level 0).

(** A key without an attribute path, or whose root is neither declared nor
    [_id], goes to [others]; the iteration does not raise. *)
Lemma prepare_filter_arg_discards filter_args self k v dotpath op :
  split k "." = dotpath ++ [op] ->
  dotpath = []
  \/ (exists root rest,
        dotpath = root :: rest
        /\ contains model_fields root = false /\ root <> "_id") ->
  step (filter_args, self) (k, v) = Return (filter_args, set_other self k v).
Proof.
  intros Hsplit Hroot. unfold prepare_filter_arg.
  rewrite Hsplit, unpack_last_of_app. cbn [Py.bind].
  destruct Hroot as [->|(root & rest & -> & Hundeclared & Hid)]; [reflexivity|].
  cbn [List.length Nat.ltb Nat.leb index nth_error Py.bind].
  rewrite Hundeclared.
  replace (mem root ["_id"]) with false; [reflexivity|].
  symmetry. apply mem_false. intros [Heq|[]]. congruence.
Qed.

(** What one iteration that returns has done: it discarded the key, or it
    added a clause under the joined attribute path, whose root is declared
    or is [_id]. *)
Lemma prepare_filter_arg_cases filter_args self k v filter_args' self' :
  step (filter_args, self) (k, v) = Return (filter_args', self') ->
  (filter_args' = filter_args /\ self' = set_other self k v)
  \/ (self' = self
      /\ exists root rest op clause,
           split k "." = (root :: rest) ++ [op]
           /\ (contains model_fields root = true \/ root = "_id")
           /\ filter_args' = set filter_args (join "." (root :: rest)) clause).
Proof.
  unfold prepare_filter_arg.
  destruct (unpack_last (split k ".")) as [[dotpath op]|e] eqn:Hunpack;
    cbn [Py.bind]; [|discriminate].
  apply unpack_last_app in Hunpack.
  cbv zeta. rewrite split_length.
  destruct dotpath as [|root rest].
  - cbn. intros [= <- <-]. now left.
  - cbn [List.length Nat.ltb Nat.leb index nth_error Py.bind].
    rewrite orb_false_r.
    destruct (contains model_fields root) eqn:Hdeclared;
      destruct (mem root ["_id"]) eqn:Hid; cbn [negb andb].
    4: { intros [= <- <-]. now left. }
    all: intros Hrun; right;
      repeat match type of Hrun with
             | Py.bind ?c _ = Return _ =>
                 destruct c eqn:?; cbn [Py.bind] in Hrun; [|discriminate Hrun]
             end;
      inversion Hrun; subst; clear Hrun;
      split; [reflexivity|];
      exists root, rest, op; eexists;
      split; [exact Hunpack|]; split; [|reflexivity].
    + now left.
    + now left.
    + right. apply mem_In in Hid. destruct Hid as [Heq|[]]. congruence.
Qed.

(** An iteration on a key whose operator token is not [$btw] returns. *)
Lemma prepare_filter_arg_returns state k v :
  (forall dotpath op, split k "." = dotpath ++ [op] -> op <> "$btw") ->
  exists state', step state (k, v) = Return state'.
Proof.
  intros Hop. destruct state as [filter_args self]. unfold prepare_filter_arg.
  destruct (unpack_last (split k ".")) as [[dotpath op]|e] eqn:Hunpack.
  2: { unfold unpack_last in Hunpack.
       destruct (rev (split k ".")) eqn:Hrev; [|discriminate].
       exfalso. apply (split_from_nonempty "." 0 EmptyString k).
       fold (split k "."). rewrite <- (rev_involutive (split k ".")), Hrev.
       reflexivity. }
  apply unpack_last_app in Hunpack. specialize (Hop _ _ Hunpack).
  cbn [Py.bind]. cbv zeta. rewrite split_length.
  destruct dotpath as [|root rest]; [eexists; reflexivity|].
  cbn [List.length Nat.ltb Nat.leb index nth_error Py.bind].
  rewrite orb_false_r.
  destruct (negb (contains model_fields root) && negb (mem root ["_id"]));
    [eexists; reflexivity|].
  replace (mem op [Enums.operator_value Enums.BTW]) with false
    by (symmetry; apply mem_false; intros [Heq|[]]; apply Hop; now rewrite <- Heq).
  cbn [negb].
  pose proof (split_from_nonempty "__" 0 EmptyString v) as Hval. fold (split v "__") in Hval.
  destruct (split v "__") as [|v0 val]; [congruence|].
  cbn [index nth_error Py.bind].
  destruct (mem op [Enums.operator_value Enums.IN; Enums.operator_value Enums.NIN]).
  - cbn. eexists; reflexivity.
  - cbn [Py.bind is_list is_dict orb negb SingleValue].
    unfold QueryParams.check_object_id, CustomFields.check_object_id.
    destruct (is_valid v0); cbn; eexists; reflexivity.
Qed.

(** [prepare_filter_args] returns on every query string without a [$btw]
    filter. *)
Lemma prepare_filter_args_returns self query_params :
  (forall k v dotpath op,
      In (k, v) (filter_options query_params) ->
      split k "." = dotpath ++ [op] -> op <> "$btw") ->
  exists filter_by self',
    prepare_filter_args is_valid validate_bound model_fields self query_params
    = Return (filter_by, self').
Proof.
  unfold prepare_filter_args. generalize (filter_options query_params).
  intros items. generalize (@nil (string * dict value), self).
  induction items as [|[k v] items IH]; intros state Hops.
  - destruct state. eexists; eexists; reflexivity.
  - destruct (prepare_filter_arg_returns state k v) as [state1 Hstep].
    { intros dotpath op. apply (Hops k v). now left. }
    cbn [for_each]. rewrite Hstep. cbn [Py.bind].
    apply IH. intros k' v' dotpath op Hin. apply (Hops k' v'). now right.
Qed.

End ParseFacts.

(** A filter on [_id] is not discarded: [_id] is an extra field the parser
    accepts beside the declared ones. *)
Lemma reserved_identifier_is_kept :
  ~ discards_undeclared_and_reserved Sample.hex_object_id Sample.decimal_bound
      Sample.parcel_fields (Sample.fresh_params 1 20 []) [("_id.$eq", "abc")].
Proof.
  intros H.
  specialize (H [("_id", [("op", VStr "$eq"); ("value", VStr "abc")])]
                (Sample.fresh_params 1 20 []) eq_refl
                "_id.$eq" "abc" "_id" [] "$eq" eq_refl eq_refl
                (or_intror eq_refl)).
  destruct H as [Hothers _]. discriminate Hothers.
Qed.

Section Discarding.

Import QueryParams DictFacts StrFacts LoopFacts.

Variable is_valid : string -> bool.
Variable validate_bound : string -> option value.
Variable model_fields : dict FieldInfo.

Local Notation "'step'" :=
  (prepare_filter_arg is_valid validate_bound model_fields) (at level 0).

Local Notation "'accepted_path'" := (Statements.accepted_path model_fields) (at level 0).

Lemma clauses_have_accepted_paths items state state' :
  (forall name, In name (keys (fst state)) -> accepted_path name) ->
  for_each step items state = Return state' ->
  forall name, In name (keys (fst state')) -> accepted_path name.
Proof.
  intros Hstate Hrun.
  apply (for_each_invariant
           (fun s => forall name, In name (keys (fst s)) -> accepted_path name)
           step items) with (s := state); auto.
  clear. intros [filter_args self] [k v] [filter_args' self'] _ Hinv Hstep.
  apply prepare_filter_arg_cases in Hstep.
  destruct Hstep as [[-> _]|[_ (root & rest & op & clause & Hsplit & Hroot & ->)]];
    [exact Hinv|].
  cbn [fst] in *. intros name Hin. apply keys_set in Hin.
  destruct Hin as [->|Hin]; [|auto].
  exists root. split; [|exact Hroot].
  apply root_of_join.
  pose proof (split_dot_free k) as Hfree. rewrite Hsplit in Hfree.
  inversion Hfree; assumption.
Qed.

(** An iteration on another key leaves the entry of [k] in [others]. *)
Lemma others_kept_by_step state state' k0 v0 k :
  step state (k0, v0) = Return state' ->
  k0 <> k ->
  get (others (snd state')) k = get (others (snd state)) k.
Proof.
  destruct state as [filter_args self], state' as [filter_args' self'].
  intros Hstep Hne. apply prepare_filter_arg_cases in Hstep.
  destruct Hstep as [[_ ->]|[-> _]]; cbn [snd]; [|reflexivity].
  cbn [set_other others]. now apply get_set_other.
Qed.

Lemma others_kept_by_loop items state state' k :
  ~ In k (keys items) ->
  for_each step items state = Return state' ->
  get (others (snd state')) k = get (others (snd state)) k.
Proof.
  revert state. induction items as [|[k0 v0] items IH]; intros state Hnotin Hrun.
  - now inversion Hrun.
  - cbn [for_each] in Hrun.
    destruct (step state (k0, v0)) as [state1|e] eqn:Hstep;
      cbn [Py.bind] in Hrun; [|discriminate].
    rewrite (IH state1) by (auto; intros Hin; apply Hnotin; now right).
    eapply others_kept_by_step; eauto.
    intros ->. apply Hnotin. now left.
Qed.

Lemma rejected_keys_reach_others items state state' k v root rest op :
  NoDup (keys items) ->
  In (k, v) items ->
  split k "." = (root :: rest) ++ [op] ->
  contains model_fields root = false ->
  root <> "_id" ->
  for_each step items state = Return state' ->
  get (others (snd state')) k = Some v.
Proof.
  intros Hnodup Hin Hsplit Hundeclared Hid. revert state.
  induction items as [|[k0 v0] items IH]; intros state Hrun; [destruct Hin|].
  inversion Hnodup as [|? ? Hnotin Hnodup']; subst.
  cbn [for_each] in Hrun.
  destruct (step state (k0, v0)) as [state1|e] eqn:Hstep;
    cbn [Py.bind] in Hrun; [|discriminate].
  destruct Hin as [Heq|Hin].
  - inversion Heq; subst k0 v0.
    rewrite (others_kept_by_loop items state1 state' k Hnotin Hrun).
    destruct state as [filter_args self].
    rewrite (prepare_filter_arg_discards is_valid validate_bound model_fields
               filter_args self k v (root :: rest) op Hsplit) in Hstep
      by (right; exists root, rest; auto).
    inversion Hstep; subst. cbn [snd set_other others]. apply get_set_same.
  - eapply IH; eauto.
Qed.

(** C4, amended. When [prepare_filter_args] returns, every filter key
    whose root segment is neither a declared field nor [_id] is in
    [others] with its value and its attribute path is not a key of
    [filter_by]; every key of [filter_by] is a path whose root is declared
    or is [_id]. *)
Theorem undeclared_roots_are_discarded :
  forall (self self' : ModelQueryParams) (query_params : list (string * string))
         (filter_by : dict (dict value)),
    prepare_filter_args is_valid validate_bound model_fields self query_params
    = Return (filter_by, self') ->
    discards_roots (fun root => contains model_fields root = false /\ root <> "_id")
      query_params filter_by (others self')
    /\ (forall name, In name (keys filter_by) ->
        exists root,
          root_of name = Some root
          /\ (contains model_fields root = true \/ root = "_id")).
Proof.
  intros self self' query_params filter_by Hrun. unfold prepare_filter_args in Hrun.
  assert (Hpaths : forall name, In name (keys filter_by) -> accepted_path name).
  { apply (clauses_have_accepted_paths (filter_options query_params)
             ([], self) (filter_by, self')); [intros name []|exact Hrun]. }
  split; [|exact Hpaths].
  intros k v root rest op Hget Hsplit [Hundeclared Hid]. split.
  - apply (rejected_keys_reach_others _ _ _ k v root rest op
             (NoDup_keys_of_items _) (get_in_items _ _ _ Hget)
             Hsplit Hundeclared Hid Hrun).
  - intros Hin. destruct (Hpaths _ Hin) as (root' & Hroot' & Haccepted).
    rewrite root_of_join in Hroot'.
    + inversion Hroot'; subst root'. destruct Haccepted; congruence.
    + pose proof (split_dot_free k) as Hfree. rewrite Hsplit in Hfree.
      inversion Hfree; assumption.
Qed.

End Discarding.

Lemma undeclared_roots_are_discarded_witness :
  exists filter_by self',
    QueryParams.prepare_filter_args Sample.hex_object_id Sample.decimal_bound
      Sample.parcel_fields (Sample.fresh_params 1 20 [])
      [("colour.$eq", "red"); ("status.$eq", "active")] = Return (filter_by, self')
    /\ get (QueryParams.others self') "colour.$eq" = Some "red"
    /\ ~ In "colour" (keys filter_by).
Proof.
  eexists. eexists. split; [vm_compute; reflexivity|].
  destruct (undeclared_roots_are_discarded Sample.hex_object_id Sample.decimal_bound
              Sample.parcel_fields (Sample.fresh_params 1 20 []) _
              [("colour.$eq", "red"); ("status.$eq", "active")] _ eq_refl)
    as [Hdiscards _].
  apply (Hdiscards "colour.$eq" "red" "colour" [] "$eq" eq_refl eq_refl).
  split; [reflexivity | discriminate].
Defined.

(* ------------------------------------------------------------------ *)
(** * The database query *)
(* ------------------------------------------------------------------ *)

Section QueryFacts.

Import QueryParams DictFacts StrFacts LoopFacts.

Variable is_valid : string -> bool.
Variable model_fields : dict FieldInfo.

Lemma db_key_cases (k : string) (info : FieldInfo) :
  (db_key k info = k /\ annotation_name info <> Some "Link")
  \/ (db_key k info = (k ++ ".$id")%string /\ annotation_name info = Some "Link").
Proof.
  unfold db_key. destruct (annotation_name info) as [field_type|].
  - destruct (String.eqb_spec field_type "Link") as [->|Hne].
    + right. split; reflexivity.
    + left. rewrite andb_false_r. split; [reflexivity | congruence].
  - left. split; [reflexivity | discriminate].
Qed.

(** An entry of a default filter never raises. *)
Lemma apply_default_entry _filters item :
  apply_default is_valid model_fields _filters item
  = Return (default_entry is_valid model_fields _filters item).
Proof.
  destruct item as [k v]. unfold apply_default, default_entry. cbn [fst snd].
  destruct (get model_fields k); reflexivity.
Qed.

Lemma apply_filter_cases _filters k clause _filters' :
  apply_filter is_valid model_fields _filters (k, clause) = Return _filters' ->
  _filters' = _filters
  \/ exists info formatted,
       get model_fields k = Some info
       /\ _filters' = set _filters (db_key k info) formatted.
Proof.
  unfold apply_filter. destruct (get model_fields k) as [info|].
  - intros Hrun. right.
    destruct (validate_filter is_valid clause) as [a|]; cbn [Py.bind] in Hrun;
      [|discriminate].
    destruct (filter_format_args a) as [formatted|]; cbn [Py.bind] in Hrun;
      [|discriminate].
    inversion Hrun; subst. eauto.
  - intros [= <-]. now left.
Qed.

(** A path that is not a declared field is passed over. *)
Lemma apply_filter_undeclared _filters k clause :
  get model_fields k = None ->
  apply_filter is_valid model_fields _filters (k, clause) = Return _filters.
Proof. intros Hnone. unfold apply_filter. now rewrite Hnone. Qed.

(** The second loop, over all the default filters, is a fold. *)
Lemma default_loop (default_filters : list (dict value)) _filters :
  for_each (fun acc default_filter =>
              for_each (apply_default is_valid model_fields) default_filter acc)
           default_filters _filters
  = Return (fold_left (default_entry is_valid model_fields)
                      (concat default_filters) _filters).
Proof.
  rewrite for_each_concat. apply for_each_total. apply apply_default_entry.
Qed.

Lemma build_filters_inv filter_by default_filters q :
  build_filters is_valid model_fields filter_by default_filters = Return q ->
  exists parsed,
    for_each (apply_filter is_valid model_fields) filter_by [] = Return parsed
    /\ q = fold_left (default_entry is_valid model_fields)
                     (concat default_filters) parsed.
Proof.
  unfold build_filters.
  destruct (for_each (apply_filter is_valid model_fields) filter_by []) as [parsed|];
    cbn [Py.bind]; [|discriminate].
  rewrite default_loop. intros [= <-]. eauto.
Qed.

Lemma get_db_query_inv count self default_filters q self' :
  get_db_query is_valid model_fields count self default_filters = Return (q, self') ->
  build_filters is_valid model_fields (filter_by self) default_filters = Return q.
Proof.
  unfold get_db_query.
  destruct (build_filters is_valid model_fields (filter_by self) default_filters);
    cbn [Py.bind]; [|discriminate].
  destruct (int_div _ _); cbn [Py.bind]; [|discriminate].
  now intros [= <- _].
Qed.

(** Default entries that write to other keys leave the entry of [key]. *)
Lemma default_entries_keep (entries : dict value) _filters key :
  (forall k v info, In (k, v) entries -> get model_fields k = Some info ->
                    db_key k info <> key) ->
  get (fold_left (default_entry is_valid model_fields) entries _filters) key
  = get _filters key.
Proof.
  revert _filters. induction entries as [|[k v] entries IH]; intros _filters Hother.
  - reflexivity.
  - cbn [fold_left].
    rewrite IH
      by (intros k' v' info' Hin Hget; apply (Hother k' v' info');
          [now right | exact Hget]).
    unfold default_entry. cbn [fst snd].
    destruct (get model_fields k) as [info|] eqn:Hinfo; [|reflexivity].
    apply get_set_other. apply (Hother k v info); [now left | exact Hinfo].
Qed.

(** Default entries only add keys or overwrite them. *)
Lemma default_entries_grow (entries : dict value) _filters key :
  In key (keys _filters) ->
  In key (keys (fold_left (default_entry is_valid model_fields) entries _filters)).
Proof.
  revert _filters. induction entries as [|[k v] entries IH]; intros _filters Hin.
  - exact Hin.
  - cbn [fold_left]. apply IH. unfold default_entry. cbn [fst snd].
    destruct (get model_fields k); [|exact Hin].
    apply keys_set. now right.
Qed.

End QueryFacts.

(** A default filter on a key the model does not declare is passed over:
    the returned query does not mention it. *)
Lemma undeclared_default_filter_is_dropped :
  ~ default_filters_always_applied Sample.hex_object_id Sample.parcel_fields
      (fun _ => 12%nat) (Sample.fresh_params 1 20 [])
      [[("entity_id", VStr "tenant-1")]].
Proof.
  intros H.
  destruct (get_db_query_returns Sample.hex_object_id Sample.parcel_fields
              (fun _ => 12%nat) (Sample.fresh_params 1 20 [])
              [[("entity_id", VStr "tenant-1")]] [] eq_refl ltac:(simpl; lia) eq_refl)
    as [self' Hrun].
  specialize (H [] self' Hrun [("entity_id", VStr "tenant-1")] "entity_id"
                (VStr "tenant-1") (or_introl eq_refl) (or_introl eq_refl)).
  destruct H as [H|H]; discriminate H.
Qed.

Section DatabaseQuery.

Import QueryParams DictFacts StrFacts LoopFacts.

Variable is_valid : string -> bool.
Variable model_fields : dict FieldInfo.
Variable count : dict (dict value) -> nat.

(** C1, amended. For every default-filter key that is a declared field
    of the model, the query dict [get_db_query] returns maps that key (its
    [.$id] form for a [Link] field) to the equality predicate of the
    default value, whatever filters were parsed from the query string; a
    later default entry for the same key wins. Parsed clauses stay in the
    query: the defaults only add keys or overwrite them. *)
Theorem default_filter_wins :
  forall (self self' : ModelQueryParams) (default_filters : list (dict value))
         (q : dict (dict value)) (before after : dict value)
         (k : string) (v : value) (info : FieldInfo),
    get_db_query is_valid model_fields count self default_filters = Return (q, self') ->
    concat default_filters = before ++ (k, v) :: after ->
    get model_fields k = Some info ->
    (forall k' v' info',
        In (k', v') after -> get model_fields k' = Some info' ->
        db_key k' info' <> db_key k info) ->
    (db_key k info = k \/ db_key k info = (k ++ ".$id")%string)
    /\ get q (db_key k info) = Some (equality_predicate is_valid v)
    /\ exists parsed,
         for_each (apply_filter is_valid model_fields) (filter_by self) []
         = Return parsed
         /\ (forall key, In key (keys parsed) -> In key (keys q))
         /\ (forall key,
               (forall k' v' info',
                   In (k', v') (concat default_filters) ->
                   get model_fields k' = Some info' -> db_key k' info' <> key) ->
               get q key = get parsed key).
Proof.
  intros self self' default_filters q before after k v info
         Hrun Hconcat Hdeclared Hlast.
  apply get_db_query_inv, build_filters_inv in Hrun.
  destruct Hrun as (parsed & Hparsed & ->).
  split; [destruct (db_key_cases k info) as [[-> _]|[-> _]]; auto|].
  split.
  - rewrite Hconcat, fold_left_app. cbn [fold_left].
    rewrite default_entries_keep by exact Hlast.
    unfold default_entry at 1. cbn [fst snd]. rewrite Hdeclared.
    apply get_set_same.
  - exists parsed. split; [exact Hparsed|]. split.
    + intros key. apply default_entries_grow.
    + intros key. apply default_entries_keep.
Qed.

(** Every key the two loops write names a declared field. *)
Lemma build_filters_field_keys filter_by default_filters q :
  build_filters is_valid model_fields filter_by default_filters = Return q ->
  forall key, In key (keys q) -> field_key model_fields key.
Proof.
  intros Hrun. apply build_filters_inv in Hrun.
  destruct Hrun as (parsed & Hparsed & ->).
  assert (Hset : forall (acc : dict (dict value)) k info formatted,
             get model_fields k = Some info ->
             (forall key, In key (keys acc) -> field_key model_fields key) ->
             forall key, In key (keys (set acc (db_key k info) formatted)) ->
                         field_key model_fields key).
  { intros acc k info formatted Hinfo Hacc key Hin.
    apply keys_set in Hin. destruct Hin as [->|Hin]; [|auto].
    exists k, info. split; [exact Hinfo|].
    destruct (db_key_cases k info) as [[-> Hlink]|[-> Hlink]]; auto. }
  assert (Hparsed_keys : forall key, In key (keys parsed) -> field_key model_fields key).
  { apply (for_each_invariant
             (fun acc => forall key, In key (keys acc) -> field_key model_fields key)
             (apply_filter is_valid model_fields) filter_by)
      with (s := []); [|intros key []|exact Hparsed].
    intros acc [k clause] acc' _ Hacc Hstep.
    apply apply_filter_cases in Hstep.
    destruct Hstep as [->|(info & formatted & Hinfo & ->)]; eauto. }
  clear Hparsed. revert parsed Hparsed_keys.
  induction (concat default_filters) as [|[k v] entries IH]; intros acc Hacc.
  - exact Hacc.
  - cbn [fold_left]. apply IH. unfold default_entry. cbn [fst snd].
    destruct (get model_fields k) as [info|] eqn:Hinfo; eauto.
Qed.

(** [filter_by] reaches the returned query through the two loops only. *)
Lemma returned_query_get_db_query self default_filters :
  returned_query (get_db_query is_valid model_fields count self default_filters)
  = (q <- build_filters is_valid model_fields (filter_by self) default_filters ;;
     _ <- int_div (Z.of_nat (count q)) (per_page self) ;;
     Return q).
Proof.
  unfold get_db_query.
  destruct (build_filters is_valid model_fields (filter_by self) default_filters)
    as [q|]; cbn [Py.bind]; [|reflexivity].
  destruct (int_div _ _); reflexivity.
Qed.

(** C10. Every key of the query dict [get_db_query] returns is the name
    of a declared field, or such a name with [.$id] appended when the
    annotation of the field is named [Link]. Consequently, as declared
    field names contain no dot, a dotted attribute path in [filter_by] is
    passed over (the full name is looked up among the declared fields) and
    the returned query is the one built without the dotted paths. *)
Theorem query_keys_are_field_keys :
  forall (self self' : ModelQueryParams) (default_filters : list (dict value))
         (q : dict (dict value)),
    get_db_query is_valid model_fields count self default_filters = Return (q, self') ->
    (forall key, In key (keys q) -> field_key model_fields key)
    /\ ((forall f, In f (keys model_fields) -> has_dot f = false) ->
        (forall name clause acc,
            has_dot name = true ->
            apply_filter is_valid model_fields acc (name, clause) = Return acc)
        /\ returned_query
             (get_db_query is_valid model_fields count
                (set_filter_by self
                   (filter (fun item => negb (has_dot (fst item))) (filter_by self)))
                default_filters)
           = Return q).
Proof.
  intros self self' default_filters q Hrun. split.
  - eapply build_filters_field_keys. eapply get_db_query_inv. exact Hrun.
  - intros Hfields.
    assert (Hdotted : forall name clause acc,
               has_dot name = true ->
               apply_filter is_valid model_fields acc (name, clause) = Return acc).
    { intros name clause acc Hdot. apply apply_filter_undeclared.
      apply get_none. intros Hin. apply Hfields in Hin. congruence. }
    split; [exact Hdotted|].
    assert (Hq : returned_query
                   (get_db_query is_valid model_fields count self default_filters)
                 = Return q) by (rewrite Hrun; reflexivity).
    rewrite returned_query_get_db_query in *.
    cbn [filter_by set_filter_by per_page].
    rewrite <- Hq. unfold build_filters.
    rewrite <- (for_each_skipped (apply_filter is_valid model_fields)
                  (fun item => negb (has_dot (fst item))) (filter_by self));
      [reflexivity|].
    intros acc [name clause] Hkeep. apply Hdotted.
    cbn [fst] in Hkeep. now apply negb_false_iff in Hkeep.
Qed.

End DatabaseQuery.

Lemma default_filter_wins_witness :
  let forged := [("entity_id", [("op", VStr "$eq"); ("value", VStr "tenant-2")])] in
  let defaults := [[("entity_id", VStr "tenant-1")]; [("live_mode", VBool false)]] in
  exists q self',
    QueryParams.get_db_query Sample.hex_object_id Sample.order_fields
      (fun _ => 3%nat) (Sample.fresh_params 1 20 forged) defaults = Return (q, self')
    /\ get q "entity_id" = Some [("$eq", VStr "tenant-1")].
Proof.
  intros forged defaults.
  destruct (get_db_query_returns Sample.hex_object_id Sample.order_fields
              (fun _ => 3%nat) (Sample.fresh_params 1 20 forged) defaults
              [("entity_id", [("$eq", VStr "tenant-1")])] eq_refl ltac:(simpl; lia) eq_refl)
    as [self' Hrun].
  exists [("entity_id", [("$eq", VStr "tenant-1")])], self'.
  split; [exact Hrun|].
  destruct (default_filter_wins Sample.hex_object_id Sample.order_fields
              (fun _ => 3%nat) _ _ defaults _ [] [("live_mode", VBool false)]
              "entity_id" (VStr "tenant-1") (Sample.annotated "Optional")
              Hrun eq_refl eq_refl) as (_ & Hwins & _).
  - intros k' v' info' [Heq|[]] Hdeclared. inversion Heq; subst.
    discriminate Hdeclared.
  - exact Hwins.
Defined.

Lemma query_keys_are_field_keys_witness :
  let clauses :=
    [("owner.name", [("op", VStr "$eq"); ("value", VStr "ada")]);
     ("owner", [("op", VStr "$eq"); ("value", VStr "u1")])] in
  exists q self',
    QueryParams.get_db_query Sample.hex_object_id Sample.order_fields
      (fun _ => 3%nat) (Sample.fresh_params 1 20 clauses) [] = Return (q, self')
    /\ (forall key, In key (keys q) -> field_key Sample.order_fields key)
    /\ returned_query
         (QueryParams.get_db_query Sample.hex_object_id Sample.order_fields
            (fun _ => 3%nat)
            (Sample.fresh_params 1 20
               [("owner", [("op", VStr "$eq"); ("value", VStr "u1")])]) [])
       = Return q.
Proof.
  intros clauses.
  destruct (get_db_query_returns Sample.hex_object_id Sample.order_fields
              (fun _ => 3%nat) (Sample.fresh_params 1 20 clauses) []
              [("owner.$id", [("$eq", VStr "u1")])] eq_refl ltac:(simpl; lia) eq_refl)
    as [self' Hrun].
  exists [("owner.$id", [("$eq", VStr "u1")])], self'.
  split; [exact Hrun|].
  destruct (query_keys_are_field_keys Sample.hex_object_id Sample.order_fields
              (fun _ => 3%nat) _ _ [] _ Hrun) as [Hkeys Hdotted].
  split; [exact Hkeys|].
  apply Hdotted.
  intros f [<-|[<-|[<-|[]]]]; reflexivity.
Defined.

(* ------------------------------------------------------------------ *)
(** * The default update handler *)
(* ------------------------------------------------------------------ *)

(** C8. A request by [bob] that sets only [name] on a record owned by
    [alice]: the default update handler persists the record with
    [user_id = "bob"].  The request's extra parameters are written over
    the existing values before the merge, so the persisted document is not
    the merge of the payload's set fields over the existing record. *)
Theorem update_overwrites_with_extra_parameters :
  (exists persisted,
      Routing._update_func (VStr "c1") Sample.Owned Sample.rename_payload
        bob_parameters alice_store
      = Return (Object (Some persisted), [("c1", persisted)])
      /\ Pydantic.attrs persisted
         = [("id", VStr "c1"); ("name", VStr "new"); ("description", VStr "x");
            ("user_id", VStr "bob")])
  /\ get (payload_only_merge
            (Sample.document Sample.owned_fields
               [("id", VStr "c1"); ("name", VStr "old"); ("description", VStr "x");
                ("user_id", VStr "alice")])
            Sample.rename_payload) "user_id"
     = Some (VStr "alice")
  /\ ~ update_merges_payload_only Sample.Owned (VStr "c1") Sample.rename_payload
        bob_parameters alice_store.
Proof.
  split; [|split].
  - eexists. split; vm_compute; reflexivity.
  - reflexivity.
  - intros H. specialize (H _ eq_refl). vm_compute in H. discriminate H.
Qed.

Section UpdateHandler.

Import Pydantic DictFacts.

Variable DB : Type.
Variable model_class : Beanie.Document DB.


End UpdateHandler.


(* ------------------------------------------------------------------ *)
(** * Further properties: the filter grammar *)
(* ------------------------------------------------------------------ *)

Module MoreFacts.

Lemma in_set {V : Type} (d : dict V) (k k' : string) (v v' : V) :
  In (k', v') (set d k v) -> (k' = k /\ v' = v) \/ In (k', v') d.
Proof.
  induction d as [|[k0 v0] d IH]; simpl.
  - intros [[= <- <-]|[]]. now left.
  - destruct (String.eqb_spec k0 k) as [->|Hne]; simpl.
    + intros [[= <- <-]|Hin]; [now left | right; now right].
    + intros [Heq|Hin]; [right; now left|].
      destruct (IH Hin) as [H|H]; [now left | right; now right].
Qed.

(** A loop that returns has returned from every iteration. *)
Lemma for_each_returns_each {A S : Type} (body : S -> A -> outcome S) (l : list A)
  (s s' : S) :
  for_each body l s = Return s' ->
  forall a, In a l -> exists s1 s2, body s1 a = Return s2.
Proof.
  revert s. induction l as [|a0 l IH]; intros s Hrun a Hin; [destruct Hin|].
  cbn [for_each] in Hrun.
  destruct (body s a0) as [s1|e] eqn:Hbody; cbn [Py.bind] in Hrun; [|discriminate].
  destruct Hin as [<-|Hin]; eauto.
Qed.

Lemma operator_of_value_inv (token : string) (o : Enums.Operators) :
  Enums.operator_of_value token = Some o -> Enums.operator_value o = token.
Proof.
  unfold Enums.operator_of_value. intros Hfind.
  apply find_some in Hfind. destruct Hfind as [_ Heq]. now apply String.eqb_eq.
Qed.

End MoreFacts.

Section FilterGrammar.

Import QueryParams DictFacts StrFacts LoopFacts MoreFacts.

Variable is_valid : string -> bool.
Variable validate_bound : string -> option value.
Variable model_fields : dict FieldInfo.

Local Notation "'step'" :=
  (prepare_filter_arg is_valid validate_bound model_fields) (at level 0).

(** The clause an iteration adds is well formed. *)
Lemma prepare_filter_arg_clause filter_args self k v filter_args' self' :
  step (filter_args, self) (k, v) = Return (filter_args', self') ->
  filter_args' = filter_args
  \/ exists name clause,
       filter_args' = set filter_args name clause
       /\ well_formed_clause is_valid clause.
Proof.
  unfold prepare_filter_arg.
  destruct (unpack_last (split k ".")) as [[dotpath op]|e]; cbn [Py.bind];
    [|discriminate].
  cbv zeta. rewrite split_length.
  destruct dotpath as [|root rest]; [cbn; intros [= <- <-]; now left|].
  cbn [List.length Nat.ltb Nat.leb index nth_error Py.bind].
  rewrite orb_false_r.
  destruct (negb (contains model_fields root) && negb (mem root ["_id"]));
    [intros [= <- <-]; now left|].
  pose proof (split_from_nonempty "__" 0 EmptyString v) as Hval.
  fold (split v "__") in Hval.
  destruct (split v "__") as [|v0 val]; [congruence|].
  unfold well_formed_clause, clause_shape.
  change (mem op [Enums.operator_value Enums.BTW])
    with (String.eqb op "$btw" || false).
  change (mem op [Enums.operator_value Enums.IN; Enums.operator_value Enums.NIN])
    with (mem op ["$in"; "$nin"]).
  rewrite orb_false_r.
  destruct (String.eqb_spec op "$btw") as [->|Hbtw]; cbn [negb].
  - cbn [index nth_error Py.bind].
    destruct val as [|v1 val]; [cbn; discriminate|].
    cbn [nth_error Py.bind mem existsb String.eqb Ascii.eqb Bool.eqb orb
         is_list is_dict negb DictValue validate_bound_field get].
    cbn.
    destruct (validate_bound v0) as [lo|]; cbn; [|discriminate].
    destruct (validate_bound v1) as [hi|]; cbn; [|discriminate].
    intros [= <- <-]. right. do 2 eexists. split; [reflexivity|].
    exists "$btw", (VDict [("min", lo); ("max", hi)]). split; [reflexivity|].
    cbn. eauto.
  - cbn [index nth_error Py.bind].
    match goal with
    | |- context [if ?c then Return (VList _) else _] => destruct c eqn:Hin
    end.
    + cbn [Py.bind is_list is_dict orb negb ListValue].
      intros [= <- <-]. right. do 2 eexists. split; [reflexivity|].
      exists op. eexists. split; [reflexivity|].
      apply String.eqb_neq in Hbtw. rewrite Hbtw, Hin. eexists. reflexivity.
    + cbn [Py.bind is_list is_dict orb negb SingleValue].
      unfold QueryParams.check_object_id, CustomFields.check_object_id.
      apply String.eqb_neq in Hbtw.
      destruct (is_valid v0); cbn [Py.bind is_list is_dict orb negb];
        intros [= <- <-]; right;
        do 2 eexists; (split; [reflexivity|]);
        exists op; eexists; (split; [reflexivity|]);
        rewrite Hbtw, Hin; eexists; eauto.
Qed.

(** X1. When [prepare_filter_args] returns, every clause of [filter_by] is
    a mapping with exactly [op] and [value], and the value has the shape of
    its operator: a [min]/[max] pair for [$btw], a non-empty list cut at
    [|] for [$in] and [$nin], a string or an identifier otherwise. *)
Theorem parsed_clauses_are_well_formed :
  forall (self self' : ModelQueryParams) (query_params : list (string * string))
         (filter_by : dict (dict value)),
    prepare_filter_args is_valid validate_bound model_fields self query_params
    = Return (filter_by, self') ->
    forall name clause,
      In (name, clause) filter_by -> well_formed_clause is_valid clause.
Proof.
  intros self self' query_params filter_by Hrun.
  apply (for_each_invariant
           (fun s => forall name clause,
                In (name, clause) (fst s) -> well_formed_clause is_valid clause)
           step (filter_options query_params))
    with (s := ([], self)) (s' := (filter_by, self')).
  - intros [filter_args s] [k v] [filter_args' s'] _ Hinv Hstep.
    apply prepare_filter_arg_clause in Hstep. cbn [fst] in *.
    destruct Hstep as [->|(name & clause & -> & Hclause)]; [exact Hinv|].
    intros name' clause' Hin. apply in_set in Hin.
    destruct Hin as [[_ ->]|Hin]; eauto.
  - intros name clause [].
  - exact Hrun.
Qed.

(** An iteration writes to [others] exactly when the key is discarded. *)
Lemma prepare_filter_arg_others filter_args self k v filter_args' self' :
  step (filter_args, self) (k, v) = Return (filter_args', self') ->
  others self'
  = if discarded model_fields k then set (others self) k v else others self.
Proof.
  unfold prepare_filter_arg, discarded.
  destruct (unpack_last (split k ".")) as [[dotpath op]|e]; cbn [Py.bind];
    [|discriminate].
  cbv zeta. rewrite split_length.
  destruct dotpath as [|root rest]; [cbn; now intros [= _ <-]|].
  cbn [List.length Nat.ltb Nat.leb index nth_error Py.bind].
  rewrite orb_false_r.
  replace (mem root ["_id"]) with (String.eqb root "_id")
    by (cbn; now rewrite orb_false_r).
  destruct (negb (contains model_fields root) && negb (String.eqb root "_id")).
  - now intros [= _ <-].
  - intros Hrun.
    repeat match type of Hrun with
           | Py.bind ?c _ = Return _ =>
               destruct c eqn:?; cbn [Py.bind] in Hrun; [|discriminate Hrun]
           end.
    now inversion Hrun.
Qed.

Lemma others_after_loop items state state' :
  NoDup (keys items) ->
  for_each step items state = Return state' ->
  forall k,
    get (others (snd state')) k
    = match get items k with
      | Some v =>
          if discarded model_fields k then Some v else get (others (snd state)) k
      | None => get (others (snd state)) k
      end.
Proof.
  revert state. induction items as [|[k0 v0] items IH]; intros state Hnodup Hrun k.
  - inversion Hrun. reflexivity.
  - inversion Hnodup as [|? ? Hnotin Hnodup']; subst.
    cbn [for_each] in Hrun.
    destruct (step state (k0, v0)) as [state1|e] eqn:Hstep;
      cbn [Py.bind] in Hrun; [|discriminate].
    rewrite (IH state1 Hnodup' Hrun k).
    destruct state as [filter_args self], state1 as [filter_args1 self1].
    apply prepare_filter_arg_others in Hstep. cbn [snd]. rewrite Hstep.
    cbn [get]. destruct (String.eqb_spec k0 k) as [->|Hne].
    + replace (get items k) with (@None string) by (symmetry; now apply get_none).
      destruct (discarded model_fields k); [apply get_set_same | reflexivity].
    + destruct (discarded model_fields k0).
      * rewrite get_set_other by exact Hne. reflexivity.
      * reflexivity.
Qed.

(** X2. When [prepare_filter_args] returns, [others] holds, beside what it
    held before, exactly the discarded filter keys with their values:
    those without an attribute path (no dot) and those whose root is
    neither declared nor [_id]. Standard parameters and applied filters
    never enter it. *)
Theorem others_holds_the_discarded_keys :
  forall (self self' : ModelQueryParams) (query_params : list (string * string))
         (filter_by : dict (dict value)),
    prepare_filter_args is_valid validate_bound model_fields self query_params
    = Return (filter_by, self') ->
    (forall k,
        get (others self') k
        = match get (filter_options query_params) k with
          | Some v =>
              if discarded model_fields k then Some v else get (others self) k
          | None => get (others self) k
          end)
    /\ (forall k, In k STANDARD_PARAMS -> get (others self') k = get (others self) k)
    /\ (forall k, has_dot k = false -> discarded model_fields k = true).
Proof.
  intros self self' query_params filter_by Hrun.
  pose proof (others_after_loop _ _ _ (NoDup_keys_of_items _) Hrun) as Hothers.
  cbn [snd] in Hothers. split; [exact Hothers|]. split.
  - intros k Hstandard. rewrite Hothers.
    assert (Hnone : get (filter_options query_params) k = None);
      [|unfold filter_options in Hnone; now rewrite Hnone].
    apply get_none. unfold filter_options, of_items. intros Hin.
    apply keys_update in Hin. destruct Hin as [[]|Hin].
    unfold keys in Hin. apply in_map_iff in Hin. destruct Hin as [[k' v'] [<- Hin]].
    apply filter_In in Hin. destruct Hin as [_ Hkeep]. cbn [fst] in *.
    apply mem_In in Hstandard. now rewrite Hstandard in Hkeep.
  - intros k Hdot. unfold discarded, split.
    rewrite <- (append_empty k) at 1.
    rewrite split_from_prefix by exact Hdot. reflexivity.
Qed.

End FilterGrammar.

Lemma others_holds_the_discarded_keys_witness :
  exists filter_by self',
    QueryParams.prepare_filter_args Sample.hex_object_id Sample.decimal_bound
      Sample.parcel_fields (Sample.fresh_params 1 20 [])
      [("verbose", "1"); ("query", "shoes"); ("status.$in", "new|paid")]
    = Return (filter_by, self')
    /\ get (QueryParams.others self') "verbose" = Some "1"
    /\ get (QueryParams.others self') "query" = None
    /\ In ("status", [("op", VStr "$in"); ("value", VList [VStr "new"; VStr "paid"])])
          filter_by.
Proof.
  eexists. eexists. split; [vm_compute; reflexivity|].
  destruct (others_holds_the_discarded_keys Sample.hex_object_id Sample.decimal_bound
              Sample.parcel_fields (Sample.fresh_params 1 20 []) _
              [("verbose", "1"); ("query", "shoes"); ("status.$in", "new|paid")]
              _ eq_refl) as (Hothers & Hstandard & _).
  split; [rewrite Hothers; reflexivity|].
  split; [rewrite Hstandard; [reflexivity | cbn; tauto]|].
  now left.
Defined.

Lemma parsed_clauses_are_well_formed_witness :
  well_formed_clause Sample.hex_object_id
    [("op", VStr "$in"); ("value", VList [VStr "new"; VStr "paid"])].
Proof.
  apply (parsed_clauses_are_well_formed Sample.hex_object_id Sample.decimal_bound
           Sample.parcel_fields (Sample.fresh_params 1 20 [])
           (Sample.fresh_params 1 20 []) [("status.$in", "new|paid")]
           [("status", [("op", VStr "$in"); ("value", VList [VStr "new"; VStr "paid"])])]
           eq_refl "status").
  now left.
Defined.

(* ------------------------------------------------------------------ *)
(** * Further properties: the database query *)
(* ------------------------------------------------------------------ *)

Section QueryBuilding.

Import QueryParams DictFacts LoopFacts MoreFacts.

Variable is_valid : string -> bool.
Variable model_fields : dict FieldInfo.
Variable count : dict (dict value) -> nat.

(** X3. [get_db_query] returns only if every clause of [filter_by] on a
    declared field carries the value of an [Operators] member as its [op]
    (and, for [$btw], a mapping with [min] and [max]): an unknown operator
    on a declared field fails the call, it is not passed over. *)
Theorem returned_query_has_valid_operators :
  forall (self self' : ModelQueryParams) (default_filters : list (dict value))
         (q : dict (dict value)),
    get_db_query is_valid model_fields count self default_filters = Return (q, self') ->
    forall k clause,
      In (k, clause) (filter_by self) ->
      contains model_fields k = true ->
      exists o x,
        get clause "op" = Some (VStr (Enums.operator_value o))
        /\ get clause "value" = Some x
        /\ (o = Enums.BTW ->
            exists d lo hi,
              x = VDict d /\ get d "min" = Some lo /\ get d "max" = Some hi).
Proof.
  intros self self' default_filters q Hrun k clause Hin Hdeclared.
  apply get_db_query_inv, build_filters_inv in Hrun.
  destruct Hrun as (parsed & Hparsed & _).
  destruct (for_each_returns_each _ _ _ _ Hparsed _ Hin) as (s1 & s2 & Hstep).
  unfold apply_filter in Hstep. unfold contains in Hdeclared.
  destruct (get model_fields k) as [info|]; [|discriminate].
  unfold validate_filter in Hstep.
  destruct (get clause "op") as [[| | | | |token| | |]|]; cbn [Py.bind] in Hstep;
    try discriminate;
    try (destruct (get clause "value"); discriminate).
  destruct (get clause "value") as [x|]; [|discriminate].
  destruct (Enums.operator_of_value token) as [o|] eqn:Hop; [|discriminate].
  apply operator_of_value_inv in Hop. subst token.
  exists o, x. split; [reflexivity|]. split; [reflexivity|].
  intros ->. cbn [Py.bind] in Hstep. unfold filter_format_args in Hstep.
  cbn [filter_op filter_value Enums.format_args] in Hstep.
  unfold QueryParams.check_object_id, CustomFields.check_object_id in Hstep.
  destruct x as [| | | | |s| | |d]; try discriminate;
    try (destruct (is_valid s); discriminate).
  destruct (get d "min") as [lo|] eqn:Hlo; [|discriminate].
  destruct (get d "max") as [hi|] eqn:Hhi; [|discriminate].
  eauto 6.
Qed.



(** The values the end of [get_db_query] assigns. *)
Lemma get_db_query_assigns self default_filters q self' :
  get_db_query is_valid model_fields count self default_filters = Return (q, self') ->
  total self' = Z.of_nat (count q)
  /\ (exists quotient,
        int_div (total self') (per_page self) = Return quotient
        /\ pages self' = Z.max quotient 1)
  /\ next_page self'
     = (if ((page self - 1) * per_page self + per_page self <? total self')%Z
        then Some (page self + 1)%Z else None).
Proof.
  unfold get_db_query.
  destruct (build_filters is_valid model_fields (filter_by self) default_filters)
    as [filters|e]; cbn [Py.bind]; [|discriminate].
  destruct (int_div (Z.of_nat (count filters)) (per_page self)) as [quotient|e]
    eqn:Hdiv; cbn [Py.bind]; [|discriminate].
  intros [= <- <-]. cbn. eauto.
Qed.

(** X5. [pages] is the floor of [total / per_page] for a count below
    [2 ** 53]: on the page numbered [pages], with at least one full page
    of records, [next_page] is [None] exactly when [total] is a multiple
    of [per_page], and otherwise points at page [pages + 1], one beyond
    the reported number of pages. *)
Theorem last_counted_page_may_have_a_next :
  forall (self self' : ModelQueryParams) (default_filters : list (dict value))
         (q : dict (dict value)),
    get_db_query is_valid model_fields count self default_filters = Return (q, self') ->
    (1 <= per_page self)%Z ->
    (per_page self <= total self')%Z ->
    (total self' < 2 ^ 53)%Z ->
    page self = pages self' ->
    next_page self'
    = (if (total self' mod per_page self =? 0)%Z
       then None else Some (pages self' + 1)%Z).
Proof.
  intros self self' default_filters q Hrun Hper Htotal Hbound Hpage.
  apply get_db_query_assigns in Hrun.
  destruct Hrun as (_ & (quotient & Hdiv & Hpages) & Hnext).
  unfold int_div in Hdiv. rewrite DivFacts.int_true_div_exact in Hdiv by lia.
  injection Hdiv as <-.
  assert (Hfloor : (1 <= total self' / per_page self)%Z).
  { apply Z.div_le_lower_bound; lia. }
  rewrite Z.max_l in Hpages by lia.
  rewrite Hnext, Hpage, Hpages.
  pose proof (Z.div_mod (total self') (per_page self) ltac:(lia)) as Hdm.
  pose proof (Z.mod_pos_bound (total self') (per_page self) ltac:(lia)) as Hmod.
  destruct (Z.eqb_spec (total self' mod per_page self) 0) as [Hz|Hnz].
  - replace ((total self' / per_page self - 1) * per_page self + per_page self
             <? total self')%Z with false; [reflexivity|].
    symmetry. apply Z.ltb_ge. nia.
  - replace ((total self' / per_page self - 1) * per_page self + per_page self
             <? total self')%Z with true; [reflexivity|].
    symmetry. apply Z.ltb_lt. nia.
Qed.

End QueryBuilding.

Lemma returned_query_has_valid_operators_witness :
  let clauses := [("status", [("op", VStr "$ne"); ("value", VStr "void")])] in
  exists o x,
    get [("op", VStr "$ne"); ("value", VStr "void")] "op"
    = Some (VStr (Enums.operator_value o))
    /\ get [("op", VStr "$ne"); ("value", VStr "void")] "value" = Some x.
Proof.
  intros clauses.
  destruct (get_db_query_returns Sample.hex_object_id Sample.parcel_fields
              (fun _ => 12%nat) (Sample.fresh_params 1 20 clauses) []
              [("status", [("$ne", VStr "void")])] eq_refl ltac:(simpl; lia) eq_refl)
    as [self' Hrun].
  destruct (returned_query_has_valid_operators Sample.hex_object_id
              Sample.parcel_fields (fun _ => 12%nat) _ _ _ _ Hrun
              "status" [("op", VStr "$ne"); ("value", VStr "void")]
              (or_introl eq_refl) eq_refl) as (o & x & Hop & Hvalue & _).
  exists o, x. split; assumption.
Defined.


Lemma last_counted_page_may_have_a_next_witness :
  exists q self',
    QueryParams.get_db_query Sample.hex_object_id Sample.parcel_fields
      (fun _ => 12%nat) (Sample.fresh_params 2 5 []) [] = Return (q, self')
    /\ QueryParams.pages self' = 2%Z
    /\ QueryParams.next_page self' = Some 3%Z.
Proof.
  assert (Hrun : QueryParams.get_db_query Sample.hex_object_id Sample.parcel_fields
                   (fun _ => 12%nat) (Sample.fresh_params 2 5 []) []
                 = Return ([], QueryParams.set_pagination (Sample.fresh_params 2 5 [])
                                 12 5 (Some 3%Z) (Some 1%Z) 2))
    by (vm_compute; reflexivity).
  eexists. eexists. split; [exact Hrun|]. split; [reflexivity|].
  rewrite (last_counted_page_may_have_a_next Sample.hex_object_id
             Sample.parcel_fields (fun _ => 12%nat) _ _ _ _ Hrun);
    [reflexivity | cbn; lia | cbn; lia | vm_compute; reflexivity | reflexivity].
Defined.

(* ------------------------------------------------------------------ *)
(** * Further properties: the guards *)
(* ------------------------------------------------------------------ *)

Section BearerGuard.

Import Middleware Enums.

Variable get_user_id : string -> outcome string.
Variable klass_get : string -> outcome (option User).

(** X6. A non-public bearer guard never resolves to "no identity": when
    it returns, the Authorization header carried a non-empty token, the
    result is the non-empty user id decoded from it, and with
    [validate=True] that user exists and is not suspended. *)
Theorem bearer_guard_returns_an_identity :
  forall (validate : bool) (authorization : option HTTPAuthorizationCredentials)
         (identity : option string),
    auth_deps get_user_id klass_get false validate authorization = Return identity ->
    exists a uid,
      authorization = Some a
      /\ credentials a <> EmptyString
      /\ get_user_id (credentials a) = Return uid
      /\ uid <> EmptyString
      /\ identity = Some uid
      /\ (validate = true ->
          exists u, klass_get uid = Return (Some u) /\ truthy (is_suspended u) = false).
Proof.
  intros validate authorization identity. unfold auth_deps, credentials_missing.
  cbn [negb]. destruct authorization as [a|]; [|discriminate].
  destruct (String.eqb_spec (credentials a) EmptyString) as [Hempty|Hcred];
    [discriminate|].
  unfold identify.
  destruct (get_user_id (credentials a)) as [uid|e] eqn:Hdecode; cbn [Py.bind].
  2: { destruct e; discriminate. }
  destruct (String.eqb_spec uid EmptyString) as [->|Huid]; [discriminate|].
  destruct validate.
  - destruct (klass_get uid) as [[u|]|e] eqn:Hget; cbn [Py.bind].
    + destruct (truthy (is_suspended u)) eqn:Hsuspended; [discriminate|].
      intros [= <-]. exists a, uid. repeat split; auto. intros _. eauto.
    + discriminate.
    + destruct e; discriminate.
  - intros [= <-]. exists a, uid. repeat split; auto. discriminate.
Qed.

(** X7. Every [HTTPException] a bearer guard raises by itself has status
    401 and a detail that is a list of one error object with [type],
    [code], [loc] and [msg], the code being one of [TOKEN.REQUIRED],
    [TOKEN.INVALID], [TOKEN.DENIED] and [TOKEN.EXPIRED]. *)
Theorem bearer_guard_errors_are_structured :
  forall (public validate : bool) (authorization : option HTTPAuthorizationCredentials)
         (status : Z) (detail : value),
    raises_no_http get_user_id ->
    raises_no_http klass_get ->
    auth_deps get_user_id klass_get public validate authorization
    = Raise (HTTPException status detail) ->
    status = 401%Z
    /\ exists e,
         In e [TOKEN_REQUIRED; TOKEN_INVALID; TOKEN_DENIED; TOKEN_EXPIRED]
         /\ authentication_detail e detail.
Proof.
  intros public validate authorization status detail Hdecode Hget.
  assert (Hshape : forall e,
             In e [TOKEN_REQUIRED; TOKEN_INVALID; TOKEN_DENIED; TOKEN_EXPIRED] ->
             authentication_error e = HTTPException status detail ->
             status = 401%Z
             /\ exists e,
                  In e [TOKEN_REQUIRED; TOKEN_INVALID; TOKEN_DENIED; TOKEN_EXPIRED]
                  /\ authentication_detail e detail).
  { intros e Hin [= <- <-]. split; [reflexivity|]. exists e. split; [exact Hin|].
    eexists. repeat split; reflexivity. }
  assert (Hexpired : token_expired_error = HTTPException status detail ->
             status = 401%Z
             /\ exists e,
                  In e [TOKEN_REQUIRED; TOKEN_INVALID; TOKEN_DENIED; TOKEN_EXPIRED]
                  /\ authentication_detail e detail).
  { intros [= <- <-]. split; [reflexivity|]. exists TOKEN_EXPIRED.
    split; [cbn; tauto|]. eexists. repeat split; reflexivity. }
  unfold auth_deps. destruct public; [discriminate|].
  destruct (credentials_missing authorization).
  { cbn; intros H; apply (Hshape TOKEN_REQUIRED); [cbn; tauto | inversion H; reflexivity]. }
  destruct authorization as [a|]; [|discriminate].
  unfold identify.
  destruct (get_user_id (credentials a)) as [uid|e] eqn:Hd; cbn [Py.bind].
  - destruct (String.eqb uid EmptyString).
    { cbn; intros H; apply (Hshape TOKEN_INVALID); [cbn; tauto | inversion H; reflexivity]. }
    destruct validate; [|discriminate].
    destruct (klass_get uid) as [[u|]|e] eqn:Hg; cbn [Py.bind].
    + destruct (truthy (is_suspended u)); [|discriminate].
      cbn; intros H; apply (Hshape TOKEN_DENIED); [cbn; tauto | inversion H; reflexivity].
    + cbn; intros H; apply (Hshape TOKEN_DENIED); [cbn; tauto | inversion H; reflexivity].
    + destruct e; try discriminate.
      * cbn; intros H; apply (Hshape TOKEN_DENIED); [cbn; tauto | inversion H; reflexivity].
      * cbn; intros H; apply Hexpired; inversion H; reflexivity.
      * cbn; intros H; apply (Hshape TOKEN_INVALID); [cbn; tauto | inversion H; reflexivity].
      * cbn; intros H; inversion H; subst; exfalso. eapply Hget. exact Hg.
  - destruct e; try discriminate.
    + cbn; intros H; apply (Hshape TOKEN_DENIED); [cbn; tauto | inversion H; reflexivity].
    + cbn; intros H; apply Hexpired; inversion H; reflexivity.
    + cbn; intros H; apply (Hshape TOKEN_INVALID); [cbn; tauto | inversion H; reflexivity].
    + cbn; intros H; inversion H; subst; exfalso. eapply Hdecode. exact Hd.
Qed.

(** X8. What decoding the token raises and no [except] clause of the
    bearer guard catches (anything but an expired signature, an invalid
    signature and a validation error, so also PyJWT's error for a
    malformed token) leaves the guard unchanged: it is not turned into a
    401. *)
Theorem bearer_guard_lets_other_errors_through :
  forall (validate : bool) (a : HTTPAuthorizationCredentials) (e : exn),
    credentials a <> EmptyString ->
    get_user_id (credentials a) = Raise e ->
    uncaught e ->
    auth_deps get_user_id klass_get false validate (Some a) = Raise e.
Proof.
  intros validate a e Hcred Hdecode (Hexpired & Hinvalid & Hvalidation).
  unfold auth_deps, credentials_missing. cbn [negb].
  apply String.eqb_neq in Hcred. rewrite Hcred.
  unfold identify. rewrite Hdecode. cbn [Py.bind].
  destruct e; try reflexivity; congruence.
Qed.

End BearerGuard.

Lemma bearer_guard_returns_an_identity_witness :
  let decode := fun token => if String.eqb token "t0" then Return "u1"
                             else Raise (PyJWTError "Not enough segments") in
  let users := fun uid => Return (if String.eqb uid "u1"
                                  then Some {| Middleware.is_suspended := VBool false;
                                               Middleware.permissions := [] |}
                                  else None) in
  exists a uid, Some {| scheme := "Bearer"; credentials := "t0" |} = Some a
                /\ decode (credentials a) = Return uid /\ uid = "u1".
Proof.
  intros decode users.
  destruct (bearer_guard_returns_an_identity decode users true
              (Some {| scheme := "Bearer"; credentials := "t0" |}) (Some "u1") eq_refl)
    as (a & uid & Ha & _ & Hdecode & _ & Hid & _).
  exists a, uid. repeat split; auto. congruence.
Defined.

Lemma bearer_guard_errors_are_structured_witness :
  401%Z = 401%Z
  /\ exists e,
       In e [Enums.TOKEN_REQUIRED; Enums.TOKEN_INVALID; Enums.TOKEN_DENIED;
             Enums.TOKEN_EXPIRED]
       /\ authentication_detail e
            (VList [VDict [("type", VStr "authentication_error");
                           ("code", VStr "TOKEN.DENIED");
                           ("loc", VList [VStr "header"; VStr "authorization"]);
                           ("msg", VStr (Enums.error_message Enums.TOKEN_DENIED))]]).
Proof.
  apply (bearer_guard_errors_are_structured
           (fun _ => Return "u1") (fun _ => Return None) false true
           (Some {| scheme := "Bearer"; credentials := "t0" |})).
  - intros a status detail. discriminate.
  - intros a status detail. discriminate.
  - reflexivity.
Defined.

Lemma bearer_guard_lets_other_errors_through_witness :
  Middleware.auth_deps (fun _ => Raise (PyJWTError "Not enough segments"))
    (fun _ => Return None) false true
    (Some {| scheme := "Bearer"; credentials := "garbage" |})
  = Raise (PyJWTError "Not enough segments").
Proof.
  apply (bearer_guard_lets_other_errors_through
           (fun _ => Raise (PyJWTError "Not enough segments")) (fun _ => Return None)
           true {| scheme := "Bearer"; credentials := "garbage" |}).
  - discriminate.
  - reflexivity.
  - repeat split; discriminate.
Defined.

Section HeaderGuard.

Import Middleware Enums.

Variable A : Type.
Variable klass_get : value -> outcome (option A).

(** X9. A header guard hands the header value on unchanged; a required
    one returns only for a value that is present, and with
    [validate=True] only when the lookup found a record. *)
Theorem header_guard_returns_the_header :
  forall (required validate : bool) (parameter result : value),
    header_deps klass_get required validate parameter = Return result ->
    result = parameter
    /\ (required = true ->
        truthy parameter = true
        /\ (validate = true -> exists a, klass_get parameter = Return (Some a))).
Proof.
  intros required validate parameter result Hreturn.
  assert (Hsame : result = parameter).
  { revert Hreturn. unfold header_deps.
    destruct (negb (truthy parameter) && required)%bool; [discriminate|].
    destruct (truthy parameter && validate)%bool; cbn [Py.bind].
    - destruct (validate_attribute A klass_get required parameter);
        cbn [Py.bind]; congruence.
    - congruence. }
  split; [exact Hsame|]. intros ->. revert Hreturn. unfold header_deps, validate_attribute.
  rewrite Bool.andb_true_r.
  destruct (truthy parameter); cbn [negb andb]; [|discriminate].
  intros Hreturn. split; [reflexivity|]. intros ->. revert Hreturn.
  destruct (klass_get parameter) as [[a|]|e]; cbn [Py.bind];
    [ eauto | discriminate | destruct e; discriminate ].
Qed.

(** X10. A header guard that is not required rejects no request: absent,
    unknown or malformed, the value is returned as it came, as long as
    the lookup fails with a validation error only. *)
Theorem optional_header_guard_never_rejects :
  forall (validate : bool) (parameter : value),
    raises_validation_only klass_get ->
    header_deps klass_get false validate parameter = Return parameter.
Proof.
  intros validate parameter Hraises. unfold header_deps, validate_attribute.
  rewrite Bool.andb_false_r.
  destruct (truthy parameter && validate)%bool; [|reflexivity].
  destruct (klass_get parameter) as [[a|]|e] eqn:Hget; try reflexivity.
  destruct (Hraises _ _ Hget) as [msg ->]. reflexivity.
Qed.

(** X11. The failures of a required header guard: an absent value is
    [HEADER.ATTRIBUTE.MISSING] whether or not it is validated, and a
    present one that the lookup does not find, or cannot parse, is
    [HEADER.ATTRIBUTE.INVALID]; both are 401 with a [code]/[message]
    detail. *)
Theorem required_header_guard_failures :
  forall (validate : bool) (parameter : value),
    (truthy parameter = false ->
     header_deps klass_get true validate parameter
     = Raise (HTTPException 401 (api_detail HEADER_ATTRIBUTE_MISSING)))
    /\ (truthy parameter = true ->
        (klass_get parameter = Return None
         \/ exists msg, klass_get parameter = Raise (ValidationError msg)) ->
        header_deps klass_get true true parameter
        = Raise (HTTPException 401 (api_detail HEADER_ATTRIBUTE_INVALID))).
Proof.
  intros validate parameter. unfold header_deps, validate_attribute. split.
  - intros ->. reflexivity.
  - intros -> [-> | [msg ->]]; reflexivity.
Qed.

End HeaderGuard.

Lemma header_guard_returns_the_header_witness :
  VStr "acme" = VStr "acme"
  /\ (true = true ->
      truthy (VStr "acme") = true
      /\ (true = true ->
          exists a : nat,
            (fun p : value => Return (if truthy p then Some 7%nat else None)) (VStr "acme")
            = Return (Some a))).
Proof.
  apply (header_guard_returns_the_header nat
           (fun p => Return (if truthy p then Some 7%nat else None)) true true
           (VStr "acme") (VStr "acme")).
  reflexivity.
Defined.

Lemma optional_header_guard_never_rejects_witness :
  Middleware.header_deps
    (fun _ : value => @Raise (option nat) (ValidationError "not an ObjectId"))
    false true (VStr "acme")
  = Return (VStr "acme").
Proof.
  apply (optional_header_guard_never_rejects nat
           (fun _ => Raise (ValidationError "not an ObjectId")) true (VStr "acme")).
  intros a e [= <-]. eauto.
Defined.

Lemma required_header_guard_failures_witness :
  Middleware.header_deps (fun _ : value => @Return (option nat) None) true false VNone
  = Raise (HTTPException 401 (api_detail Enums.HEADER_ATTRIBUTE_MISSING))
  /\ Middleware.header_deps (fun _ : value => @Return (option nat) None) true true
       (VStr "acme")
     = Raise (HTTPException 401 (api_detail Enums.HEADER_ATTRIBUTE_INVALID)).
Proof.
  split.
  - apply (required_header_guard_failures nat (fun _ => Return None) false VNone).
    reflexivity.
  - apply (required_header_guard_failures nat (fun _ => Return None) true (VStr "acme")).
    + reflexivity.
    + now left.
Defined.

(** X12. The cookie-or-query dependency takes the first truthy value of
    header, cookie and query, in that order, and the default when there is
    none; the header it reads is the key itself when the key starts with
    [x-] and the key with [x-] in front otherwise, so always an [x-]
    header. *)
Theorem cookie_or_query_takes_the_first_truthy :
  forall (default header cookie query : value) (key : string),
    Middleware.cookie_or_query_deps default header cookie query
    = match List.find truthy [header; cookie; query] with
      | Some parameter => parameter
      | None => default
      end
    /\ startswith (Middleware.header_key key) "x-" = true
    /\ Middleware.header_key (Middleware.header_key key) = Middleware.header_key key.
Proof.
  intros default header cookie query key. split.
  - unfold Middleware.cookie_or_query_deps, Middleware.py_or. cbn [List.find].
    destruct (truthy header) eqn:Hh; cbv iota; rewrite ?Hh; cbv iota; rewrite ?Hh;
      [reflexivity|].
    destruct (truthy cookie) eqn:Hc; cbv iota; rewrite ?Hc; [reflexivity|].
    destruct (truthy query) eqn:Hq; cbv iota; rewrite ?Hq; reflexivity.
  - assert (Hx : startswith (Middleware.header_key key) "x-" = true).
    { unfold Middleware.header_key.
      destruct (startswith key "x-") eqn:Hkey; cbn [negb]; [exact Hkey|].
      unfold startswith. cbn. now destruct key. }
    split; [exact Hx|].
    unfold Middleware.header_key at 1. now rewrite Hx.
Qed.

Section PermissionCheck.

Import Middleware DictFacts.

Variable DB : Type.
Variable klass_get : value -> DB -> outcome (option User).

Lemma mem_nodup (x : string) (l : list string) :
  mem x (nodup string_dec l) = mem x l.
Proof.
  destruct (mem x l) eqn:Hmem.
  - apply mem_In. apply nodup_In. now apply mem_In.
  - apply mem_false. rewrite nodup_In. now apply mem_false.
Qed.

Lemma nodup_nonempty (l : list string) :
  l <> [] -> (List.length (nodup string_dec l) <? 1)%nat = false.
Proof.
  intros Hl. destruct l as [|x l]; [contradiction|].
  destruct (nodup string_dec (x :: l)) as [|y rest] eqn:Hnodup; [|reflexivity].
  exfalso. assert (Hin : In x (nodup string_dec (x :: l))) by (apply nodup_In; now left).
  now rewrite Hnodup in Hin.
Qed.

(** X13. With a non-empty role list the permission decorator looks the
    requester up (the user of the extra parameters when there are any,
    the [user_id] argument otherwise) and runs the handler exactly when
    one of the user's permissions is in the list; otherwise the request
    ends in a 403 and the handler is not run.  A requester the lookup does
    not find is an [AttributeError], not a 403. *)
Theorem permission_check_needs_a_listed_permission :
  forall (role : list string) (func : handler DB) (kwargs : Kwargs) (db : DB),
    role <> [] ->
    (forall u, klass_get (requester kwargs) db = Return (Some u) ->
               ((exists p, In p (permissions u) /\ In p role) ->
                authorize_permission klass_get role func kwargs db = func kwargs db)
               /\ ((forall p, In p (permissions u) -> ~ In p role) ->
                   authorize_permission klass_get role func kwargs db = Raise forbidden))
    /\ (klass_get (requester kwargs) db = Return None ->
        authorize_permission klass_get role func kwargs db
        = Raise (AttributeError "permissions")).
Proof.
  intros role func kwargs db Hrole. unfold authorize_permission.
  rewrite (nodup_nonempty role Hrole). fold (requester kwargs).
  unfold bind_db, read. split.
  - intros u ->. cbn [Py.bind]. split.
    + intros (p & Hp & Hin).
      assert (Hhas : existsb (fun permission => mem permission (nodup string_dec role))
                       (permissions u) = true).
      { apply existsb_exists. exists p. split; [exact Hp|].
        rewrite mem_nodup. now apply mem_In. }
      now rewrite Hhas.
    + intros Hnone.
      assert (Hhas : existsb (fun permission => mem permission (nodup string_dec role))
                       (permissions u) = false).
      { destruct (existsb _ (permissions u)) eqn:Hex; [|reflexivity].
        apply existsb_exists in Hex. destruct Hex as (p & Hp & Hmem).
        rewrite mem_nodup in Hmem. apply mem_In in Hmem. now destruct (Hnone p Hp). }
      now rewrite Hhas.
  - intros ->. reflexivity.
Qed.

End PermissionCheck.

Lemma permission_check_needs_a_listed_permission_witness :
  let users := fun (uid : value) (_ : unit) =>
                 Return (Some {| Middleware.is_suspended := VBool false;
                                 Middleware.permissions := ["viewer"] |}) in
  Middleware.authorize_permission users ["admin"; "owner"]
    (fun _ db => Return (Object None, db)) (Sample.request VNone Sample.rename_payload (VStr "u1")) tt
  = Raise forbidden.
Proof.
  intros users.
  destruct (permission_check_needs_a_listed_permission unit users ["admin"; "owner"]
              (fun _ db => Return (Object None, db))
              (Sample.request VNone Sample.rename_payload (VStr "u1")) tt)
    as [Hfound _]; [discriminate|].
  destruct (Hfound _ eq_refl) as [_ Hdenied]. apply Hdenied.
  intros p [<- | []] [H | [H | []]]; discriminate.
Defined.

Section ApiGuard.

Import Middleware Enums.

Variable find_one : dict value -> outcome (option Auth.ApiCredential).

(** X14. When a non-public API-key guard returns, it returns a token for
    the presented key: the key was found, in the keyspace its prefix
    selects, on a credential that is not deactivated; the token carries
    that credential's application and user, and reports live mode exactly
    for a key looked up among the live keys. *)
Theorem api_guard_token_describes_the_credential :
  forall (authorization : HTTPAuthorizationCredentials)
         (result : option CustomFields.AppToken),
    api_deps (Auth.find_by_key find_one) false authorization = Return result ->
    exists t c,
      result = Some t
      /\ credentials authorization <> EmptyString
      /\ find_one [(keyspace (credentials authorization),
                    VStr (credentials authorization))] = Return (Some c)
      /\ Auth.is_active c <> Some false
      /\ CustomFields.key t = credentials authorization
      /\ CustomFields.app_id t = Auth.app_id c
      /\ CustomFields.token_user_id t = Auth.user_id c
      /\ (CustomFields.token_live_mode t = true
          <-> keyspace (credentials authorization) = "live_key").
Proof.
  intros authorization result. unfold api_deps, identify_app.
  destruct (String.eqb_spec (credentials authorization) EmptyString) as [Hempty|Hkey];
    [discriminate|].
  unfold Auth.find_by_key. fold (keyspace (credentials authorization)).
  unfold of_items.
  destruct (find_one _) as [[c|]|e] eqn:Hfind; cbn [Py.bind].
  - destruct (Auth.is_active c) as [[|]|] eqn:Hactive; try discriminate;
      intros [= <-]; eexists; exists c; repeat split; try exact Hfind;
      try exact Hkey; try congruence;
      unfold CustomFields.token_live_mode, keyspace; cbn [CustomFields.key];
      destruct (startswith (credentials authorization) "sk_live"); congruence.
  - discriminate.
  - destruct e; discriminate.
Qed.

(** X15. Every [HTTPException] the API-key guard raises by itself is a
    401 whose detail is the [code]/[message] object of [TOKEN.REQUIRED],
    [TOKEN.DENIED] or [TOKEN.EXPIRED]: the [TOKEN.INVALID] branch for a
    missing key is never reached, since an empty key is reported as
    required first. *)
Theorem api_guard_errors_are_structured :
  forall (find_by_key : string -> outcome (option Auth.ApiCredential))
         (public : bool) (authorization : HTTPAuthorizationCredentials)
         (status : Z) (detail : value),
    raises_no_http find_by_key ->
    api_deps find_by_key public authorization = Raise (HTTPException status detail) ->
    status = 401%Z
    /\ exists e, In e [TOKEN_REQUIRED; TOKEN_DENIED; TOKEN_EXPIRED]
                 /\ detail = api_detail e.
Proof.
  intros find_by_key public authorization status detail Hfind.
  unfold api_deps, identify_app. destruct public; [discriminate|].
  destruct (String.eqb (credentials authorization) EmptyString).
  { intros [= <- <-]. split; [reflexivity|]. exists TOKEN_REQUIRED. cbn. tauto. }
  destruct (find_by_key (credentials authorization)) as [[c|]|e] eqn:Hget;
    cbn [Py.bind].
  - destruct (Auth.is_active c) as [[|]|]; try discriminate.
    cbn. intros [= <- <-]. split; [reflexivity|]. exists TOKEN_DENIED. cbn. tauto.
  - cbn. intros [= <- <-]. split; [reflexivity|]. exists TOKEN_DENIED. cbn. tauto.
  - destruct e; try discriminate.
    + cbn. intros [= <- <-]. split; [reflexivity|]. exists TOKEN_DENIED. cbn. tauto.
    + cbn. intros [= <- <-]. split; [reflexivity|]. exists TOKEN_EXPIRED. cbn. tauto.
    + intros [= <- <-]. exfalso. eapply Hfind. exact Hget.
Qed.

End ApiGuard.

Lemma api_guard_token_describes_the_credential_witness :
  let storefront :=
    {| Auth.name := "storefront"; Auth.entity_id := VNone; Auth.user_id := VStr "alice";
       Auth.app_id := "app_1"; Auth.test_key := Some "sk_test_abc";
       Auth.live_key := Some "sk_live_abc"; Auth.is_active := Some true |} in
  exists t,
    Middleware.api_deps (Auth.find_by_key (Sample.find_credential [storefront])) false
      {| scheme := "Bearer"; credentials := "sk_live_abc" |} = Return (Some t)
    /\ CustomFields.token_live_mode t = true
    /\ CustomFields.app_id t = "app_1".
Proof.
  intros storefront.
  destruct (api_guard_token_describes_the_credential
              (Sample.find_credential [storefront])
              {| scheme := "Bearer"; credentials := "sk_live_abc" |}
              (Some {| CustomFields.key := "sk_live_abc"; CustomFields.app_id := "app_1";
                       CustomFields.token_entity_id := VNone;
                       CustomFields.token_user_id := VStr "alice" |}) eq_refl)
    as (t & c & Hresult & _ & Hfind & _ & _ & Happ & _ & Hlive).
  exists t. split; [now rewrite <- Hresult|]. split.
  - apply Hlive. reflexivity.
  - rewrite Happ. vm_compute in Hfind. now injection Hfind as <-.
Defined.

Lemma api_guard_errors_are_structured_witness :
  401%Z = 401%Z
  /\ exists e, In e [Enums.TOKEN_REQUIRED; Enums.TOKEN_DENIED; Enums.TOKEN_EXPIRED]
               /\ api_detail Enums.TOKEN_REQUIRED = api_detail e.
Proof.
  apply (api_guard_errors_are_structured (fun _ => Return None) false
           {| scheme := "Bearer"; credentials := EmptyString |}).
  - intros key status detail. discriminate.
  - reflexivity.
Defined.

(* ------------------------------------------------------------------ *)
(** * Further properties: the generated routes *)
(* ------------------------------------------------------------------ *)

Section ScopeFacts.

Import QueryParams DictFacts.

Variable is_valid : string -> bool.
Variable model_fields : dict FieldInfo.

Lemma concat_singletons (l : list (string * value)) :
  concat (map (fun pv => of_items [pv]) l) = l.
Proof.
  induction l as [|[k v] l IH]; [reflexivity|].
  cbn [map concat]. rewrite IH. reflexivity.
Qed.

(** The last default entry written under a key decides its predicate. *)
Lemma default_entries_agree (entries : dict value) _filters k v info :
  get model_fields k = Some info ->
  (forall k' v' info',
      In (k', v') entries -> get model_fields k' = Some info' ->
      db_key k' info' = db_key k info -> v' = v) ->
  In (k, v) entries
  \/ get _filters (db_key k info) = Some (equality_predicate is_valid v) ->
  get (fold_left (default_entry is_valid model_fields) entries _filters) (db_key k info)
  = Some (equality_predicate is_valid v).
Proof.
  intros Hinfo. revert _filters.
  induction entries as [|[k0 v0] entries IH]; intros _filters Hagree Hstart.
  - destruct Hstart as [[]|Hget]. exact Hget.
  - cbn [fold_left]. apply IH.
    + intros k' v' info' Hin. apply Hagree. now right.
    + destruct Hstart as [[Hhead|Hin]|Hget].
      * injection Hhead as -> ->. right. unfold default_entry. cbn [fst snd].
        rewrite Hinfo. apply get_set_same.
      * now left.
      * right. unfold default_entry. cbn [fst snd].
        destruct (get model_fields k0) as [info0|] eqn:Hinfo0; [|exact Hget].
        destruct (string_dec (db_key k0 info0) (db_key k info)) as [Heq|Hne].
        -- rewrite (Hagree k0 v0 info0 (or_introl eq_refl) Hinfo0 Heq), Heq.
           apply get_set_same.
        -- rewrite get_set_other by exact Hne. exact Hget.
Qed.

(** The parameters of a route never meet under one database key. *)
Lemma as_dict_keys_apart (extra_parameters : CustomFields.ExtraParameters)
  k v k' v' info info' :
  In (k, v) (CustomFields.as_dict extra_parameters) ->
  In (k', v') (CustomFields.as_dict extra_parameters) ->
  db_key k' info' = db_key k info ->
  k' = k /\ v' = v.
Proof.
  intros Hin Hin' Hkey.
  destruct (db_key_cases k info) as [[Hk _]|[Hk _]];
    destruct (db_key_cases k' info') as [[Hk' _]|[Hk' _]];
    rewrite Hk, Hk' in Hkey; clear Hk Hk';
    unfold CustomFields.as_dict, CustomFields.token_dump_without_key in Hin, Hin';
    destruct (CustomFields.route_type extra_parameters),
             (CustomFields.token extra_parameters);
    cbn [In] in Hin, Hin';
    repeat (destruct Hin as [Hin|Hin]; try contradiction);
    repeat (destruct Hin' as [Hin'|Hin']; try contradiction);
    injection Hin as <- <-; injection Hin' as <- <-;
    try (split; reflexivity); cbn in Hkey; discriminate Hkey.
Qed.

End ScopeFacts.

Section RouteFacts.

Import Routing Pydantic QueryParams DictFacts.

Variable DB : Type.
Variable is_valid : string -> bool.
Variable validate_bool : string -> option bool.

(** X16. The default list function reads the page it counted: the query
    it hands to [find] is the one [get_db_query] built and counted for
    [total], read from offset [(page - 1) * per_page] with limit
    [per_page] in the requested order, and the store is left as it was. *)
Theorem list_func_reads_the_counted_query :
  forall (klass : Beanie.Document DB) (params params' : ModelQueryParams)
         (query_parameters : list (dict value))
         (extra_parameters : CustomFields.ExtraParameters)
         (ignored_deps : list string) (db db' : DB) (results : list Model),
    _list_func is_valid klass params query_parameters extra_parameters ignored_deps db
    = Return ((results, params'), db') ->
    db' = db
    /\ exists q,
         build_filters is_valid (Beanie.model_fields klass) (filter_by params)
           query_parameters = Return q
         /\ total params' = Z.of_nat (Beanie.count klass q db)
         /\ Beanie.find klass q ((page params - 1) * per_page params)%Z
              (per_page params)
              [(order_by params, Enums.direction (asc_desc params))] db
            = Return results
         /\ page_by params'
            = [("page", VInt (page params)); ("per_page", VInt (per_page params));
               ("total", VInt (total params')); ("pages", VInt (pages params'));
               ("prev_page", optional_int (prev_page params'));
               ("next_page", optional_int (next_page params'))].
Proof.
  intros klass params params' query_parameters extra_parameters ignored_deps
         db db' results.
  unfold _list_func.
  destruct (get_db_query is_valid (Beanie.model_fields klass)
              (fun q => Beanie.count klass q db) params query_parameters)
    as [[q updated]|e] eqn:Hquery; cbn [Py.bind]; [|discriminate].
  destruct (Beanie.find klass q (skip updated) (per_page updated) (sorting updated) db)
    as [found|e] eqn:Hfind; cbn [Py.bind]; [|discriminate].
  intros [= <- <- <-]. split; [reflexivity|]. exists q.
  pose proof (get_db_query_inv _ _ _ _ _ _ _ Hquery) as Hbuilt.
  pose proof (get_db_query_assigns _ _ _ _ _ _ _ Hquery) as (Htotal & _).
  split; [exact Hbuilt|]. split; [exact Htotal|].
  revert Hquery Hfind. unfold get_db_query. rewrite Hbuilt. cbn [Py.bind].
  destruct (int_div _ _); cbn [Py.bind]; [|discriminate].
  intros [= <-]. cbn. intros Hfind. split; [exact Hfind | reflexivity].
Qed.

(** X17. The list route of an endpoint that keeps the default list
    function scopes what it reads: every parameter of the request's
    [as_dict] that is not [None], not among the ignored dependencies and a
    declared field of the model is in the query handed to [find], as an
    equality on its database key, whatever the query string filtered on;
    the response reports the filters and pagination of that query. *)
Theorem list_route_scopes_the_query :
  forall (self : Endpoint DB) (kwargs : Fastapi.Kwargs) (db db' : DB)
         (result : Fastapi.response),
    call (_list self) = _list_func is_valid ->
    list_route_func is_valid validate_bool self kwargs db = Return (result, db') ->
    exists extra_parameters q params' results,
      CustomFields.make_extra_parameters is_valid validate_bool
        (Fastapi.kw_entity_id kwargs) (route_type self) (Fastapi.kw_user_id kwargs)
        (Fastapi.kw_live_mode kwargs) (Fastapi.kw_api_token kwargs)
      = Return extra_parameters
      /\ build_filters is_valid (Beanie.model_fields (model_class self))
           (filter_by (Fastapi.kw_params kwargs))
           (list_query_parameters self extra_parameters) = Return q
      /\ Beanie.find (model_class self) q (skip params') (per_page params')
           (sorting params') db = Return results
      /\ result = Fastapi.Listing (filter_by params') (query params') (view params')
                    (sort_by params') (page_by params') results
      /\ forall k v info,
           In (k, v) (CustomFields.as_dict extra_parameters) ->
           v <> VNone ->
           ~ In k (ignored_deps self) ->
           get (Beanie.model_fields (model_class self)) k = Some info ->
           get q (db_key k info) = Some (equality_predicate is_valid v).
Proof.
  intros self kwargs db db' result Hdefault.
  unfold list_route_func. destruct (allow_list self); cbn [negb]; [|discriminate].
  unfold bind_db, route_extra_parameters, read.
  destruct (CustomFields.make_extra_parameters is_valid validate_bool
              (Fastapi.kw_entity_id kwargs) (route_type self)
              (Fastapi.kw_user_id kwargs) (Fastapi.kw_live_mode kwargs)
              (Fastapi.kw_api_token kwargs)) as [extra_parameters|e];
    cbn [Py.bind]; [|discriminate].
  rewrite Hdefault. fold (list_query_parameters self extra_parameters).
  unfold _list_func.
  destruct (get_db_query is_valid (Beanie.model_fields (model_class self))
              (fun q => Beanie.count (model_class self) q db)
              (Fastapi.kw_params kwargs) (list_query_parameters self extra_parameters))
    as [[q params']|e] eqn:Hquery; cbn [Py.bind]; [|discriminate].
  destruct (Beanie.find (model_class self) q (skip params') (per_page params')
              (sorting params') db) as [results|e] eqn:Hfind;
    cbn [Py.bind]; [|discriminate].
  unfold return_db. intros [= <- <-].
  exists extra_parameters, q, params', results.
  pose proof (get_db_query_inv _ _ _ _ _ _ _ Hquery) as Hbuilt.
  repeat (split; [first [reflexivity | assumption]|]).
  intros k v info Hin Hvalue Hkept Hdeclared.
  apply build_filters_inv in Hbuilt. destruct Hbuilt as (parsed & _ & ->).
  unfold list_query_parameters. rewrite concat_singletons.
  apply default_entries_agree; [exact Hdeclared | |].
  - intros k' v' info' Hin' _ Hkey. apply filter_In in Hin'.
    exact (proj2 (as_dict_keys_apart extra_parameters k v k' v' info info' Hin
                    (proj1 Hin') Hkey)).
  - left. apply filter_In. split; [exact Hin|]. cbn [fst snd].
    apply andb_true_intro. split.
    + apply Bool.negb_true_iff. now apply mem_false.
    + destruct v; try reflexivity. contradiction.
Qed.

End RouteFacts.

Lemma list_func_reads_the_counted_query_witness :
  let parcel := Sample.document Sample.owned_fields
                  [("id", VStr "d1"); ("name", VStr "first")] in
  exists q,
    QueryParams.build_filters Sample.hex_object_id Sample.owned_fields []
      [[("user_id", VStr "alice")]] = Return q
    /\ Beanie.find Sample.Owned q 0%Z 20%Z [("_id", Enums.direction Enums.DESC)]
         [("d1", parcel)]
       = Return [parcel].
Proof.
  intros parcel.
  destruct (list_func_reads_the_counted_query Sample.collection Sample.hex_object_id
              Sample.Owned Sample.no_params
              (QueryParams.set_pagination Sample.no_params 1 0 None None 1)
              [[("user_id", VStr "alice")]]
              {| CustomFields.entity_id := VNone; CustomFields.user_id := VStr "alice";
                 CustomFields.token := None; CustomFields.live_mode := VBool false;
                 CustomFields.route_type := Enums.APP |}
              [] [("d1", parcel)] [("d1", parcel)] [parcel] eq_refl)
    as (_ & q & Hbuilt & _ & Hfind & _).
  exists q. split; [exact Hbuilt | exact Hfind].
Defined.

Lemma list_route_scopes_the_query_witness :
  let self := Routing.generate Sample.hex_object_id Sample.Owned "/owned" Enums.APP
                None [] false true true true true in
  exists q,
    QueryParams.build_filters Sample.hex_object_id Sample.owned_fields []
      (Routing.list_query_parameters self
         {| CustomFields.entity_id := VNone; CustomFields.user_id := VStr "alice";
            CustomFields.token := None; CustomFields.live_mode := VBool false;
            CustomFields.route_type := Enums.APP |}) = Return q
    /\ get q "user_id" = Some [("$eq", VStr "alice")].
Proof.
  intros self.
  destruct (list_route_scopes_the_query Sample.collection Sample.hex_object_id
              Sample.lax_bool self
              (Sample.request VNone Sample.rename_payload (VStr "alice")) [] []
              (let params' := QueryParams.set_pagination Sample.no_params 0 0 None None 1 in
               Listing (QueryParams.filter_by params') (QueryParams.query params')
                 (QueryParams.view params') (QueryParams.sort_by params')
                 (QueryParams.page_by params') [])
              eq_refl eq_refl)
    as (extra_parameters & q & params' & results & Hextra & Hbuilt & _ & _ & Hscope).
  injection Hextra as <-.
  exists q. split; [exact Hbuilt|].
  apply (Hscope "user_id" (VStr "alice") (Sample.annotated "Optional")).
  - cbn. tauto.
  - discriminate.
  - intros [].
  - reflexivity.
Defined.

Section DefaultFunctions.

Import Routing Pydantic DictFacts.

Variable DB : Type.

(** X18. What the default create function validates and saves takes its
    scope from the route, not from the payload: every key of the extra
    parameters' dump ([entity_id], [user_id], [token], [live_mode],
    [route_type]) has the route's value, [None] included, and only the
    other keys are the payload's set, non-[None] fields.  The save follows
    the validation and the response is the saved record with its links
    fetched. *)
Theorem create_takes_its_scope_from_the_route :
  forall (klass : Beanie.Document DB) (payload : Model)
         (extra_parameters : CustomFields.ExtraParameters) (db db' : DB)
         (result : Fastapi.response),
    _create_func klass payload extra_parameters db = Return (result, db') ->
    exists data validated saved linked,
      Beanie.model_validate klass data = Return validated
      /\ Beanie.save klass validated db = Return (saved, db')
      /\ Beanie.fetch_all_links klass saved db' = Return linked
      /\ result = Fastapi.Object (Some linked)
      /\ get data "entity_id" = Some (CustomFields.entity_id extra_parameters)
      /\ get data "user_id" = Some (CustomFields.user_id extra_parameters)
      /\ get data "live_mode" = Some (CustomFields.live_mode extra_parameters)
      /\ (forall k,
             ~ In k ["entity_id"; "user_id"; "token"; "live_mode"; "route_type"] ->
             get data k = get (model_dump_set payload) k).
Proof.
  intros klass payload extra_parameters db db' result.
  unfold _create_func, try_except, bind_db, read, return_db.
  set (data := update (model_dump_set payload)
                      (CustomFields.extra_parameters_dump extra_parameters)).
  destruct (Beanie.model_validate klass data) as [validated|e] eqn:Hvalid;
    cbn [Py.bind].
  2: { destruct (is_value_error e); discriminate. }
  destruct (Beanie.save klass validated db) as [[saved db1]|e] eqn:Hsave.
  2: { destruct (is_value_error e); discriminate. }
  destruct (Beanie.fetch_all_links klass saved db1) as [linked|e] eqn:Hlinks;
    cbn [Py.bind].
  2: { destruct (is_value_error e); discriminate. }
  intros [= <- <-]. exists data, validated, saved, linked.
  assert (Hnodup : NoDup (keys (CustomFields.extra_parameters_dump extra_parameters))).
  { unfold CustomFields.extra_parameters_dump. cbn [keys map fst].
    repeat constructor; cbn [In]; intuition discriminate. }
  repeat (split; [first [assumption | reflexivity
                        | unfold data; rewrite get_update by exact Hnodup; reflexivity]|]).
  intros k Hk. unfold data. apply get_update_absent.
  unfold CustomFields.extra_parameters_dump. cbn [keys map fst]. exact Hk.
Qed.

(** X19. A record that does not exist: the default fetch function
    answers without an error and without a record, while the default
    update and delete functions raise the [missing] validation error that
    names the identifier; none of them writes to the store.  A lookup that
    raises, whatever it raises, is reported by fetch as the one
    [resource id does not exist] validation error. *)
Theorem missing_record_responses :
  forall (klass : Beanie.Document DB) (obj_id : value) (payload : Model)
         (extra : dict value) (extra_parameters : CustomFields.ExtraParameters)
         (db : DB),
    (Beanie.get klass obj_id db = Return None ->
     _fetch_func obj_id klass extra_parameters db = Return (Fastapi.Object None, db)
     /\ _update_func obj_id klass payload extra db = Raise (not_found obj_id)
     /\ _delete_func obj_id klass db = Raise (not_found obj_id))
    /\ (forall e, Beanie.get klass obj_id db = Raise e ->
                  _fetch_func obj_id klass extra_parameters db
                  = Raise (RequestValidationError
                             (VList [VDict [("type", VStr "validation_error");
                                            ("loc", VList [VStr "body"; VStr "id"]);
                                            ("msg", VStr "resource id does not exist")]]))).
Proof.
  intros klass obj_id payload extra extra_parameters db. split.
  - intros Hget. unfold _fetch_func, _update_func, _delete_func, try_except,
      bind_db, read, raise_db.
    rewrite Hget. cbn [Py.bind]. repeat split; reflexivity.
  - intros e Hget. unfold _fetch_func. rewrite Hget. reflexivity.
Qed.

End DefaultFunctions.

Lemma create_takes_its_scope_from_the_route_witness :
  exists data validated,
    Beanie.model_validate Sample.Owned data = Return validated
    /\ get data "user_id" = Some (VStr "alice").
Proof.
  edestruct (create_takes_its_scope_from_the_route Sample.collection Sample.Owned
               {| Pydantic.declared := ["id"; "name"; "user_id"];
                  Pydantic.excluded := [];
                  Pydantic.attrs := [("id", VStr "d1"); ("name", VStr "first");
                                     ("user_id", VStr "mallory")];
                  Pydantic.fields_set := ["id"; "name"; "user_id"] |}
               {| CustomFields.entity_id := VNone; CustomFields.user_id := VStr "alice";
                  CustomFields.token := None; CustomFields.live_mode := VBool false;
                  CustomFields.route_type := Enums.APP |}
               [])
    as (data & validated & saved & linked & Hvalid & _ & _ & _ & _ & Huser & _).
  { reflexivity. }
  exists data, validated. split; [exact Hvalid | exact Huser].
Defined.

Lemma missing_record_responses_witness :
  Routing._fetch_func (VStr "d9") Sample.Owned
    {| CustomFields.entity_id := VNone; CustomFields.user_id := VStr "alice";
       CustomFields.token := None; CustomFields.live_mode := VBool false;
       CustomFields.route_type := Enums.APP |} []
  = Return (Object None, [])
  /\ Routing._update_func (VStr "d9") Sample.Owned Sample.rename_payload [] []
     = Raise (Routing.not_found (VStr "d9"))
  /\ Routing._delete_func (VStr "d9") Sample.Owned []
     = Raise (Routing.not_found (VStr "d9")).
Proof.
  apply (missing_record_responses Sample.collection Sample.Owned (VStr "d9")
           Sample.rename_payload []).
  reflexivity.
Defined.

Section CustomActions.

Import Routing Enums.

Variable DB : Type.
Variable is_valid : string -> bool.
Variable validate_bool : string -> option bool.

(** X20. A function registered with [action_type=CREATE] before the
    endpoint is initialised adds no route of its own; it is what the
    generated create route ([POST] on the prefix) then calls, under the
    function's name, with the endpoint's own model class (the
    [model_class] handed to the decorator is not used) and the request's
    extra parameters.  The routes registered earlier are kept in front. *)
Theorem create_override_reaches_the_create_route :
  forall (self : Endpoint DB) (routes : router DB) (name : option string)
         (ignored : list string) (service : option (Beanie.Document DB))
         (f : Function DB) (kwargs : Fastapi.Kwargs) (db : DB)
         (extra_parameters : CustomFields.ExtraParameters),
    permissions self = None ->
    allow_create self = true ->
    CustomFields.make_extra_parameters is_valid validate_bool
      (Fastapi.kw_entity_id kwargs) (route_type self) (Fastapi.kw_user_id kwargs)
      (Fastapi.kw_live_mode kwargs) (Fastapi.kw_api_token kwargs)
    = Return extra_parameters ->
    exists self' generated,
      action is_valid validate_bool self routes CREATE name ignored service f
      = (self', routes)
      /\ init is_valid validate_bool self' routes = routes ++ generated
      /\ List.length generated = 6%nat
      /\ forall r,
           In r generated -> Fastapi.methods r = ["POST"] ->
           Fastapi.path r = EmptyString ->
           Fastapi.name r = function_name f
           /\ Fastapi.endpoint r kwargs db
              = as_create f (model_class self) (Fastapi.kw_payload kwargs)
                  extra_parameters db.
Proof.
  intros self routes name ignored service f kwargs db extra_parameters
         Hpermissions Hallow Hextra.
  eexists. eexists. split; [reflexivity|]. split.
  { unfold init, init_delete_endpoint, init_update_endpoint, init_create_endpoint,
      init_fetch_endpoint, init_list_endpoint.
    rewrite <- !app_assoc. cbn [app]. reflexivity. }
  split; [reflexivity|].
  intros r Hin Hmethods Hpath. cbn [In] in Hin.
  repeat (destruct Hin as [<-|Hin];
          [cbn in Hmethods, Hpath; try discriminate Hmethods; try discriminate Hpath|]);
    [|contradiction].
  split; [reflexivity|].
  cbn [Fastapi.endpoint]. unfold _Permissions. cbn [permissions set_create].
  rewrite Hpermissions. unfold default, Middleware.authorize_permission. cbn.
  unfold create_route_func. cbn [allow_create set_create]. rewrite Hallow. cbn [negb].
  unfold bind_db, route_extra_parameters, read. cbn [route_type set_create].
  rewrite Hextra. reflexivity.
Qed.

(** X21. The routes of a custom [SINGLE], [MANY] or [DETAIL] action do
    not look at the allow flags: with the default permissions both the
    [POST] and the [PUT] route call the registered function for every
    request whose extra parameters validate, also on an endpoint whose
    flags are all off, on the action's own model class.  Only the [PUT]
    route's place in the schema follows [allow_update]. *)
Theorem action_routes_ignore_the_allow_flags :
  forall (self : Endpoint DB) (act : EndpointAction DB) (routes : router DB)
         (kwargs : Fastapi.Kwargs) (db : DB)
         (extra_parameters : CustomFields.ExtraParameters),
    permissions self = None ->
    CustomFields.make_extra_parameters is_valid validate_bool
      (Fastapi.kw_entity_id kwargs) (route_type self) (Fastapi.kw_user_id kwargs)
      (Fastapi.kw_live_mode kwargs) (Fastapi.kw_api_token kwargs)
    = Return extra_parameters ->
    exists post put,
      init_action_endpoint is_valid validate_bool self act routes
      = routes ++ [post; put]
      /\ Fastapi.methods post = ["POST"] /\ Fastapi.methods put = ["PUT"]
      /\ Fastapi.include_in_schema post = true
      /\ Fastapi.include_in_schema put = allow_update self
      /\ forall r,
           In r [post; put] ->
           Fastapi.path r = path act
           /\ Fastapi.endpoint r kwargs db
              = as_action (func act) (Fastapi.kw_obj_id kwargs) (service_class act)
                  (Fastapi.kw_payload kwargs) extra_parameters db.
Proof.
  intros self act routes kwargs db extra_parameters Hpermissions Hextra.
  eexists. eexists. split; [reflexivity|].
  repeat (split; [reflexivity|]).
  intros r [<-|[<-|[]]]; (split; [reflexivity|]);
    cbn [Fastapi.endpoint]; unfold _Permissions; rewrite Hpermissions;
    unfold default, Middleware.authorize_permission; cbn;
    unfold action_route_func, bind_db, route_extra_parameters, read;
    rewrite Hextra; reflexivity.
Qed.

End CustomActions.

Lemma create_override_reaches_the_create_route_witness :
  let self := Routing.generate Sample.hex_object_id Sample.Owned "/owned" Enums.APP
                None [] false true true true true in
  exists self' generated,
    Routing.init Sample.hex_object_id Sample.lax_bool self'
      (@nil (Route Sample.collection)) = [] ++ generated
    /\ List.length generated = 6%nat.
Proof.
  intros self.
  destruct (create_override_reaches_the_create_route Sample.collection
              Sample.hex_object_id Sample.lax_bool self [] (Some "register") [] None
              (Sample.echo "register")
              (Sample.request VNone Sample.rename_payload (VStr "alice")) []
              Sample.alice_parameters eq_refl eq_refl eq_refl)
    as (self' & generated & _ & Hinit & Hlength & _).
  exists self', generated. split; [exact Hinit | exact Hlength].
Defined.

Lemma action_routes_ignore_the_allow_flags_witness :
  let self := Routing.generate Sample.hex_object_id Sample.Owned "/owned" Enums.APP
                None [] false false false false false in
  let act := {| Routing.action_name := "login"; Routing.func := Sample.echo "login";
                Routing.action_type := Enums.SINGLE;
                Routing.action_ignored_deps := [];
                Routing.service_class := Sample.Owned |} in
  exists post put,
    Routing.init_action_endpoint Sample.hex_object_id Sample.lax_bool self act
      (@nil (Route Sample.collection)) = [] ++ [post; put]
    /\ forall r, In r [post; put] ->
         Fastapi.path r = "/login"
         /\ Fastapi.endpoint r (Sample.request VNone Sample.rename_payload (VStr "alice")) []
            = Return (Plain (VStr "login"), []).
Proof.
  intros self act.
  destruct (action_routes_ignore_the_allow_flags Sample.collection
              Sample.hex_object_id Sample.lax_bool self act []
              (Sample.request VNone Sample.rename_payload (VStr "alice")) []
              Sample.alice_parameters eq_refl eq_refl)
    as (post & put & Hroutes & _ & _ & _ & _ & Hcalls).
  exists post, put. split; [exact Hroutes | exact Hcalls].
Defined.

(* ------------------------------------------------------------------ *)
(** * Further properties: API credentials *)
(* ------------------------------------------------------------------ *)

Section Credentials.

Import Auth.

Variable DB : Type.
Variable save : ApiCredential -> M DB unit.

(** X22. Resetting credentials writes keys that resolve where they are
    stored: a regenerated test key is [sk_test_] and the draw, and is
    looked up among the test keys; a regenerated live key is [sk_live_]
    and the draw, and is looked up among the live keys; a key whose mode
    is off is kept, as are the application, the user and the active flag;
    the credential that is saved is the one returned. *)
Theorem reset_keys_resolve_in_their_keyspace :
  forall (self self' : ApiCredential) (test_mode live_mode : bool)
         (fresh_test fresh_live : string) (db db' : DB),
    reset_credentials save self test_mode live_mode fresh_test fresh_live db
    = Return (self', db') ->
    save self' db = Return (tt, db')
    /\ test_key self'
       = (if test_mode then Some ("sk_test_" ++ fresh_test)%string else test_key self)
    /\ live_key self'
       = (if live_mode then Some ("sk_live_" ++ fresh_live)%string else live_key self)
    /\ keyspace ("sk_test_" ++ fresh_test) = "test_key"
    /\ keyspace ("sk_live_" ++ fresh_live) = "live_key"
    /\ app_id self' = app_id self /\ user_id self' = user_id self
    /\ is_active self' = is_active self.
Proof.
  intros self self' test_mode live_mode fresh_test fresh_live db db'.
  unfold reset_credentials, bind_db, return_db.
  match goal with |- context [save ?c db] => set (updated := c) end.
  destruct (save updated db) as [[[] db1]|e] eqn:Hsave; [|discriminate].
  intros [= <- <-]. split; [exact Hsave|].
  unfold updated, Generators.generate_secret_key, join.
  destruct test_mode, live_mode; cbn; repeat split; reflexivity.
Qed.

(** X23. [toggle_active] and the API-key guard read the active flag
    differently: the guard turns away only a credential whose flag is
    [False], while toggling negates the flag's truth value.  So toggling
    flips a credential between admitted and denied when the flag is set,
    and a credential whose flag is [None], admitted before, is switched on
    and stays admitted.  Nothing but the flag changes. *)
Theorem toggle_flips_admission_of_a_set_flag :
  forall (self self' : ApiCredential) (db db' : DB)
         (authorization : HTTPAuthorizationCredentials),
    credentials authorization <> EmptyString ->
    toggle_active save self db = Return (self', db') ->
    save self' db = Return (tt, db')
    /\ (admitted self authorization <-> is_active self <> Some false)
    /\ (admitted self' authorization <-> is_active self <> Some true)
    /\ (is_active self = None -> is_active self' = Some true)
    /\ test_key self' = test_key self /\ live_key self' = live_key self
    /\ app_id self' = app_id self.
Proof.
  intros self self' db db' authorization Hkey.
  assert (Hguard : forall c, admitted c authorization <-> is_active c <> Some false).
  { intros c. unfold admitted, Middleware.api_deps, Middleware.identify_app.
    apply String.eqb_neq in Hkey. rewrite Hkey. cbn [Py.bind].
    destruct (is_active c) as [[|]|]; split;
      try (intros _; discriminate); try (intros _; eexists; reflexivity);
      try (intros [t Ht]; discriminate Ht); intros H; now destruct H. }
  unfold toggle_active, bind_db, return_db.
  destruct (save (set_is_active self (negb (active_flag self))) db)
    as [[[] db1]|e] eqn:Hsave; [|discriminate].
  intros [= <- <-]. split; [exact Hsave|]. split; [apply Hguard|].
  split.
  - rewrite Hguard. unfold set_is_active, active_flag. cbn [is_active].
    destruct (is_active self) as [[|]|]; cbn; split; congruence.
  - unfold set_is_active, active_flag. cbn.
    repeat split; try reflexivity. now intros ->.
Qed.

End Credentials.

Lemma reset_keys_resolve_in_their_keyspace_witness :
  exists self',
    Auth.live_key self' = Some "sk_live_Zm9v" /\ Auth.test_key self' = Some "sk_test_abc".
Proof.
  edestruct (reset_keys_resolve_in_their_keyspace unit (fun _ db => Return (tt, db))
               Sample.suspended_app _ false true "YmFy" "Zm9v" tt tt eq_refl)
    as (_ & Htest & Hlive & _).
  eexists. split; [exact Hlive | exact Htest].
Defined.

Lemma toggle_flips_admission_of_a_set_flag_witness :
  admitted (Auth.set_is_active Sample.suspended_app true)
    {| scheme := "Bearer"; credentials := "sk_live_abc" |}.
Proof.
  destruct (toggle_flips_admission_of_a_set_flag unit (fun _ db => Return (tt, db))
              Sample.suspended_app (Auth.set_is_active Sample.suspended_app true) tt tt
              {| scheme := "Bearer"; credentials := "sk_live_abc" |})
    as (_ & _ & Hafter & _).
  - discriminate.
  - reflexivity.
  - apply Hafter. discriminate.
Defined.

Section ResourceRoutes.

Import Routing QueryParams DictFacts.

Variable DB : Type.
Variable is_valid : string -> bool.

(** X24. A parameter that is [None] is treated differently by the two
    kinds of listing route.  The list route leaves it out of the default
    filters, so the query keeps for its key what the query string asked
    for; a resource route hands it on, and for a declared field the query
    built from its default filters asks for that field to equal [None]. *)
Theorem none_parameter_filters_on_resource_routes_only :
  forall (self : Endpoint DB) (extra_parameters : CustomFields.ExtraParameters)
         (filter_by : dict (dict value)) (k : string) (info : FieldInfo)
         (listed nested : dict (dict value)),
    In (k, VNone) (CustomFields.as_dict extra_parameters) ->
    ~ In k (ignored_deps self) ->
    get (Beanie.model_fields (model_class self)) k = Some info ->
    build_filters is_valid (Beanie.model_fields (model_class self)) filter_by
      (list_query_parameters self extra_parameters) = Return listed ->
    build_filters is_valid (Beanie.model_fields (model_class self)) filter_by
      (resource_query_parameters self extra_parameters) = Return nested ->
    get nested (db_key k info) = Some [("$eq", VNone)]
    /\ exists parsed,
         for_each (apply_filter is_valid (Beanie.model_fields (model_class self)))
           filter_by [] = Return parsed
         /\ get listed (db_key k info) = get parsed (db_key k info).
Proof.
  intros self extra_parameters filter_by k info listed nested
         Hin Hkept Hdeclared Hlisted Hnested.
  apply build_filters_inv in Hlisted. destruct Hlisted as (parsed & Hparsed & ->).
  apply build_filters_inv in Hnested. destruct Hnested as (parsed' & Hparsed' & ->).
  rewrite Hparsed in Hparsed'. injection Hparsed' as <-.
  unfold list_query_parameters, resource_query_parameters.
  rewrite !concat_singletons. split.
  - change [("$eq", VNone)] with (equality_predicate is_valid VNone).
    apply default_entries_agree; [exact Hdeclared | |].
    + intros k' v' info' Hin' _ Hkey. apply filter_In in Hin'.
      exact (proj2 (as_dict_keys_apart extra_parameters k VNone k' v' info info' Hin
                      (proj1 Hin') Hkey)).
    + left. apply filter_In. split; [exact Hin|]. cbn [fst].
      apply Bool.negb_true_iff. now apply mem_false.
  - exists parsed. split; [exact Hparsed|].
    apply default_entries_keep.
    intros k' v' info' Hin' _ Hkey. apply filter_In in Hin'.
    destruct Hin' as [Hin' Hfilter].
    destruct (as_dict_keys_apart extra_parameters k VNone k' v' info info' Hin Hin' Hkey)
      as [_ ->].
    cbn [snd is_none negb] in Hfilter. rewrite Bool.andb_false_r in Hfilter.
    discriminate Hfilter.
Qed.

End ResourceRoutes.

Lemma none_parameter_filters_on_resource_routes_only_witness :
  let self := Routing.generate Sample.hex_object_id
                (Sample.memory_class Sample.order_fields []) "/orders" Enums.APP
                None [] false true true true true in
  exists nested,
    QueryParams.build_filters Sample.hex_object_id Sample.order_fields []
      (Routing.resource_query_parameters self Sample.alice_parameters) = Return nested
    /\ get nested "entity_id" = Some [("$eq", VNone)].
Proof.
  intros self. eexists. split; [reflexivity|].
  apply (none_parameter_filters_on_resource_routes_only Sample.collection
           Sample.hex_object_id self Sample.alice_parameters [] "entity_id"
           (Sample.annotated "Optional") []).
  - cbn. tauto.
  - intros [].
  - reflexivity.
  - reflexivity.
  - reflexivity.
Defined.

(* ------------------------------------------------------------------ *)
(** * Further properties: helpers *)
(* ------------------------------------------------------------------ *)

Section EmptyKeys.

Import DictFacts.

Lemma set_fresh (res : dict value) (k : string) (v : value) :
  ~ In k (keys res) -> set res k v = res ++ [(k, v)].
Proof.
  induction res as [|[k0 v0] res IH]; intros Hfresh; [reflexivity|].
  cbn [set]. cbn [keys map fst In] in Hfresh.
  destruct (String.eqb_spec k0 k) as [->|Hne]; [tauto|].
  cbn [app]. rewrite IH by tauto. reflexivity.
Qed.

Lemma remove_empty_loop (data res : dict value) :
  NoDup (keys res ++ keys data) ->
  fold_left (fun res item =>
               if negb (is_none (snd item)) then set res (fst item) (snd item)
               else res) data res
  = res ++ filter (fun item => negb (is_none (snd item))) data.
Proof.
  revert res. induction data as [|[k v] data IH]; intros res Hnodup.
  - cbn. now rewrite app_nil_r.
  - cbn [fold_left filter fst snd]. cbn [keys map fst] in Hnodup.
    pose proof (NoDup_remove_2 _ _ _ Hnodup) as Hfresh.
    pose proof (NoDup_remove_1 _ _ _ Hnodup) as Hrest.
    destruct (negb (is_none v)).
    + rewrite set_fresh by (intros Hin; apply Hfresh, in_or_app; now left).
      rewrite IH.
      * now rewrite <- app_assoc.
      * unfold keys. rewrite map_app. cbn [map fst]. rewrite <- app_assoc. exact Hnodup.
    + apply IH. exact Hrest.
Qed.

(** X25. [remove_empty_keys] keeps exactly the entries whose value is
    not [None], in their order and with their values: on a dict (no key
    twice) it is the filter of the items. *)
Theorem remove_empty_keys_is_a_filter :
  forall (data : dict value),
    NoDup (keys data) ->
    Helpers.remove_empty_keys data
    = filter (fun item => negb (is_none (snd item))) data
    /\ (forall k, get (Helpers.remove_empty_keys data) k <> Some VNone)
    /\ (forall k v, v <> VNone ->
                    (get (Helpers.remove_empty_keys data) k = Some v
                     <-> get data k = Some v)).
Proof.
  intros data Hnodup.
  assert (Hfilter : Helpers.remove_empty_keys data
                    = filter (fun item => negb (is_none (snd item))) data).
  { unfold Helpers.remove_empty_keys. now rewrite remove_empty_loop. }
  split; [exact Hfilter|]. rewrite Hfilter. split.
  - intros k Hget. apply get_in_items, filter_In in Hget. now destruct Hget.
  - intros k v Hv. split.
    + intros Hget. apply get_in_items, filter_In in Hget.
      apply in_items_get; [exact Hnodup | tauto].
    + intros Hget. apply in_items_get.
      * now apply NoDup_keys_filter.
      * apply filter_In. split; [now apply get_in_items|].
        cbn [snd]. destruct v; try reflexivity. contradiction.
Qed.

End EmptyKeys.

Lemma remove_empty_keys_is_a_filter_witness :
  Helpers.remove_empty_keys
    [("name", VStr "first"); ("description", VNone); ("weight", VInt 3)]
  = [("name", VStr "first"); ("weight", VInt 3)].
Proof.
  apply (remove_empty_keys_is_a_filter
           [("name", VStr "first"); ("description", VNone); ("weight", VInt 3)]).
  repeat constructor; cbn; intuition discriminate.
Defined.

(* ------------------------------------------------------------------ *)
(** * Further properties: from the query string to the database query *)
(* ------------------------------------------------------------------ *)

Section UnappliedFilters.

Import QueryParams DictFacts StrFacts LoopFacts.

Variable is_valid : string -> bool.
Variable validate_bound : string -> option value.
Variable model_fields : dict FieldInfo.

Local Notation "'step'" :=
  (prepare_filter_arg is_valid validate_bound model_fields) (at level 0).

(** An iteration on a key whose root is declared, or is [_id], writes a
    clause under the joined attribute path when it returns. *)
Lemma prepare_filter_arg_accepts filter_args self k v root rest op filter_args' self' :
  split k "." = (root :: rest) ++ [op] ->
  contains model_fields root = true \/ root = "_id" ->
  step (filter_args, self) (k, v) = Return (filter_args', self') ->
  exists clause, filter_args' = set filter_args (join "." (root :: rest)) clause.
Proof.
  intros Hsplit Haccepted. unfold prepare_filter_arg.
  rewrite Hsplit, unpack_last_of_app. cbn [Py.bind].
  cbv zeta. rewrite split_length.
  cbn [List.length Nat.ltb Nat.leb index nth_error Py.bind].
  rewrite orb_false_r.
  replace (negb (contains model_fields root) && negb (mem root ["_id"])) with false.
  2: { destruct Haccepted as [-> | ->]; [reflexivity|].
       cbn. now rewrite andb_false_r. }
  intros Hrun.
  repeat match type of Hrun with
         | Py.bind ?c _ = Return _ =>
             destruct c eqn:?; cbn [Py.bind] in Hrun; [|discriminate Hrun]
         end.
  inversion Hrun; subst. eauto.
Qed.

Lemma parsed_name_stays items state state' name :
  for_each step items state = Return state' ->
  In name (keys (fst state)) -> In name (keys (fst state')).
Proof.
  intros Hrun Hin.
  apply (for_each_invariant (fun s => In name (keys (fst s))) step items)
    with (s := state); [|exact Hin|exact Hrun].
  intros [filter_args self] [k v] [filter_args' self'] _ Hbefore Hstep.
  cbn [fst] in *.
  apply prepare_filter_arg_cases in Hstep.
  destruct Hstep as [[-> _]|(_ & root & rest & op & clause & _ & _ & ->)];
    [exact Hbefore|].
  apply keys_set. now right.
Qed.

Lemma parsed_name_enters items state state' k v root rest op :
  In (k, v) items ->
  split k "." = (root :: rest) ++ [op] ->
  contains model_fields root = true \/ root = "_id" ->
  for_each step items state = Return state' ->
  In (join "." (root :: rest)) (keys (fst state')).
Proof.
  intros Hin Hsplit Haccepted. revert state.
  induction items as [|[k0 v0] items IH]; intros state Hrun; [contradiction|].
  cbn [for_each] in Hrun.
  destruct (step state (k0, v0)) as [[filter_args1 self1]|e] eqn:Hstep;
    cbn [Py.bind] in Hrun; [|discriminate].
  destruct Hin as [Hhead|Hin]; [|exact (IH Hin _ Hrun)].
  injection Hhead as -> ->. destruct state as [filter_args self].
  destruct (prepare_filter_arg_accepts _ _ _ _ _ _ _ _ _ Hsplit Haccepted Hstep)
    as [clause ->].
  apply (parsed_name_stays items _ _ _ Hrun). cbn [fst].
  apply keys_set. now left.
Qed.

(** X26. A filter key whose root is a declared field (or [_id]) but
    whose attribute path is not itself the name of a declared field, as
    every nested path is (and [_id] on a model that does not declare it),
    is taken for a filter by [prepare_filter_args]: it is in the returned
    [filter_by] and not in [others].  [get_db_query] then passes it over:
    the query is the one built without that clause, so the filter is
    reported and not applied. *)
Theorem accepted_path_may_not_filter :
  forall (self self' : ModelQueryParams) (query_params : list (string * string))
         (filter_by : dict (dict value)) (k v root op : string) (rest : list string),
    prepare_filter_args is_valid validate_bound model_fields self query_params
    = Return (filter_by, self') ->
    get (filter_options query_params) k = Some v ->
    split k "." = (root :: rest) ++ [op] ->
    contains model_fields root = true \/ root = "_id" ->
    get model_fields (join "." (root :: rest)) = None ->
    In (join "." (root :: rest)) (keys filter_by)
    /\ get (others self') k = get (others self) k
    /\ forall default_filters,
         build_filters is_valid model_fields filter_by default_filters
         = build_filters is_valid model_fields
             (filter (fun clause =>
                        negb (String.eqb (fst clause) (join "." (root :: rest))))
                     filter_by)
             default_filters.
Proof.
  intros self self' query_params filter_by k v root op rest
         Hparsed Hkey Hsplit Haccepted Hundeclared.
  unfold prepare_filter_args in Hparsed. split; [|split].
  - exact (parsed_name_enters _ _ _ k v root rest op (get_in_items _ _ _ Hkey)
             Hsplit Haccepted Hparsed).
  - assert (Hnodup : NoDup (keys (filter_options query_params)))
      by apply NoDup_keys_of_items.
    pose proof (others_after_loop is_valid validate_bound model_fields _ _ _
                  Hnodup Hparsed k) as Hothers.
    cbn [snd] in Hothers. rewrite Hothers, Hkey.
    unfold discarded. rewrite Hsplit, unpack_last_of_app.
    destruct Haccepted as [-> | ->]; [reflexivity|].
    cbn. now rewrite andb_false_r.
  - intros default_filters. unfold build_filters.
    rewrite (for_each_skipped (apply_filter is_valid model_fields)
               (fun clause => negb (String.eqb (fst clause) (join "." (root :: rest))))).
    + reflexivity.
    + intros _filters [name clause] Hskip. cbn [fst] in Hskip.
      apply Bool.negb_false_iff, String.eqb_eq in Hskip. subst name.
      now apply apply_filter_undeclared.
Qed.

End UnappliedFilters.

Lemma accepted_path_may_not_filter_witness :
  In "owner.name" (keys [("owner.name", [("op", VStr "$eq"); ("value", VStr "bob")])])
  /\ QueryParams.build_filters Sample.hex_object_id Sample.order_fields
       [("owner.name", [("op", VStr "$eq"); ("value", VStr "bob")])] []
     = Return [].
Proof.
  destruct (accepted_path_may_not_filter Sample.hex_object_id Sample.decimal_bound
              Sample.order_fields (Sample.fresh_params 1 20 [])
              (Sample.fresh_params 1 20 []) [("owner.name.$eq", "bob")]
              [("owner.name", [("op", VStr "$eq"); ("value", VStr "bob")])]
              "owner.name.$eq" "bob" "owner" "$eq" ["name"]
              eq_refl eq_refl eq_refl (or_introl eq_refl) eq_refl)
    as (Hreported & _ & Hbuilt).
  split; [exact Hreported|]. rewrite Hbuilt. reflexivity.
Defined.

Section ApiScope.

Import Routing Middleware.

Variable DB : Type.
Variable is_valid : string -> bool.
Variable validate_bool : string -> option bool.
Variable find_by_key : string -> outcome (option Auth.ApiCredential).

(** X27. On an API route the scope of a request is the credential's, not
    the request's: with the token the API-key guard returned, the
    parameters the routes scope by are the credential's [app_id] and
    [user_id] and the key's mode, and [entity_id] is [None], whatever
    [entity_id], [user_id] and [live_mode] the request carried.  The
    default filters of the list route therefore never hold the secret key
    and never an [entity_id]. *)
Theorem api_route_scope_is_the_credentials :
  forall (self : Endpoint DB) (kwargs : Fastapi.Kwargs)
         (authorization : HTTPAuthorizationCredentials) (t : CustomFields.AppToken)
         (extra_parameters : CustomFields.ExtraParameters),
    api_deps find_by_key false authorization = Return (Some t) ->
    CustomFields.make_extra_parameters is_valid validate_bool
      (Fastapi.kw_entity_id kwargs) Enums.API (Fastapi.kw_user_id kwargs)
      (Fastapi.kw_live_mode kwargs) (Some t) = Return extra_parameters ->
    exists c,
      find_by_key (credentials authorization) = Return (Some c)
      /\ CustomFields.as_dict extra_parameters
         = [("app_id", VStr (Auth.app_id c)); ("entity_id", VNone);
            ("user_id", Auth.user_id c);
            ("live_mode", VBool (startswith (credentials authorization) "sk_live"))]
      /\ forall default_filter,
           In default_filter (list_query_parameters self extra_parameters) ->
           get default_filter "key" = None /\ get default_filter "entity_id" = None.
Proof.
  intros self kwargs authorization t extra_parameters Hguard Hextra.
  assert (Htoken : exists c,
             find_by_key (credentials authorization) = Return (Some c)
             /\ t = {| CustomFields.key := credentials authorization;
                       CustomFields.app_id := Auth.app_id c;
                       CustomFields.token_entity_id := VNone;
                       CustomFields.token_user_id := Auth.user_id c |}).
  { revert Hguard. unfold api_deps, identify_app.
    destruct (String.eqb (credentials authorization) EmptyString); [discriminate|].
    destruct (find_by_key (credentials authorization)) as [[c|]|e]; cbn [Py.bind].
    - destruct (Auth.is_active c) as [[|]|]; try discriminate;
        intros [= <-]; exists c; split; reflexivity.
    - discriminate.
    - destruct e; discriminate. }
  destruct Htoken as (c & Hfound & ->). exists c. split; [exact Hfound|].
  assert (Hdict : CustomFields.as_dict extra_parameters
                  = [("app_id", VStr (Auth.app_id c)); ("entity_id", VNone);
                     ("user_id", Auth.user_id c);
                     ("live_mode",
                      VBool (startswith (credentials authorization) "sk_live"))]).
  { revert Hextra. unfold CustomFields.make_extra_parameters.
    destruct (CustomFields.validate_reference is_valid (Fastapi.kw_entity_id kwargs));
      cbn [Py.bind]; [|discriminate].
    destruct (CustomFields.validate_reference is_valid (Fastapi.kw_user_id kwargs));
      cbn [Py.bind]; [|discriminate].
    destruct (CustomFields.validate_optional_bool validate_bool
                (Fastapi.kw_live_mode kwargs)); cbn [Py.bind]; [|discriminate].
    intros [= <-]. unfold CustomFields.as_dict, CustomFields.token_dump_without_key,
      CustomFields.token_live_mode. cbn. unfold startswith.
    now destruct (String.prefix "sk_live" (credentials authorization)). }
  split; [exact Hdict|].
  intros default_filter. unfold list_query_parameters. rewrite Hdict.
  intros Hin. apply in_map_iff in Hin. destruct Hin as ([k v] & <- & Hin).
  apply filter_In in Hin. destruct Hin as [Hin Hkept]. cbn [In] in Hin.
  repeat (destruct Hin as [Hin|Hin]; [injection Hin as <- <-|]);
    try contradiction; cbn in Hkept |- *;
    try (split; reflexivity).
  now rewrite Bool.andb_false_r in Hkept.
Qed.

End ApiScope.

Lemma api_route_scope_is_the_credentials_witness :
  let storefront :=
    {| Auth.name := "storefront"; Auth.entity_id := VStr "acme";
       Auth.user_id := VStr "alice"; Auth.app_id := "app_1";
       Auth.test_key := Some "sk_test_abc"; Auth.live_key := Some "sk_live_abc";
       Auth.is_active := Some true |} in
  exists extra_parameters,
    CustomFields.make_extra_parameters Sample.hex_object_id Sample.lax_bool
      (VStr "other") Enums.API (VStr "mallory") (VBool false)
      (Some {| CustomFields.key := "sk_live_abc"; CustomFields.app_id := "app_1";
               CustomFields.token_entity_id := VNone;
               CustomFields.token_user_id := VStr "alice" |})
    = Return extra_parameters
    /\ CustomFields.as_dict extra_parameters
       = [("app_id", VStr "app_1"); ("entity_id", VNone); ("user_id", VStr "alice");
          ("live_mode", VBool true)].
Proof.
  intros storefront. eexists. split; [reflexivity|].
  destruct (api_route_scope_is_the_credentials Sample.collection Sample.hex_object_id
              Sample.lax_bool
              (Auth.find_by_key (Sample.find_credential [storefront]))
              (Routing.generate Sample.hex_object_id Sample.Owned "/owned" Enums.API
                 None [] false true true true true)
              {| Fastapi.kw_obj_id := VNone; Fastapi.kw_payload := Sample.rename_payload;
                 Fastapi.kw_params := Sample.no_params;
                 Fastapi.kw_user_id := VStr "mallory";
                 Fastapi.kw_entity_id := VStr "other"; Fastapi.kw_api_token := None;
                 Fastapi.kw_live_mode := VBool false;
                 Fastapi.kw_extra_parameters := None |}
              {| scheme := "Bearer"; credentials := "sk_live_abc" |}
              _ _ eq_refl eq_refl)
    as (c & Hfound & Hdict & _).
  vm_compute in Hfound. injection Hfound as <-. exact Hdict.
Defined.

Section LookupsById.

Import Routing.

Variable DB : Type.
Variable is_valid : string -> bool.
Variable validate_bool : string -> option bool.

(** X28. Under the default permissions, the fetch and delete routes
    [init] registers for an endpoint that keeps the default functions look
    a record up by its identifier alone: the registered [GET] and [DELETE]
    handlers on [/{obj_id}] give two requests for the same identifier
    whose extra parameters validate the same answer and leave the same
    store, whoever the user, the entity and the token are.  Unlike the
    list route, they do not scope by the request's parameters. *)
Theorem lookups_by_id_ignore_the_scope :
  forall (self : Endpoint DB) (routes : router DB) (kwargs kwargs' : Fastapi.Kwargs)
         (db : DB)
         (extra_parameters extra_parameters' : CustomFields.ExtraParameters),
    permissions self = None ->
    call (_fetch self) = _fetch_func ->
    call (_delete self) = _delete_func ->
    Fastapi.kw_obj_id kwargs = Fastapi.kw_obj_id kwargs' ->
    CustomFields.make_extra_parameters is_valid validate_bool
      (Fastapi.kw_entity_id kwargs) (route_type self) (Fastapi.kw_user_id kwargs)
      (Fastapi.kw_live_mode kwargs) (Fastapi.kw_api_token kwargs)
    = Return extra_parameters ->
    CustomFields.make_extra_parameters is_valid validate_bool
      (Fastapi.kw_entity_id kwargs') (route_type self) (Fastapi.kw_user_id kwargs')
      (Fastapi.kw_live_mode kwargs') (Fastapi.kw_api_token kwargs')
    = Return extra_parameters' ->
    exists generated,
      init is_valid validate_bool self routes = routes ++ generated
      /\ (exists r, In r generated /\ Fastapi.methods r = ["GET"]
                    /\ Fastapi.path r = "/{obj_id}")
      /\ (exists r, In r generated /\ Fastapi.methods r = ["DELETE"]
                    /\ Fastapi.path r = "/{obj_id}")
      /\ forall r,
           In r generated ->
           Fastapi.path r = "/{obj_id}" ->
           Fastapi.methods r = ["GET"] \/ Fastapi.methods r = ["DELETE"] ->
           Fastapi.endpoint r kwargs db = Fastapi.endpoint r kwargs' db.
Proof.
  intros self routes kwargs kwargs' db extra_parameters extra_parameters'
         Hpermissions Hfetch Hdelete Hid Hextra Hextra'.
  eexists. split.
  { unfold init, init_delete_endpoint, init_update_endpoint, init_create_endpoint,
      init_fetch_endpoint, init_list_endpoint.
    rewrite <- !app_assoc. cbn [app]. reflexivity. }
  split; [eexists; split; [right; left; reflexivity | split; reflexivity]|].
  split; [eexists; split; [do 5 right; left; reflexivity | split; reflexivity]|].
  intros r Hin Hpath Hmethods. cbn [In] in Hin.
  repeat (destruct Hin as [<-|Hin];
          [cbn in Hpath, Hmethods; try discriminate Hpath;
           try (destruct Hmethods as [Hm|Hm]; discriminate Hm)|]);
    try contradiction;
    cbn [Fastapi.endpoint]; unfold _Permissions; rewrite Hpermissions;
    unfold default, Middleware.authorize_permission; cbn.
  - unfold fetch_route_func. destruct (allow_fetch self); [|reflexivity].
    cbn [negb]. unfold bind_db, route_extra_parameters, read.
    rewrite Hextra, Hextra', Hfetch, Hid. reflexivity.
  - unfold delete_route_func. destruct (allow_delete self); [|reflexivity].
    cbn [negb]. rewrite Hdelete, Hid. reflexivity.
Qed.

End LookupsById.

Lemma lookups_by_id_ignore_the_scope_witness :
  let self := Routing.generate Sample.hex_object_id Sample.Owned "/owned" Enums.APP
                None [] true true true true true in
  let parcel := Sample.document Sample.owned_fields
                  [("id", VStr "d1"); ("name", VStr "first");
                   ("user_id", VStr "alice")] in
  exists generated fetch,
    Routing.init Sample.hex_object_id Sample.lax_bool self
      (@nil (Route Sample.collection)) = [] ++ generated
    /\ In fetch generated
    /\ Fastapi.methods fetch = ["GET"]
    /\ Fastapi.path fetch = "/{obj_id}"
    /\ Fastapi.endpoint fetch
         (Sample.request (VStr "d1") Sample.rename_payload (VStr "mallory"))
         [("d1", parcel)]
       = Fastapi.endpoint fetch
           (Sample.request (VStr "d1") Sample.rename_payload (VStr "alice"))
           [("d1", parcel)].
Proof.
  intros self parcel.
  destruct (lookups_by_id_ignore_the_scope Sample.collection Sample.hex_object_id
              Sample.lax_bool self []
              (Sample.request (VStr "d1") Sample.rename_payload (VStr "mallory"))
              (Sample.request (VStr "d1") Sample.rename_payload (VStr "alice"))
              [("d1", parcel)] _ _ eq_refl eq_refl eq_refl eq_refl eq_refl eq_refl)
    as (generated & Hinit & (fetch & Hin & Hmethods & Hpath) & _ & Hsame).
  exists generated, fetch.
  split; [exact Hinit|]. split; [exact Hin|]. split; [exact Hmethods|].
  split; [exact Hpath|].
  exact (Hsame fetch Hin Hpath (or_introl Hmethods)).
Defined.
